(** * BBand.py: Bollinger bands over a downloaded price table

    A shallow embedding of [src/BBand.py].  The script downloads a daily
    price table, adds a moving average, a rolling standard deviation and the
    two Bollinger bands to it, draws the chart and prints the latest row.

    Modelling decisions, all visible in the definitions below:
    - a pandas [DataFrame] is a row index and an ordered list of labelled
      columns; a column is either [float64] (a missing value, NaN, is [None])
      or [object] (arbitrary Python scalars).  Column labels of one frame are
      taken to be distinct, as they are for a single-ticker download; a
      lookup takes the first column carrying the label;
    - the table model ([Pandas], [BBand]) carries the cells of a float
      column as real numbers: it tells which cells are present and what they
      are worth when no operation rounds or overflows.  The numbers the
      program itself computes on lines 37-42 are binary64 numbers; they are
      modelled apart, in [Binary64], with the running sums pandas uses;
    - the frame is a mutable Python object.  It lives in a heap and is
      reached through a reference, so that the caller and
      [plot_bollinger_bands] share it;
    - Streamlit calls are recorded, in order, in a log of UI events;
    - Python exceptions are the [Raise] outcome; the state reached at the
      point of the raise is kept, as in Python. *)

From Stdlib Require Floats Uint63.
From Stdlib Require Import Reals Lra ZArith.
From stdpp Require Import base option list gmap strings.

Local Open Scope Z_scope.
Local Open Scope nat_scope.

(** ** Python outcomes *)

Inductive exn : Type :=
  | ValueError
  | KeyError (label : string)
  | DataError
  | TypeError
  | IndexError.

Inductive result (A : Type) : Type :=
  | Ok (a : A)
  | Raise (e : exn).
Arguments Ok {A} a.
Arguments Raise {A} e.

Global Instance result_ret : MRet result := fun A a => Ok a.
Global Instance result_bind : MBind result := fun A B f r =>
  match r with
  | Ok a => f a
  | Raise e => Raise e
  end.

Definition is_Ok {A} (r : result A) : Prop := ∃ a, r = Ok a.

(** ** The part of pandas the script uses *)

Module Pandas.

Definition Timestamp : Type := Z.

(** A float64 cell; [None] is NaN. *)
Abbreviation float64 := (option R).

(** A Python scalar stored in an [object] column. *)
Inductive pyobj : Type :=
  | PyFloat (x : float64)
  | PyStr (s : string)
  | PyNone.

(** The values of one column, with its dtype. *)
Inductive Column : Type :=
  | Float64 (xs : list float64)
  | Object (xs : list pyobj).

Definition size (c : Column) : nat :=
  match c with
  | Float64 xs => length xs
  | Object xs => length xs
  end.

Record DataFrame : Type := mkDataFrame {
  index : list Timestamp;
  items : list (string * Column)
}.

(** [df.columns] *)
Definition columns (df : DataFrame) : list string := (items df).*1.

(** [len(df)] *)
Definition len (df : DataFrame) : nat := length (index df).

(** [df.empty]: some axis has length 0. *)
Definition empty (df : DataFrame) : bool :=
  (len df =? 0) || (length (items df) =? 0).

(** The frames of the model: the labels are distinct and every column has
    one cell per row. *)
Definition wf (df : DataFrame) : Prop :=
  NoDup (columns df) ∧ Forall (fun kc => size kc.2 = len df) (items df).

Global Instance wf_dec df : Decision (wf df).
Proof. unfold wf. apply _. Defined.

(** *** Column access *)

Fixpoint lookup_item (k : string) (l : list (string * Column)) : option Column :=
  match l with
  | [] => None
  | (k', c) :: l' => if String.eqb k k' then Some c else lookup_item k l'
  end.

(** [df[k]] *)
Definition getitem (df : DataFrame) (k : string) : result Column :=
  match lookup_item k (items df) with
  | Some c => Ok c
  | None => Raise (KeyError k)
  end.

(** The column stored under [k], when there is one. *)
Definition column_of (df : DataFrame) (k : string) : Column :=
  default (Float64 []) (lookup_item k (items df)).

(** An existing column is replaced where it stands, a new one goes last. *)
Fixpoint assign_item (k : string) (c : Column) (l : list (string * Column))
  : list (string * Column) :=
  match l with
  | [] => [(k, c)]
  | (k', c') :: l' =>
      if String.eqb k k' then (k', c) :: l' else (k', c') :: assign_item k c l'
  end.

(** [df[k] = c] *)
Definition setitem (df : DataFrame) (k : string) (c : Column) : DataFrame :=
  {| index := index df; items := assign_item k c (items df) |}.

(** [df[ks]]: the sub-frame of the listed columns, in the listed order. *)
Fixpoint getitem_list (df : DataFrame) (ks : list string) : result DataFrame :=
  match ks with
  | [] => Ok {| index := index df; items := [] |}
  | k :: ks' =>
      c ← getitem df k;
      sub ← getitem_list df ks';
      Ok {| index := index df; items := (k, c) :: items sub |}
  end.

(** [sub.apply(f)]: [f] on every column. *)
Definition apply (f : Column → Column) (sub : DataFrame) : DataFrame :=
  {| index := index sub; items := map (fun kc => (kc.1, f kc.2)) (items sub) |}.

(** [df[ks] = sub]: the columns of [sub], taken in order, are stored under
    the labels [ks]. *)
Fixpoint setitem_list (df : DataFrame) (ks : list string)
    (cs : list (string * Column)) : DataFrame :=
  match ks, cs with
  | k :: ks', (_, c) :: cs' => setitem_list (setitem df k c) ks' cs'
  | _, _ => df
  end.

(** *** [pd.to_numeric(..., errors='coerce')] *)

Section ToNumeric.
(** The text-to-number parser of pandas; [None] when the text is not a
    number. *)
Variable parse_float : string → option R.

Definition coerce (o : pyobj) : float64 :=
  match o with
  | PyFloat x => x
  | PyStr s => parse_float s
  | PyNone => None
  end.

Definition to_numeric (c : Column) : Column :=
  match c with
  | Float64 xs => Float64 xs
  | Object xs => Float64 (coerce <$> xs)
  end.
End ToNumeric.

(** *** [dropna(subset=..., inplace=True)] *)

Definition notna_obj (o : pyobj) : bool :=
  match o with
  | PyFloat (Some _) => true
  | PyFloat None => false
  | PyStr _ => true
  | PyNone => false
  end.

Definition notna (c : Column) : list bool :=
  match c with
  | Float64 xs => (fun x : float64 => bool_decide (is_Some x)) <$> xs
  | Object xs => notna_obj <$> xs
  end.

(** The rows to keep: no listed column is missing there. *)
Fixpoint keep_mask (df : DataFrame) (subset : list string) : result (list bool) :=
  match subset with
  | [] => Ok (replicate (len df) true)
  | k :: ks =>
      c ← getitem df k;
      m ← keep_mask df ks;
      Ok (zip_with andb (notna c) m)
  end.

(** The flag of row [i]: every listed column has a value there. *)
Definition row_notna (df : DataFrame) (ks : list string) (i : nat) : bool :=
  forallb (fun k => match lookup_item k (items df) with
                    | Some c => default false (notna c !! i)
                    | None => false
                    end) ks.

Fixpoint select {A} (mask : list bool) (xs : list A) : list A :=
  match mask, xs with
  | b :: mask', x :: xs' => if b then x :: select mask' xs' else select mask' xs'
  | _, _ => []
  end.

Definition select_column (mask : list bool) (c : Column) : Column :=
  match c with
  | Float64 xs => Float64 (select mask xs)
  | Object xs => Object (select mask xs)
  end.

Definition select_rows (mask : list bool) (df : DataFrame) : DataFrame :=
  {| index := select mask (index df);
     items := map (fun kc => (kc.1, select_column mask kc.2)) (items df) |}.

Definition dropna (subset : list string) (df : DataFrame) : result DataFrame :=
  m ← keep_mask df subset;
  Ok (select_rows m df).

(** *** [rolling(window=...)], [.mean()] and [.std()]

    The aggregates of a window over real numbers: which rows get a value,
    and the value when nothing rounds or overflows.  The running
    computation on binary64 numbers is in [Binary64]. *)

(** [xs[start:stop]] *)
Definition slice {A} (xs : list A) (start stop : nat) : list A :=
  take (stop - start) (drop start xs).

Record Rolling : Type := mkRolling {
  obj : Column;
  window_size : nat;
  min_periods : nat
}.

(** [c.rolling(window=window)]: a negative window is refused; with no
    [min_periods] given, a full window is required. *)
Definition rolling (c : Column) (window : Z) : result Rolling :=
  if (window <? 0)%Z then Raise ValueError
  else Ok {| obj := c;
             window_size := Z.to_nat window;
             min_periods := Z.to_nat window |}.

(** The observations of the window that ends at row [i]: the cells of rows
    [max 0 (i + 1 - window) .. i] that are not NaN. *)
Definition observations (w : nat) (xs : list float64) (i : nat) : list R :=
  omap (fun x : float64 => x) (slice xs (i + 1 - w) (i + 1)).

Definition Rsum (l : list R) : R := foldr Rplus 0%R l.

Definition calc_mean (minp : nat) (obs : list R) : float64 :=
  let nobs := length obs in
  if (minp <=? nobs) && (0 <? nobs)
  then Some (Rsum obs / INR nobs)%R
  else None.

(** Sum of squared differences from the mean. *)
Definition ssqdm (obs : list R) : R :=
  let m := (Rsum obs / INR (length obs))%R in
  Rsum ((fun x => Rsqr (x - m)) <$> obs).

Definition calc_var (minp ddof : nat) (obs : list R) : float64 :=
  let nobs := length obs in
  if (minp <=? nobs) && (ddof <? nobs)
  then Some (ssqdm obs / INR (nobs - ddof))%R
  else None.

(** One aggregate per row; only numeric columns can be aggregated. *)
Definition roll (agg : list R → float64) (r : Rolling) : result Column :=
  match obj r with
  | Float64 xs =>
      Ok (Float64 ((fun i => agg (observations (window_size r) xs i))
                     <$> seq 0 (length xs)))
  | Object _ => Raise DataError
  end.

Definition mean (r : Rolling) : result Column :=
  roll (calc_mean (min_periods r)) r.

(** The sample standard deviation ([ddof = 1]); the variance needs at least
    one period whatever [min_periods] says. *)
Definition std (r : Rolling) : result Column :=
  roll (fun obs => sqrt <$> calc_var (max (min_periods r) 1) 1 obs) r.

(** *** Arithmetic on columns, over real numbers; NaN propagates *)

Definition fadd (x y : float64) : float64 :=
  match x, y with
  | Some a, Some b => Some (a + b)%R
  | _, _ => None
  end.

Definition fsub (x y : float64) : float64 :=
  match x, y with
  | Some a, Some b => Some (a - b)%R
  | _, _ => None
  end.

Definition fmul (k : R) (x : float64) : float64 :=
  match x with
  | Some a => Some (k * a)%R
  | None => None
  end.

(** [k * c] for a number [k] *)
Definition rmul (k : R) (c : Column) : result Column :=
  match c with
  | Float64 xs => Ok (Float64 (fmul k <$> xs))
  | Object _ => Raise TypeError
  end.

Definition binop (op : float64 → float64 → float64) (a b : Column)
  : result Column :=
  match a, b with
  | Float64 xs, Float64 ys => Ok (Float64 (zip_with op xs ys))
  | _, _ => Raise TypeError
  end.

(** [a + b] and [a - b] *)
Definition add : Column → Column → result Column := binop fadd.
Definition sub : Column → Column → result Column := binop fsub.

(** *** Rows *)

Definition tail_column (n : nat) (c : Column) : Column :=
  match c with
  | Float64 xs => Float64 (drop (length xs - n) xs)
  | Object xs => Object (drop (length xs - n) xs)
  end.

(** [df.tail(n)] *)
Definition tail (n : nat) (df : DataFrame) : DataFrame :=
  {| index := drop (len df - n) (index df);
     items := map (fun kc => (kc.1, tail_column n kc.2)) (items df) |}.

Definition cell (c : Column) (i : nat) : option pyobj :=
  match c with
  | Float64 xs => PyFloat <$> xs !! i
  | Object xs => xs !! i
  end.

(** One row of a frame: its index label and its cells by column label. *)
Record Row : Type := mkRow {
  name : Timestamp;
  cells : list (string * pyobj)
}.

(** [df.iloc[-1]].  In a well-formed frame every column has a cell in the
    last row, so the NaN filler is never used. *)
Definition iloc_last (df : DataFrame) : result Row :=
  match last (index df) with
  | None => Raise IndexError
  | Some t =>
      Ok {| name := t;
            cells := map (fun kc =>
                       (kc.1, default (PyFloat None) (cell kc.2 (len df - 1))))
                       (items df) |}
  end.

Fixpoint lookup_cell (k : string) (l : list (string * pyobj)) : option pyobj :=
  match l with
  | [] => None
  | (k', o) :: l' => if String.eqb k k' then Some o else lookup_cell k l'
  end.

(** [row[k]] *)
Definition row_getitem (row : Row) (k : string) : result pyobj :=
  match lookup_cell k (cells row) with
  | Some o => Ok o
  | None => Raise (KeyError k)
  end.

(** The argument of a [:.2f] format: a number or NaN; text and [None]
    cannot be formatted. *)
Definition format_2f (o : pyobj) : result float64 :=
  match o with
  | PyFloat x => Ok x
  | PyStr _ => Raise ValueError
  | PyNone => Raise TypeError
  end.

End Pandas.

(** ** The script *)

Module BBand.
Import Pandas.

(** A reference to a frame in the heap. *)
Definition loc : Type := nat.

(** What [yf.download] hands back: the column labels are flat, or they are
    the two-level (field, ticker) pairs of a [MultiIndex]. *)
Inductive ColumnIndex : Type :=
  | Index (labels : list string)
  | MultiIndex (labels : list (string * string)).

Record Download : Type := mkDownload {
  rows : list Timestamp;
  labels : ColumnIndex;
  values : list Column
}.

(** [idx.get_level_values(0)] *)
Definition get_level_values_0 (l : list (string * string)) : list string := l.*1.

(** The texts shown by [st.error]; the first one carries
    [list(data.columns)]. *)
Inductive message : Type :=
  | unexpected_columns (actual : list string)
  | no_history
  | cannot_plot.

Inductive Market : Type := US | TW.

(** [s.endswith(suffix)] *)
Definition endswith (s suffix : string) : bool :=
  let n := String.length s in
  let m := String.length suffix in
  (m <=? n) && String.eqb (String.substring (n - m) m s) suffix.

(** Lines 95-98: the Taiwan market suffix is added when it is missing. *)
Definition with_suffix (market : Market) (ticker_input : string) : string :=
  match market with
  | TW => if negb (endswith ticker_input ".TW")
          then (ticker_input +:+ ".TW")%string else ticker_input
  | US => ticker_input
  end.

(** The columns the chart needs. *)
Definition cols : list string := ["Open"; "High"; "Low"; "Close"; "Volume"].

(** [set(a).issubset(b)] *)
Definition issubset (a b : list string) : bool :=
  forallb (fun k => bool_decide (k ∈ b)) a.

Section Script.
(** The number parser behind [pd.to_numeric]. *)
Variable parse_float : string → option R.
(** [mplfinance]: the figure type, and [mpf.plot] of a frame with its
    added line plots, under the fixed dark style of the script. *)
Variable Figure : Type.
Variable mpf_plot : DataFrame → list Column → result Figure.
(** [yf.download(ticker, start=start, end=end)] *)
Variable yf_download : string → Timestamp → Timestamp → Download.

(** One call of the Streamlit API. *)
Inductive event : Type :=
  | st_error (m : message)
  | st_write_len (n : nat)
  | st_write_frame (df : DataFrame)
  | st_pyplot (fig : Figure)
  | st_subheader (day : Timestamp)
  | st_write_2f (label : string) (x : float64).

Record state : Type := mkState {
  heap : gmap loc DataFrame;
  ui : list event
}.

(** Computations: they read and write the state and may raise. *)
Definition M (A : Type) : Type := state → result A * state.

Global Instance M_ret : MRet M := fun A a σ => (Ok a, σ).
Global Instance M_bind : MBind M := fun A B f m σ =>
  match m σ with
  | (Ok a, σ') => f a σ'
  | (Raise e, σ') => (Raise e, σ')
  end.

Definition lift {A} (r : result A) : M A := fun σ => (r, σ).

Definition emit (e : event) : M unit :=
  fun σ => (Ok tt, {| heap := heap σ; ui := ui σ ++ [e] |}).

(** A new object. *)
Definition alloc (df : DataFrame) : M loc :=
  fun σ =>
    let l := fresh (dom (heap σ)) in
    (Ok l, {| heap := <[l := df]> (heap σ); ui := ui σ |}).

(** The object behind a reference.  Python has no dangling references;
    the model answers [TypeError] for one. *)
Definition deref (data : loc) : M DataFrame :=
  fun σ =>
    match heap σ !! data with
    | Some df => (Ok df, σ)
    | None => (Raise TypeError, σ)
    end.

(** The state in which the object behind [data] is [df]. *)
Definition with_frame (σ : state) (data : loc) (df : DataFrame) : state :=
  {| heap := <[data := df]> (heap σ); ui := ui σ |}.

Definition store (data : loc) (df : DataFrame) : M unit :=
  fun σ => (Ok tt, with_frame σ data df).

(** A statement that changes the object behind [data] in place. *)
Definition update (data : loc) (f : DataFrame → result DataFrame) : M unit :=
  df ← deref data;
  df' ← lift (f df);
  store data df'.

(** Lines 13-14: a [MultiIndex] is replaced by its first level; the frame
    below is the downloaded table under the resulting labels. *)
Definition flattened (data : Download) : DataFrame :=
  let columns :=
    match labels data with
    | MultiIndex l => get_level_values_0 l
    | Index l => l
    end in
  {| index := rows data; items := zip columns (values data) |}.

(** Lines 7-15: the table is a new object. *)
Definition download_stock_data (ticker : string) (start end_ : Timestamp)
  : M loc :=
  alloc (flattened (yf_download ticker start end_)).

(** Line 33: [data[cols] = data[cols].apply(pd.to_numeric, errors='coerce')] *)
Definition coerce_columns (df : DataFrame) : result DataFrame :=
  sub ← getitem_list df cols;
  Ok (setitem_list df cols (items (apply (to_numeric parse_float) sub))).

(** Line 37: [data['MA'] = data['Close'].rolling(window=window).mean()] *)
Definition moving_average (window : Z) (df : DataFrame) : result DataFrame :=
  close ← getitem df "Close";
  r ← rolling close window;
  ma ← mean r;
  Ok (setitem df "MA" ma).

(** Line 38: [data['STD'] = data['Close'].rolling(window=window).std()] *)
Definition moving_std (window : Z) (df : DataFrame) : result DataFrame :=
  close ← getitem df "Close";
  r ← rolling close window;
  sd ← std r;
  Ok (setitem df "STD" sd).

(** Line 41: [data['Upper'] = data['MA'] + (num_std * data['STD'])] *)
Definition upper_band (num_std : R) (df : DataFrame) : result DataFrame :=
  ma ← getitem df "MA";
  sd ← getitem df "STD";
  t ← rmul num_std sd;
  upper ← add ma t;
  Ok (setitem df "Upper" upper).

(** Line 42: [data['Lower'] = data['MA'] - (num_std * data['STD'])] *)
Definition lower_band (num_std : R) (df : DataFrame) : result DataFrame :=
  ma ← getitem df "MA";
  sd ← getitem df "STD";
  t ← rmul num_std sd;
  lower ← sub ma t;
  Ok (setitem df "Lower" lower).

(** Lines 33-42 in sequence, on the frame itself. *)
Definition augment (window : Z) (num_std : R) (df : DataFrame)
  : result DataFrame :=
  df ← coerce_columns df;
  df ← dropna cols df;
  df ← moving_average window df;
  df ← moving_std window df;
  df ← upper_band num_std df;
  lower_band num_std df.

(** *** What lines 33-42 leave in the frame, in closed form

    [augment_ok] below shows that [augment] computes [augmented]. *)

(** Line 33: each required column is replaced by its numeric version. *)
Definition coerced (df : DataFrame) : DataFrame :=
  setitem_list df cols
    (map (fun k => (k, to_numeric parse_float (column_of df k))) cols).

(** Line 34: the rows with a value in every required column. *)
Definition cleaned (df : DataFrame) : DataFrame :=
  select_rows (row_notna (coerced df) cols <$> seq 0 (len df)) (coerced df).

Definition close_values (df : DataFrame) : list float64 :=
  match column_of df "Close" with
  | Float64 xs => xs
  | Object _ => []
  end.

Definition mean_values (w : nat) (xs : list float64) : list float64 :=
  (fun i => calc_mean w (observations w xs i)) <$> seq 0 (length xs).

Definition std_values (w : nat) (xs : list float64) : list float64 :=
  (fun i => sqrt <$> calc_var (max w 1) 1 (observations w xs i))
    <$> seq 0 (length xs).

(** Lines 37-42: the four columns are added to the frame. *)
Definition banded (window : Z) (num_std : R) (df : DataFrame) : DataFrame :=
  let xs := close_values df in
  let ma := mean_values (Z.to_nat window) xs in
  let sd := std_values (Z.to_nat window) xs in
  let upper := zip_with fadd ma (fmul num_std <$> sd) in
  let lower := zip_with fsub ma (fmul num_std <$> sd) in
  setitem (setitem (setitem (setitem df
    "MA" (Float64 ma)) "STD" (Float64 sd))
    "Upper" (Float64 upper)) "Lower" (Float64 lower).

Definition augmented (window : Z) (num_std : R) (df : DataFrame)
  : DataFrame :=
  banded window num_std (cleaned df).

(** Lines 17-84; the callers pass [window] and [num_std] (the defaults
    are 20 and 2).  Every statement between the column check and the
    plot works on the caller's object. *)
Definition plot_bollinger_bands (data : loc) (window : Z) (num_std : R)
  : M (option Figure) :=
  df ← deref data;
  if negb (issubset cols (columns df)) then
    emit (st_error (unexpected_columns (columns df)));;
    mret None
  else
    update data coerce_columns;;
    update data (dropna cols);;
    update data (moving_average window);;
    update data (moving_std window);;
    update data (upper_band num_std);;
    update data (lower_band num_std);;
    df ← deref data;
    ma ← lift (getitem df "MA");
    upper ← lift (getitem df "Upper");
    lower ← lift (getitem df "Lower");
    fig ← lift (mpf_plot df [ma; upper; lower]);
    mret (Some fig).

(** A computation that shows nothing to the user and leaves every object
    other than the one behind [data] as it was. *)
Definition touches_only {A} (data : loc) (c : M A) : Prop :=
  ∀ σ, ui (c σ).2 = ui σ
       ∧ ∀ l, l ≠ data → heap (c σ).2 !! l = heap σ !! l.

(** A computation that leaves every object other than the one behind
    [data] as it was; it may show things to the user. *)
Definition keeps_others {A} (data : loc) (c : M A) : Prop :=
  ∀ σ l, l ≠ data → heap (c σ).2 !! l = heap σ !! l.

(** Lines 66-84 on a frame that has the three plotted columns. *)
Definition plotted (df : DataFrame) : result (option Figure) :=
  fig ← mpf_plot df [column_of df "MA"; column_of df "Upper";
                     column_of df "Lower"];
  Ok (Some fig).

(** [st.write(f"**...**: {row[k]:.2f}")] *)
Definition write_2f (row : Row) (k : string) : M unit :=
  o ← lift (row_getitem row k);
  x ← lift (format_2f o);
  emit (st_write_2f k x).

(** Lines 94-98 and 112-135: what the query button does with the values
    of the input widgets.  The spinner shown during the download is not
    recorded. *)
Definition query (ticker_input : string) (market : Market)
    (start_date end_date : Timestamp) (window : Z) (num_std : R) : M unit :=
  let ticker_input := with_suffix market ticker_input in
  data ← download_stock_data ticker_input start_date end_date;
  df ← deref data;
  if empty df then
    emit (st_error no_history)
  else
    emit (st_write_len (len df));;
    emit (st_write_frame (tail 5 df));;
    fig ← plot_bollinger_bands data window num_std;
    match fig with
    | None => emit (st_error cannot_plot)
    | Some fig =>
        emit (st_pyplot fig);;
        df ← deref data;
        latest_data ← lift (iloc_last df);
        emit (st_subheader (name latest_data));;
        write_2f latest_data "Close";;
        write_2f latest_data "Upper";;
        write_2f latest_data "MA";;
        write_2f latest_data "Lower"
    end.

End Script.

Arguments heap {Figure} _.
Arguments ui {Figure} _.
Arguments mkState {Figure} _ _.
Arguments st_error {Figure} _.
Arguments st_write_len {Figure} _.
Arguments st_write_frame {Figure} _.
Arguments st_pyplot {Figure} _.
Arguments st_subheader {Figure} _.
Arguments st_write_2f {Figure} _ _.
End BBand.

(** ** Lines 37-42 on binary64 numbers

    [data['Close'].rolling(window).mean()] and [.std()] as pandas computes
    them on a float64 column: one pass over the rows that keeps a running
    (Kahan-compensated) sum, respectively a running mean and sum of squared
    differences (Welford), adding the row that enters the window and
    removing the one that leaves it.  Counters are machine integers in
    pandas and natural numbers here; [roll_var] keeps its count in a double,
    which is exact for any count a table can have.  NaN is the one NaN of
    [PrimFloat]. *)

Module Binary64.

Import PrimFloat.

(** [<float64_t>n] for a count [n] *)
Definition of_count (n : nat) : float :=
  of_uint63 (Uint63.of_Z (Z.of_nat n)).

(** The bounds of the window of row [i] (pandas' [FixedWindowIndexer]):
    the rows [start .. stop - 1]. *)
Definition start (w i : nat) : nat := if w =? 0 then i else i + 1 - w.
Definition stop (w i : nat) : nat := if w =? 0 then i else i + 1.

(** The loop shared by [roll_mean] and [roll_var].  Row [i] starts from
    scratch when it is the first row or its window begins where the previous
    one ended or later; otherwise the state of the previous row loses the
    rows that left the window and gains those that entered it. *)
Section Roll.

Context {State : Type}.
Variable setup : float → State.
Variable add_value remove_value : float → State → State.
Variable calc : State → float.

Definition window_state (values : list float) (w i : nat) (prev : State)
  : State :=
  let s := start w i in
  let e := stop w i in
  if (i =? 0) || (stop w (i - 1) <=? s)
  then foldl (fun st val => add_value val st)
         (setup (nth s values nan)) (Pandas.slice values s e)
  else
    let st := foldl (fun st val => remove_value val st) prev
                (Pandas.slice values (start w (i - 1)) s) in
    foldl (fun st val => add_value val st) st
      (Pandas.slice values (stop w (i - 1)) e).

Fixpoint roll_from (values : list float) (w n i : nat) (prev : State)
  : list float :=
  match n with
  | 0 => []
  | S n' =>
      let st := window_state values w i prev in
      calc st :: roll_from values w n' (S i) st
  end.

Definition roll (values : list float) (w : nat) : list float :=
  roll_from values w (length values) 0 (setup nan).

End Roll.

(** The rows [a .. b] carry equal numbers, each compared with the one
    before it as [add_mean] and [add_var] do. *)
Definition run_of_equal (values : list float) (a b : nat) : Prop :=
  ∀ t, a ≤ t < b →
    ∃ x y, values !! t = Some x ∧ values !! S t = Some y
           ∧ (y =? x)%float = true.

(** What the state of row [j] holds on a column without NaN, in terms of
    its count of observations, the length of its run of equal values and
    the last value it has seen: the count is the number of rows of the
    window, the last value is the value of row [j], and the run is at least
    as long as any run of equal values that ends at row [j] inside the
    window. *)
Definition row_state {State : Type} (count run : State → nat)
    (prev : State → float) (values : list float) (w j : nat) (st : State)
  : Prop :=
  count st = min (j + 1) w
  ∧ values !! j = Some (prev st)
  ∧ ∀ k, 1 ≤ k ≤ min (j + 1) w →
      run_of_equal values (j + 1 - k) j → k ≤ run st.

(** *** [roll_mean] *)

Record mean_state : Type := mkMean {
  nobs : nat;
  sum_x : float;
  neg_ct : nat;
  compensation_add : float;
  compensation_remove : float;
  num_consecutive_same_value : nat;
  prev_value : float
}.

Definition setup_mean (first : float) : mean_state :=
  {| nobs := 0; sum_x := 0; neg_ct := 0;
     compensation_add := 0; compensation_remove := 0;
     num_consecutive_same_value := 0; prev_value := first |}.

Definition add_mean (val : float) (st : mean_state) : mean_state :=
  if (val =? val)%float then
    let y := (val - compensation_add st)%float in
    let t := (sum_x st + y)%float in
    {| nobs := nobs st + 1;
       sum_x := t;
       neg_ct := if get_sign val then neg_ct st + 1 else neg_ct st;
       compensation_add := (t - sum_x st - y)%float;
       compensation_remove := compensation_remove st;
       num_consecutive_same_value :=
         if (val =? prev_value st)%float
         then num_consecutive_same_value st + 1 else 1;
       prev_value := val |}
  else st.

Definition remove_mean (val : float) (st : mean_state) : mean_state :=
  if (val =? val)%float then
    let y := (- val - compensation_remove st)%float in
    let t := (sum_x st + y)%float in
    {| nobs := nobs st - 1;
       sum_x := t;
       neg_ct := if get_sign val then neg_ct st - 1 else neg_ct st;
       compensation_add := compensation_add st;
       compensation_remove := (t - sum_x st - y)%float;
       num_consecutive_same_value := num_consecutive_same_value st;
       prev_value := prev_value st |}
  else st.

(** For a run of equal values the value itself is returned, and a mean of
    the wrong sign is replaced by zero. *)
Definition calc_mean (minp : nat) (st : mean_state) : float :=
  if (minp <=? nobs st) && (0 <? nobs st) then
    let result := (sum_x st / of_count (nobs st))%float in
    if nobs st <=? num_consecutive_same_value st then prev_value st
    else if (neg_ct st =? 0) && (result <? 0)%float then 0%float
    else if (neg_ct st =? nobs st) && (0 <? result)%float then 0%float
    else result
  else nan.

Definition roll_mean (values : list float) (w minp : nat) : list float :=
  roll setup_mean add_mean remove_mean (calc_mean minp) values w.

(** *** [roll_var] *)

Record var_state : Type := mkVar {
  var_nobs : nat;
  mean_x : float;
  ssqdm_x : float;
  var_compensation_add : float;
  var_compensation_remove : float;
  var_num_consecutive_same_value : nat;
  var_prev_value : float
}.

Definition setup_var (first : float) : var_state :=
  {| var_nobs := 0; mean_x := 0; ssqdm_x := 0;
     var_compensation_add := 0; var_compensation_remove := 0;
     var_num_consecutive_same_value := 0; var_prev_value := first |}.

Definition add_var (val : float) (st : var_state) : var_state :=
  if negb (val =? val)%float then st
  else
    let n := var_nobs st + 1 in
    let prev_mean := (mean_x st - var_compensation_add st)%float in
    let y := (val - var_compensation_add st)%float in
    let t := (y - mean_x st)%float in
    let delta := t in
    let mean := if n =? 0 then 0%float
                else (mean_x st + delta / of_count n)%float in
    {| var_nobs := n;
       mean_x := mean;
       ssqdm_x := (ssqdm_x st + (val - prev_mean) * (val - mean))%float;
       var_compensation_add := (t + mean_x st - y)%float;
       var_compensation_remove := var_compensation_remove st;
       var_num_consecutive_same_value :=
         if (val =? var_prev_value st)%float
         then var_num_consecutive_same_value st + 1 else 1;
       var_prev_value := val |}.

Definition remove_var (val : float) (st : var_state) : var_state :=
  if (val =? val)%float then
    let n := var_nobs st - 1 in
    if n =? 0 then
      {| var_nobs := n; mean_x := 0; ssqdm_x := 0;
         var_compensation_add := var_compensation_add st;
         var_compensation_remove := var_compensation_remove st;
         var_num_consecutive_same_value := var_num_consecutive_same_value st;
         var_prev_value := var_prev_value st |}
    else
      let prev_mean := (mean_x st - var_compensation_remove st)%float in
      let y := (val - var_compensation_remove st)%float in
      let t := (y - mean_x st)%float in
      let delta := t in
      let mean := (mean_x st - delta / of_count n)%float in
      {| var_nobs := n;
         mean_x := mean;
         ssqdm_x := (ssqdm_x st - (val - prev_mean) * (val - mean))%float;
         var_compensation_add := var_compensation_add st;
         var_compensation_remove := (t + mean_x st - y)%float;
         var_num_consecutive_same_value := var_num_consecutive_same_value st;
         var_prev_value := var_prev_value st |}
  else st.

Definition calc_var (minp ddof : nat) (st : var_state) : float :=
  if (minp <=? var_nobs st) && (ddof <? var_nobs st) then
    if (var_nobs st =? 1)
       || (var_nobs st <=? var_num_consecutive_same_value st)
    then 0%float
    else (ssqdm_x st / (of_count (var_nobs st) - of_count ddof))%float
  else nan.

(** At least one observation is required whatever [minp] says. *)
Definition roll_var (values : list float) (w minp ddof : nat) : list float :=
  roll setup_var add_var remove_var (calc_var (max minp 1) ddof) values w.

(** [zsqrt]: the square root, with zero in place of the root of a negative
    number. *)
Definition zsqrt (x : float) : float :=
  if (x <? 0)%float then 0%float else sqrt x.

(** [Rolling._prep_values]: an infinite value is handed to the loops as
    NaN. *)
Definition prep_values (values : list float) : list float :=
  (fun v => if is_infinity v then nan else v) <$> values.

(** *** Lines 37, 38, 41 and 42 on the [Close] column

    [rolling(window=window)] requires a full window
    ([min_periods = window]); [.std()] is the square root of the variance
    with [ddof = 1]. *)

Definition moving_average (close : list float) (window : nat) : list float :=
  roll_mean (prep_values close) window window.

Definition moving_std (close : list float) (window : nat) : list float :=
  zsqrt <$> roll_var (prep_values close) window window 1.

Definition upper_band (close : list float) (window : nat) (num_std : float)
  : list float :=
  zip_with (fun a s => a + s * num_std)%float
    (moving_average close window) (moving_std close window).

Definition lower_band (close : list float) (window : nat) (num_std : float)
  : list float :=
  zip_with (fun a s => a - s * num_std)%float
    (moving_average close window) (moving_std close window).

End Binary64.

(** ** The indicator fields as the specification words them *)

Module Spec.
Import Pandas BBand.

(** [close[i-w+1 .. i]], the [w] closes that end at position [i]. *)
Definition trailing (close : list R) (w i : nat) : list R :=
  (fun j => nth j close 0%R) <$> seq (i + 1 - w) w.

Definition arithmetic_mean (l : list R) : R :=
  (Rsum l / INR (length l))%R.

(** Sample standard deviation: the divisor is the number of values
    minus one. *)
Definition sample_std (l : list R) : R :=
  sqrt (Rsum ((fun x => Rsqr (x - arithmetic_mean l)) <$> l)
        / (INR (length l) - 1))%R.

(** Mean of the trailing window if [i ≥ w - 1], else absent. *)
Definition movingAverage (close : list R) (w i : nat) : float64 :=
  if w <=? i + 1 then Some (arithmetic_mean (trailing close w i)) else None.

Definition stdDev (close : list R) (w i : nat) : float64 :=
  if w <=? i + 1 then Some (sample_std (trailing close w i)) else None.

(** A cell that coercion turns into a number; a cell that is missing
    already is not one. *)
Definition coerces (parse_float : string → option R) (c : Column) (i : nat)
  : bool :=
  match cell c i with
  | Some o => bool_decide (is_Some (coerce parse_float o))
  | None => false
  end.

(** A row in which all five required fields coerce to a number. *)
Definition complete_row (parse_float : string → option R) (df : DataFrame)
    (i : nat) : bool :=
  forallb (fun k => match lookup_item k (items df) with
                    | Some c => coerces parse_float c i
                    | None => false
                    end) cols.

(** One flag per row of the frame. *)
Definition complete_rows (parse_float : string → option R) (df : DataFrame)
  : list bool :=
  complete_row parse_float df <$> seq 0 (len df).

(** The positions of the rows in which all five required fields coerce to
    a number, in increasing order. *)
Definition kept_rows (parse_float : string → option R) (df : DataFrame)
  : list nat :=
  List.filter (complete_row parse_float df) (seq 0 (len df)).

(** The four fields the engine adds. *)
Definition indicators : list string := ["MA"; "STD"; "Upper"; "Lower"].
End Spec.

(** ** Sample inputs *)

Module Sample.
Import Pandas BBand.
Local Open Scope R_scope.

(** A parser that knows one text. *)
Definition parse_float (s : string) : option R :=
  if String.eqb s "12.5" then Some 12.5 else None.

(** A figure is the list of line plots it was given. *)
Definition Figure : Type := list Column.
Definition mpf_plot (df : DataFrame) (lines : list Column) : result Figure :=
  Ok lines.

Definition numbers (l : list R) : Column := Float64 (Some <$> l).

(** Three trading days. *)
Definition three_days : DataFrame :=
  {| index := [1; 2; 3]%Z;
     items := [("Open", numbers [10; 11; 13]);
               ("High", numbers [12; 13; 15]);
               ("Low", numbers [9; 10; 12]);
               ("Close", numbers [10; 12; 14]);
               ("Volume", numbers [100; 200; 300])] |}.

(** Ten trading days with distinct closes. *)
Definition ten_days : DataFrame :=
  {| index := [1; 2; 3; 4; 5; 6; 7; 8; 9; 10]%Z;
     items := [("Open", numbers [1; 2; 3; 4; 5; 6; 7; 8; 9; 10]);
               ("High", numbers [1; 2; 3; 4; 5; 6; 7; 8; 9; 10]);
               ("Low", numbers [1; 2; 3; 4; 5; 6; 7; 8; 9; 10]);
               ("Close", numbers [1; 2; 3; 4; 5; 6; 7; 8; 9; 10]);
               ("Volume", numbers [1; 2; 3; 4; 5; 6; 7; 8; 9; 10])] |}.

(** Three days, the second with a close that is not a number. *)
Definition dirty : DataFrame :=
  {| index := [1; 2; 3]%Z;
     items := [("Open", numbers [10; 11; 13]);
               ("High", numbers [12; 13; 15]);
               ("Low", numbers [9; 10; 12]);
               ("Close", Object [PyStr "12.5"; PyStr "n/a"; PyFloat (Some 14)]);
               ("Volume", numbers [100; 200; 300])] |}.

(** A table without the volume. *)
Definition no_volume : DataFrame :=
  {| index := [1; 2; 3]%Z;
     items := [("Open", numbers [10; 11; 13]);
               ("High", numbers [12; 13; 15]);
               ("Low", numbers [9; 10; 12]);
               ("Close", numbers [10; 12; 14])] |}.

(** A provider that knows one ticker, and answers with two-level labels. *)
Definition nothing : Download :=
  {| rows := []; labels := Index []; values := [] |}.

Definition tsmc : Download :=
  {| rows := [1; 2; 3]%Z;
     labels := MultiIndex [("Open", "2330.TW"); ("High", "2330.TW");
                           ("Low", "2330.TW"); ("Close", "2330.TW");
                           ("Volume", "2330.TW")];
     values := [numbers [10; 11; 13]; numbers [12; 13; 15];
                numbers [9; 10; 12]; numbers [10; 12; 14];
                numbers [100; 200; 300]] |}.

Definition yf_download (ticker : string) (start end_ : Timestamp) : Download :=
  if String.eqb ticker "2330.TW" then tsmc else nothing.

(** Four trading days that all closed at 100. *)
Definition flat_days : DataFrame :=
  {| index := [1; 2; 3; 4]%Z;
     items := [("Open", numbers [99; 100; 101; 100]);
               ("High", numbers [101; 101; 102; 101]);
               ("Low", numbers [98; 99; 100; 99]);
               ("Close", numbers [100; 100; 100; 100]);
               ("Volume", numbers [100; 200; 300; 400])] |}.

(** A provider whose tables lack the volume, under flat labels. *)
Definition yf_partial (ticker : string) (start end_ : Timestamp) : Download :=
  {| rows := [1; 2; 3]%Z;
     labels := Index ["Open"; "High"; "Low"; "Close"];
     values := [numbers [10; 11; 13]; numbers [12; 13; 15];
                numbers [9; 10; 12]; numbers [10; 12; 14]] |}.

(** A plotting backend that refuses every table. *)
Definition mpf_refuses (df : DataFrame) (lines : list Column) : result Figure :=
  Raise ValueError.

(** The state of a fresh session. *)
Definition fresh_session : state Figure := {| heap := ∅; ui := [] |}.

(** The reference the caller holds, and a state in which it is the only
    object. *)
Definition data : loc := 0%nat.

Definition holding (df : DataFrame) : state Figure :=
  {| heap := {[ data := df ]}; ui := [] |}.

(** A provider whose table has a close that is not a number on the second
    day. *)
Definition yf_dirty (ticker : string) (start end_ : Timestamp) : Download :=
  {| rows := [1; 2; 3]%Z;
     labels := Index ["Open"; "High"; "Low"; "Close"; "Volume"];
     values := [numbers [10; 11; 13]; numbers [12; 13; 15];
                numbers [9; 10; 12];
                Object [PyStr "12.5"; PyStr "n/a"; PyFloat (Some 14)];
                numbers [100; 200; 300]] |}.
End Sample.

(** Close columns as binary64 numbers. *)
Module Closes.
Import PrimFloat.
#[local] Set Warnings "-inexact-float".

(** The closes of [Sample.three_days] and of [Sample.ten_days]. *)
Definition three_days : list float := [10; 12; 14]%float.

Definition ten_days : list float := [1; 2; 3; 4; 5; 6; 7; 8; 9; 10]%float.

(** The closes of [Sample.flat_days]. *)
Definition flat_days : list float := [100; 100; 100; 100]%float.

(** Three closes, each a binary64 number, whose sums are not. *)
Definition huge : list float := [1e308; 1.5e308; 1.7e308]%float.
End Closes.

(** ** Facts about the pandas operations *)

Module PandasFacts.
Import Pandas.

Lemma lookup_assign_eq k c l : lookup_item k (assign_item k c l) = Some c.
Proof.
  induction l as [|[k' c'] l IH]; simpl.
  - by rewrite String.eqb_refl.
  - destruct (String.eqb_spec k k') as [->|Hne]; simpl.
    + by rewrite String.eqb_refl.
    + by destruct (String.eqb_spec k k').
Qed.

Lemma lookup_assign_ne k k' c l :
  k ≠ k' → lookup_item k (assign_item k' c l) = lookup_item k l.
Proof.
  intros Hne. induction l as [|[k'' c''] l IH]; simpl.
  - by destruct (String.eqb_spec k k').
  - destruct (String.eqb_spec k' k'') as [->|Hne']; simpl.
    + by destruct (String.eqb_spec k k'').
    + destruct (String.eqb_spec k k''); [done|apply IH].
Qed.

Lemma assign_same k c l : lookup_item k l = Some c → assign_item k c l = l.
Proof.
  induction l as [|[k' c'] l IH]; simpl; [done|].
  destruct (String.eqb_spec k k') as [->|Hne].
  - by intros [= ->].
  - intros H. by rewrite IH.
Qed.

Lemma lookup_is_Some k l : k ∈ l.*1 ↔ is_Some (lookup_item k l).
Proof.
  induction l as [|[k' c'] l IH]; simpl.
  - split; [by intros ?%elem_of_nil|by intros [? ?]].
  - rewrite elem_of_cons, IH.
    destruct (String.eqb_spec k k') as [->|Hne].
    + split; [by eexists|by left].
    + split; [intros [?|?]; done|by right].
Qed.

Lemma lookup_elem_of k c l : lookup_item k l = Some c → (k, c) ∈ l.
Proof.
  induction l as [|[k' c'] l IH]; simpl; [done|].
  destruct (String.eqb_spec k k') as [->|Hne].
  - intros [= ->]. left.
  - intros H. right. by apply IH.
Qed.

Lemma keys_assign k c l :
  (assign_item k c l).*1 = if decide (k ∈ l.*1) then l.*1 else l.*1 ++ [k].
Proof.
  induction l as [|[k' c'] l IH]; [done|]. csimpl.
  destruct (String.eqb_spec k k') as [->|Hne]; csimpl.
  - rewrite decide_True; [done|left].
  - rewrite IH. destruct (decide (k ∈ l.*1)) as [Hin|Hnin].
    + rewrite decide_True; [done|by right].
    + rewrite decide_False; [done|]. by intros [?|?]%elem_of_cons.
Qed.

Lemma lookup_map_values (f : Column → Column) k l :
  lookup_item k (map (fun kc => (kc.1, f kc.2)) l) = f <$> lookup_item k l.
Proof.
  induction l as [|[k' c'] l IH]; simpl; [done|].
  by destruct (String.eqb_spec k k').
Qed.

Lemma keys_map_values (f : Column → Column) (l : list (string * Column)) :
  (map (fun kc => (kc.1, f kc.2)) l).*1 = l.*1.
Proof. induction l as [|[k' c'] l IH]; csimpl; by f_equal. Qed.

(** *** Row selection *)

Lemma select_nil_r {A} (mask : list bool) : select mask (@nil A) = [].
Proof. by destruct mask. Qed.

Lemma select_fmap {A B} (f : A → B) mask (xs : list A) :
  select mask (f <$> xs) = f <$> select mask xs.
Proof.
  revert xs. induction mask as [|b mask IH]; intros [|x xs]; csimpl; try done.
  destruct b; csimpl; by rewrite IH.
Qed.

Lemma length_select {A B} mask (xs : list A) (ys : list B) :
  length xs = length ys → length (select mask xs) = length (select mask ys).
Proof.
  revert xs ys. induction mask as [|b mask IH]; intros [|x xs] [|y ys];
    simpl; try done.
  intros [= Hlen]. destruct b; simpl; by rewrite (IH xs ys).
Qed.

Lemma select_all {A} n (xs : list A) :
  length xs ≤ n → select (replicate n true) xs = xs.
Proof.
  revert xs. induction n as [|n IH]; intros [|x xs]; simpl; try done.
  - lia.
  - intros Hlen. rewrite IH; [done|lia].
Qed.

(** What is selected was flagged. *)
Lemma Forall_select {A} (P : A → Prop) mask (xs : list A) :
  (∀ i x, mask !! i = Some true → xs !! i = Some x → P x) →
  Forall P (select mask xs).
Proof.
  revert xs. induction mask as [|b mask IH]; intros [|x xs] H; simpl;
    try by constructor.
  destruct b.
  - constructor; [by apply (H 0)|].
    apply IH. intros i y ??. by apply (H (S i)).
  - apply IH. intros i y ??. by apply (H (S i)).
Qed.

(** [select] keeps, in order, the elements whose flag is set. *)
Lemma select_filter_zip {A} mask (xs : list A) :
  select mask xs = (filter (fun p => p.1 = true) (zip mask xs)).*2.
Proof.
  revert xs. induction mask as [|b mask IH]; intros [|x xs]; simpl; try done.
  rewrite filter_cons. destruct b; csimpl; by rewrite IH.
Qed.

Lemma Forall_is_Some {A} (l : list (option A)) :
  Forall is_Some l → ∃ l', l = Some <$> l'.
Proof.
  induction 1 as [|x l [a ->] _ [l' ->]].
  - by exists [].
  - by exists (a :: l').
Qed.

Lemma size_select_column mask c c' :
  size c = size c' → size (select_column mask c) = size (select_column mask c').
Proof. destruct c, c'; simpl; apply length_select. Qed.

Lemma size_select_index mask c (l : list Timestamp) :
  size c = length l → size (select_column mask c) = length (select mask l).
Proof. destruct c; simpl; apply length_select. Qed.

(** *** Well-formed frames *)

Lemma wf_size df k c :
  wf df → lookup_item k (items df) = Some c → size c = len df.
Proof.
  intros [_ Hsz] Hk. apply lookup_elem_of in Hk.
  rewrite Forall_forall in Hsz. by apply (Hsz _ Hk).
Qed.

Lemma wf_setitem df k c : wf df → size c = len df → wf (setitem df k c).
Proof.
  intros [Hnd Hsz] Hc. split.
  - unfold columns, setitem. simpl. rewrite keys_assign.
    case_decide as Hin; [done|].
    apply NoDup_app. split_and!; [done| |apply NoDup_singleton].
    intros x Hx ->%list_elem_of_singleton. done.
  - unfold setitem, len. simpl. clear Hnd.
    induction Hsz as [|[k' c'] l Hx Hl IH]; simpl.
    + by repeat constructor.
    + destruct (String.eqb k k'); constructor; done.
Qed.

Lemma wf_select_rows mask df : wf df → wf (select_rows mask df).
Proof.
  intros [Hnd Hsz]. split.
  - unfold columns, select_rows. simpl. by rewrite keys_map_values.
  - unfold select_rows, len. simpl. apply Forall_map.
    eapply Forall_impl; [exact Hsz|]. intros [k c] Hc. simpl in *.
    by apply size_select_index.
Qed.

Lemma select_rows_all df : wf df → select_rows (replicate (len df) true) df = df.
Proof.
  intros [_ Hsz]. destruct df as [idx its]. unfold select_rows, len in *.
  simpl in *. f_equal; [by apply select_all|].
  induction Hsz as [|[k c] l Hx Hl IH]; simpl; [done|].
  rewrite IH. f_equal. f_equal. simpl in Hx.
  destruct c; simpl in *; f_equal; apply select_all; lia.
Qed.

(** *** Assignment of one and of several columns *)

Lemma lookup_setitem df k k' c :
  lookup_item k (items (setitem df k' c)) =
  if decide (k = k') then Some c else lookup_item k (items df).
Proof.
  unfold setitem. simpl. case_decide as H.
  - subst. apply lookup_assign_eq.
  - by apply lookup_assign_ne.
Qed.

Lemma columns_setitem df k c :
  k ∈ columns df → columns (setitem df k c) = columns df.
Proof.
  intros Hk. unfold columns, setitem. simpl. rewrite keys_assign.
  by rewrite decide_True.
Qed.

Lemma setitem_same df k c :
  lookup_item k (items df) = Some c → setitem df k c = df.
Proof.
  intros Hk. destruct df as [idx its]. unfold setitem. simpl in *.
  by rewrite assign_same.
Qed.

Lemma getitem_list_ok df ks :
  (∀ k, k ∈ ks → k ∈ columns df) →
  getitem_list df ks =
  Ok {| index := index df; items := map (fun k => (k, column_of df k)) ks |}.
Proof.
  induction ks as [|k ks IH]; intros Hks; simpl; [done|].
  assert (is_Some (lookup_item k (items df))) as [c Hc].
  { apply lookup_is_Some, Hks. left. }
  unfold getitem at 1. rewrite Hc. simpl.
  rewrite IH by (intros; apply Hks; by right). simpl.
  unfold column_of at 2. by rewrite Hc.
Qed.

Lemma lookup_setitem_list (g : string → Column) df ks k :
  lookup_item k (items (setitem_list df ks (map (fun k => (k, g k)) ks))) =
  if decide (k ∈ ks) then Some (g k) else lookup_item k (items df).
Proof.
  revert df. induction ks as [|k0 ks IH]; intros df.
  - rewrite decide_False; [done|apply not_elem_of_nil].
  - change (lookup_item k (items (setitem_list (setitem df k0 (g k0)) ks
              (map (fun k => (k, g k)) ks))) =
            if decide (k ∈ k0 :: ks) then Some (g k)
            else lookup_item k (items df)).
    rewrite IH, lookup_setitem.
    destruct (decide (k ∈ ks)) as [Hin|Hnin].
    + rewrite decide_True; [done|by right].
    + destruct (decide (k = k0)) as [->|Hne].
      * rewrite decide_True; [done|left].
      * rewrite decide_False; [done|]. by intros [?|?]%elem_of_cons.
Qed.

Lemma index_setitem_list df ks cs : index (setitem_list df ks cs) = index df.
Proof.
  revert df cs. induction ks as [|k ks IH]; intros df [|[k' c] cs]; simpl;
    try done.
  by rewrite IH.
Qed.

Lemma columns_setitem_list df ks cs :
  (∀ k, k ∈ ks → k ∈ columns df) →
  columns (setitem_list df ks cs) = columns df.
Proof.
  revert df cs. induction ks as [|k ks IH]; intros df [|[k' c] cs] Hks; simpl;
    try done.
  assert (k ∈ columns df) as Hk by (apply Hks; left).
  rewrite IH; [by apply columns_setitem|].
  intros k2 Hk2. rewrite columns_setitem by done. apply Hks. by right.
Qed.

Lemma wf_setitem_list df ks cs :
  wf df → Forall (fun kc => size kc.2 = len df) cs →
  wf (setitem_list df ks cs).
Proof.
  revert df cs. induction ks as [|k ks IH]; intros df [|[k' c] cs] Hwf Hcs;
    simpl; try done.
  apply Forall_cons in Hcs as [Hc Hcs]. apply IH; [by apply wf_setitem|done].
Qed.

(** *** The mask of [dropna] *)

Lemma length_notna c : length (notna c) = size c.
Proof. destruct c; simpl; by rewrite length_fmap. Qed.

Lemma zip_with_fmap_seq {A B C} (f : A → B → C) (d : A) (xs : list A)
    (g : nat → B) :
  zip_with f xs (g <$> seq 0 (length xs)) =
  (fun i => f (default d (xs !! i)) (g i)) <$> seq 0 (length xs).
Proof.
  apply list_eq. intros i.
  rewrite lookup_zip_with, !list_lookup_fmap.
  destruct (decide (i < length xs)) as [Hlt|Hge].
  - rewrite lookup_seq_lt by done. simpl.
    destruct (lookup_lt_is_Some_2 xs i Hlt) as [x Hx]. by rewrite Hx.
  - rewrite lookup_seq_ge by lia. simpl.
    rewrite lookup_ge_None_2 by lia. done.
Qed.

Lemma keep_mask_ok df ks :
  wf df → (∀ k, k ∈ ks → k ∈ columns df) →
  keep_mask df ks = Ok (row_notna df ks <$> seq 0 (len df)).
Proof.
  intros Hwf. induction ks as [|k ks IH]; intros Hks; simpl.
  - f_equal. apply list_eq. intros i.
    rewrite list_lookup_fmap.
    destruct (decide (i < len df)) as [Hlt|Hge].
    + rewrite lookup_replicate_2 by done. by rewrite lookup_seq_lt.
    + rewrite lookup_seq_ge by lia. apply lookup_replicate_None. lia.
  - assert (is_Some (lookup_item k (items df))) as [c Hc].
    { apply lookup_is_Some, Hks. left. }
    unfold getitem. rewrite Hc. simpl.
    rewrite IH by (intros; apply Hks; by right). simpl. f_equal.
    assert (len df = length (notna c)) as Hlen.
    { rewrite length_notna. symmetry. by eapply wf_size. }
    rewrite Hlen. rewrite (zip_with_fmap_seq andb false).
    apply list_fmap_ext. intros _ i _. unfold row_notna. simpl.
    by rewrite Hc.
Qed.

Lemma lookup_select_rows mask df k :
  lookup_item k (items (select_rows mask df)) =
  select_column mask <$> lookup_item k (items df).
Proof. unfold select_rows. simpl. apply lookup_map_values. Qed.

(** After [dropna], a listed float column has a value in every row. *)
Lemma select_row_notna df ks k xs :
  k ∈ ks → lookup_item k (items df) = Some (Float64 xs) →
  ∃ l, select (row_notna df ks <$> seq 0 (len df)) xs = Some <$> l.
Proof.
  intros Hk Hc. apply Forall_is_Some, Forall_select.
  intros i x Hi Hx. rewrite list_lookup_fmap in Hi.
  destruct (seq 0 (len df) !! i) as [j|] eqn:Hj; [|done].
  apply lookup_seq in Hj as [-> _]. simpl in Hi.
  injection Hi as Hi. unfold row_notna in Hi.
  rewrite forallb_forall in Hi. apply list_elem_of_In in Hk.
  specialize (Hi k Hk). rewrite Hc in Hi. simpl in Hi.
  rewrite list_lookup_fmap, Hx in Hi. simpl in Hi.
  by apply bool_decide_eq_true_1 in Hi.
Qed.

(** *** Windows over a column without NaN *)

Lemma omap_Some {A} (l : list A) : omap (fun x : option A => x) (Some <$> l) = l.
Proof. induction l as [|x l IH]; csimpl; by f_equal. Qed.

Lemma observations_Some w close i :
  observations w (Some <$> close) i = slice close (i + 1 - w) (i + 1).
Proof.
  unfold observations, slice. by rewrite <- fmap_drop, <- fmap_take, omap_Some.
Qed.

Lemma length_slice_window (close : list R) w i :
  i < length close → length (slice close (i + 1 - w) (i + 1)) = min w (i + 1).
Proof. intros Hi. unfold slice. rewrite length_take, length_drop. lia. Qed.

Lemma slice_trailing (close : list R) w i :
  i < length close → w ≤ i + 1 →
  slice close (i + 1 - w) (i + 1) = Spec.trailing close w i.
Proof.
  intros Hi Hw. unfold slice, Spec.trailing. apply list_eq. intros j.
  rewrite list_lookup_fmap.
  destruct (decide (j < w)) as [Hj|Hj].
  - rewrite lookup_take_lt by lia. rewrite lookup_drop.
    rewrite lookup_seq_lt by done. simpl.
    destruct (lookup_lt_is_Some_2 close (i + 1 - w + j)) as [x Hx]; [lia|].
    rewrite Hx. f_equal. symmetry. by apply nth_lookup_Some with (d := 0%R).
  - rewrite lookup_take_ge by lia. by rewrite lookup_seq_ge by lia.
Qed.

Lemma length_trailing close w i : length (Spec.trailing close w i) = w.
Proof. unfold Spec.trailing. by rewrite length_fmap, length_seq. Qed.

(** The mean of a full window, and nothing before the window fills. *)
Lemma calc_mean_window close w i :
  i < length close →
  calc_mean w (observations w (Some <$> close) i) =
  if (1 <=? w) && (w <=? i + 1)
  then Some (Spec.arithmetic_mean (Spec.trailing close w i))
  else None.
Proof.
  intros Hi. rewrite observations_Some. unfold calc_mean.
  rewrite length_slice_window by done.
  destruct (decide (w ≤ i + 1)) as [Hw|Hw].
  - rewrite slice_trailing by done. rewrite Nat.min_l by done.
    rewrite (proj2 (Nat.leb_le w w)) by done.
    rewrite (proj2 (Nat.leb_le w (i + 1))) by done.
    rewrite andb_true_r. simpl.
    destruct w as [|w]; [done|]. simpl.
    unfold Spec.arithmetic_mean. by rewrite length_trailing.
  - rewrite Nat.min_r by lia.
    rewrite (proj2 (Nat.leb_gt w (i + 1))) by lia.
    by rewrite andb_false_r.
Qed.

(** The sample variance needs two observations. *)
Lemma calc_var_window close w i :
  i < length close →
  sqrt <$> calc_var (max w 1) 1 (observations w (Some <$> close) i) =
  if (2 <=? w) && (w <=? i + 1)
  then Some (Spec.sample_std (Spec.trailing close w i))
  else None.
Proof.
  intros Hi. rewrite observations_Some. unfold calc_var.
  rewrite length_slice_window by done.
  destruct (decide (w ≤ i + 1)) as [Hw|Hw].
  - rewrite slice_trailing by done. rewrite Nat.min_l by done.
    rewrite (proj2 (Nat.leb_le w (i + 1))) by done. rewrite andb_true_r.
    destruct (decide (2 ≤ w)) as [H2|H2].
    + rewrite (proj2 (Nat.leb_le 2 w)) by done.
      rewrite (proj2 (Nat.leb_le (max w 1) w)) by lia.
      rewrite (proj2 (Nat.ltb_lt 1 w)) by lia. simpl. f_equal.
      unfold Spec.sample_std, ssqdm, Spec.arithmetic_mean.
      rewrite length_trailing. by rewrite minus_INR by lia.
    + rewrite (proj2 (Nat.leb_gt 2 w)) by lia.
      rewrite (proj2 (Nat.ltb_ge 1 w)) by lia. by rewrite andb_false_r.
  - rewrite Nat.min_r by lia.
    rewrite (proj2 (Nat.leb_gt w (i + 1))) by lia. rewrite andb_false_r.
    rewrite (proj2 (Nat.leb_gt (max w 1) (i + 1))) by lia. done.
Qed.

(** *** The rows that [select] keeps, by position *)

Lemma filter_seq_bound (f : nat → bool) (a n j i : nat) :
  List.filter f (seq a n) !! j = Some i → a ≤ i < a + n ∧ f i = true.
Proof.
  intros H. apply list_elem_of_lookup_2, list_elem_of_In, filter_In in H.
  destruct H as [H ?]. apply in_seq in H. split; [lia|done].
Qed.

(** Entry [j] of the selection is the entry of the list at the [j]-th
    flagged position. *)
Lemma select_lookup {A} (f : nat → bool) (xs : list A) (a n j i : nat) :
  length xs = n →
  List.filter f (seq a n) !! j = Some i →
  select (f <$> seq a n) xs !! j = xs !! (i - a).
Proof.
  revert a xs j. induction n as [|n IH]; intros a xs j Hlen Hj; [done|].
  destruct xs as [|x xs]; [done|]. injection Hlen as Hlen.
  cbn [seq List.filter] in Hj. csimpl.
  destruct (f a) eqn:Ha.
  - destruct j as [|j]; simpl in *.
    + injection Hj as <-. by rewrite Nat.sub_diag.
    + rewrite (IH (S a) xs j Hlen Hj).
      apply filter_seq_bound in Hj as [Hj _].
      by replace (i - a) with (S (i - S a)) by lia.
  - rewrite (IH (S a) xs j Hlen Hj).
    apply filter_seq_bound in Hj as [Hj _].
    by replace (i - a) with (S (i - S a)) by lia.
Qed.

Lemma length_select_filter {A} (f : nat → bool) (xs : list A) (a n : nat) :
  length xs = n →
  length (select (f <$> seq a n) xs) = length (List.filter f (seq a n)).
Proof.
  revert a xs. induction n as [|n IH]; intros a xs Hlen.
  - by destruct xs.
  - destruct xs as [|x xs]; [done|]. injection Hlen as Hlen.
    cbn [seq List.filter]. csimpl.
    destruct (f a); simpl; by rewrite IH.
Qed.

Lemma cell_select_column (f : nat → bool) (c : Column) (n j i : nat) :
  size c = n →
  List.filter f (seq 0 n) !! j = Some i →
  cell (select_column (f <$> seq 0 n) c) j = cell c i.
Proof.
  intros Hlen Hj. destruct c as [xs|xs]; simpl in *.
  - rewrite (select_lookup f xs 0 n j i Hlen Hj). by rewrite Nat.sub_0_r.
  - rewrite (select_lookup f xs 0 n j i Hlen Hj). by rewrite Nat.sub_0_r.
Qed.

Lemma size_select_filter (f : nat → bool) (c : Column) (n : nat) :
  size c = n →
  size (select_column (f <$> seq 0 n) c) = length (List.filter f (seq 0 n)).
Proof. intros Hlen. destruct c; simpl in *; by apply length_select_filter. Qed.

End PandasFacts.

(** ** Facts about the script *)

Module BBandFacts.
Import Pandas BBand PandasFacts.

Lemma issubset_spec a b : issubset a b = true ↔ ∀ k, k ∈ a → k ∈ b.
Proof.
  unfold issubset. rewrite forallb_forall. split.
  - intros H k Hk. apply list_elem_of_In in Hk.
    specialize (H k Hk). by apply bool_decide_eq_true_1 in H.
  - intros H k Hk. apply bool_decide_eq_true_2, H. by apply list_elem_of_In.
Qed.

Lemma issubset_elem a b k : issubset a b = true → k ∈ a → k ∈ b.
Proof. intros H. by apply issubset_spec. Qed.

Lemma required_not_indicator k : k ∈ cols → k ∉ Spec.indicators.
Proof.
  unfold cols, Spec.indicators. rewrite !elem_of_cons, !elem_of_nil.
  intros H1 H2. destruct_or!; subst; done.
Qed.

Lemma size_to_numeric parse_float c : size (to_numeric parse_float c) = size c.
Proof. destruct c; simpl; [done|by rewrite length_fmap]. Qed.

Section Engine.
Variable parse_float : string → option R.

Lemma coerce_columns_ok df :
  issubset cols (columns df) = true →
  coerce_columns parse_float df = Ok (coerced parse_float df).
Proof.
  intros Hsub. unfold coerce_columns, coerced.
  rewrite getitem_list_ok by (intros; by eapply issubset_elem). simpl. done.
Qed.

Lemma lookup_coerced df k :
  lookup_item k (items (coerced parse_float df)) =
  if decide (k ∈ cols) then Some (to_numeric parse_float (column_of df k))
  else lookup_item k (items df).
Proof.
  unfold coerced.
  apply (lookup_setitem_list
           (fun k => to_numeric parse_float (column_of df k))).
Qed.

Lemma index_coerced df : index (coerced parse_float df) = index df.
Proof. apply index_setitem_list. Qed.

Lemma len_coerced df : len (coerced parse_float df) = len df.
Proof. unfold len. by rewrite index_coerced. Qed.

Lemma columns_coerced df :
  issubset cols (columns df) = true →
  columns (coerced parse_float df) = columns df.
Proof.
  intros Hsub. apply columns_setitem_list. intros. by eapply issubset_elem.
Qed.

Lemma wf_coerced df :
  wf df → issubset cols (columns df) = true → wf (coerced parse_float df).
Proof.
  intros Hwf Hsub. apply wf_setitem_list; [done|].
  apply Forall_map, Forall_forall. intros k Hk. simpl.
  rewrite size_to_numeric.
  destruct (proj1 (lookup_is_Some k (items df))
              (issubset_elem _ _ k Hsub Hk)) as [c Hc].
  unfold column_of. rewrite Hc. simpl. by eapply wf_size.
Qed.

Lemma dropna_ok df :
  wf df → issubset cols (columns df) = true →
  dropna cols (coerced parse_float df) = Ok (cleaned parse_float df).
Proof.
  intros Hwf Hsub. unfold dropna, cleaned.
  rewrite keep_mask_ok.
  - simpl. by rewrite len_coerced.
  - by apply wf_coerced.
  - rewrite columns_coerced by done. intros. by eapply issubset_elem.
Qed.

Lemma wf_cleaned df :
  wf df → issubset cols (columns df) = true → wf (cleaned parse_float df).
Proof. intros. by apply wf_select_rows, wf_coerced. Qed.

(** After lines 33-34 a required column is numeric and has no NaN. *)
Lemma lookup_cleaned_required df k :
  wf df → issubset cols (columns df) = true → k ∈ cols →
  ∃ l, lookup_item k (items (cleaned parse_float df)) =
         Some (Float64 (Some <$> l))
       ∧ length l = len (cleaned parse_float df).
Proof.
  intros Hwf Hsub Hk. unfold cleaned at 1.
  rewrite lookup_select_rows, lookup_coerced, decide_True by done.
  simpl.
  assert (∃ xs, to_numeric parse_float (column_of df k) = Float64 xs)
    as [xs Hxs] by (destruct (column_of df k); simpl; eauto).
  rewrite Hxs. simpl.
  destruct (select_row_notna (coerced parse_float df) cols k xs) as [l Hl];
    [done| |].
  { by rewrite lookup_coerced, decide_True, Hxs. }
  rewrite len_coerced in Hl. exists l. rewrite Hl. split; [done|].
  assert (Hsz : size (Float64 (Some <$> l)) = len (cleaned parse_float df)).
  { eapply wf_size; [by apply wf_cleaned|]. unfold cleaned.
    rewrite lookup_select_rows, lookup_coerced, decide_True by done.
    simpl. rewrite Hxs. simpl. by rewrite Hl. }
  simpl in Hsz. by rewrite length_fmap in Hsz.
Qed.

Lemma rolling_ok c w :
  (0 ≤ w)%Z → rolling c w = Ok (mkRolling c (Z.to_nat w) (Z.to_nat w)).
Proof.
  intros Hw. unfold rolling.
  by rewrite (proj2 (Z.ltb_ge w 0)) by done.
Qed.

Lemma rolling_negative c w : (w < 0)%Z → rolling c w = Raise ValueError.
Proof.
  intros Hw. unfold rolling. by rewrite (proj2 (Z.ltb_lt w 0)) by done.
Qed.

Lemma close_values_lookup df xs :
  lookup_item "Close" (items df) = Some (Float64 xs) → close_values df = xs.
Proof. intros H. unfold close_values, column_of. by rewrite H. Qed.

Lemma moving_average_ok df xs w :
  lookup_item "Close" (items df) = Some (Float64 xs) → (0 ≤ w)%Z →
  moving_average w df =
  Ok (setitem df "MA" (Float64 (mean_values (Z.to_nat w) xs))).
Proof.
  intros Hc Hw. unfold moving_average, getitem. rewrite Hc. simpl.
  by rewrite rolling_ok.
Qed.

Lemma moving_std_ok df xs w :
  lookup_item "Close" (items df) = Some (Float64 xs) → (0 ≤ w)%Z →
  moving_std w df =
  Ok (setitem df "STD" (Float64 (std_values (Z.to_nat w) xs))).
Proof.
  intros Hc Hw. unfold moving_std, getitem. rewrite Hc. simpl.
  by rewrite rolling_ok.
Qed.

Lemma upper_band_ok df ma sd m :
  lookup_item "MA" (items df) = Some (Float64 ma) →
  lookup_item "STD" (items df) = Some (Float64 sd) →
  upper_band m df =
  Ok (setitem df "Upper" (Float64 (zip_with fadd ma (fmul m <$> sd)))).
Proof. intros Hma Hsd. unfold upper_band, getitem. by rewrite Hma, Hsd. Qed.

Lemma lower_band_ok df ma sd m :
  lookup_item "MA" (items df) = Some (Float64 ma) →
  lookup_item "STD" (items df) = Some (Float64 sd) →
  lower_band m df =
  Ok (setitem df "Lower" (Float64 (zip_with fsub ma (fmul m <$> sd)))).
Proof. intros Hma Hsd. unfold lower_band, getitem. by rewrite Hma, Hsd. Qed.

(** The columns of a frame after lines 37-42. *)
Lemma lookup_banded w m df k :
  lookup_item k (items (banded w m df)) =
  let xs := close_values df in
  let ma := mean_values (Z.to_nat w) xs in
  let sd := std_values (Z.to_nat w) xs in
  if decide (k = "Lower")
  then Some (Float64 (zip_with fsub ma (fmul m <$> sd)))
  else if decide (k = "Upper")
  then Some (Float64 (zip_with fadd ma (fmul m <$> sd)))
  else if decide (k = "STD") then Some (Float64 sd)
  else if decide (k = "MA") then Some (Float64 ma)
  else lookup_item k (items df).
Proof. unfold banded. cbv zeta. by rewrite !lookup_setitem. Qed.

Lemma lookup_banded_other w m df k :
  k ∉ Spec.indicators →
  lookup_item k (items (banded w m df)) = lookup_item k (items df).
Proof.
  intros Hk. rewrite lookup_banded. cbv zeta.
  unfold Spec.indicators in Hk.
  repeat (case_decide;
          [subst; exfalso; apply Hk; rewrite !elem_of_cons; auto 10|]).
  done.
Qed.

Lemma index_banded w m df : index (banded w m df) = index df.
Proof. done. Qed.

Lemma length_mean_values w xs : length (mean_values w xs) = length xs.
Proof. unfold mean_values. by rewrite length_fmap, length_seq. Qed.

Lemma length_std_values w xs : length (std_values w xs) = length xs.
Proof. unfold std_values. by rewrite length_fmap, length_seq. Qed.

Lemma wf_banded w m df xs :
  wf df → lookup_item "Close" (items df) = Some (Float64 xs) →
  wf (banded w m df).
Proof.
  intros Hwf Hc. pose proof (wf_size _ _ _ Hwf Hc) as Hn. simpl in Hn.
  unfold banded. rewrite (close_values_lookup _ _ Hc). cbv zeta.
  repeat apply wf_setitem; try done; simpl;
    rewrite ?length_zip_with, ?length_fmap,
            ?length_mean_values, ?length_std_values; unfold len in *;
    simpl; lia.
Qed.

Lemma banded_ok df xs w m :
  lookup_item "Close" (items df) = Some (Float64 xs) → (0 ≤ w)%Z →
  (df ← moving_average w df;
   df ← moving_std w df;
   df ← upper_band m df;
   lower_band m df) = Ok (banded w m df).
Proof.
  intros Hc Hw.
  rewrite (moving_average_ok _ xs) by done. simpl.
  rewrite (moving_std_ok _ xs); [|by rewrite lookup_setitem|done]. simpl.
  erewrite upper_band_ok; [|by rewrite !lookup_setitem..]. simpl.
  erewrite lower_band_ok; [|by rewrite !lookup_setitem..].
  unfold banded. by rewrite (close_values_lookup _ _ Hc).
Qed.

(** [augment] computes the closed form. *)
Lemma augment_ok df w m :
  wf df → issubset cols (columns df) = true → (0 ≤ w)%Z →
  augment parse_float w m df = Ok (augmented parse_float w m df).
Proof.
  intros Hwf Hsub Hw. unfold augment.
  rewrite coerce_columns_ok by done. simpl.
  rewrite dropna_ok by done. simpl.
  destruct (lookup_cleaned_required df "Close") as (l & Hl & _);
    [done|done|set_solver|].
  by apply (banded_ok _ (Some <$> l)).
Qed.

(** The columns of the augmented frame. *)
Lemma augmented_columns df w m :
  wf df → issubset cols (columns df) = true →
  ∃ close,
    let F := augmented parse_float w m df in
    let xs := Some <$> close in
    let ma := mean_values (Z.to_nat w) xs in
    let sd := std_values (Z.to_nat w) xs in
    lookup_item "Close" (items F) = Some (Float64 xs)
    ∧ len F = length close
    ∧ lookup_item "MA" (items F) = Some (Float64 ma)
    ∧ lookup_item "STD" (items F) = Some (Float64 sd)
    ∧ lookup_item "Upper" (items F) =
        Some (Float64 (zip_with fadd ma (fmul m <$> sd)))
    ∧ lookup_item "Lower" (items F) =
        Some (Float64 (zip_with fsub ma (fmul m <$> sd))).
Proof.
  intros Hwf Hsub.
  destruct (lookup_cleaned_required df "Close") as (close & Hc & Hlen);
    [done|done|set_solver|].
  exists close. cbv zeta. unfold augmented.
  rewrite !lookup_banded. cbv zeta.
  rewrite (close_values_lookup _ _ Hc). simpl.
  repeat split; try done.
Qed.

Lemma mean_values_lookup close w i :
  i < length close →
  mean_values w (Some <$> close) !! i =
  Some (if (1 <=? w) && (w <=? i + 1)
        then Some (Spec.arithmetic_mean (Spec.trailing close w i))
        else None).
Proof.
  intros Hi. unfold mean_values.
  rewrite list_lookup_fmap, length_fmap, lookup_seq_lt by done. simpl.
  by rewrite calc_mean_window.
Qed.

(** The column of means is the specification's moving average. *)
Lemma mean_values_movingAverage close w :
  1 ≤ w →
  mean_values w (Some <$> close)
  = Spec.movingAverage close w <$> seq 0 (length close).
Proof.
  intros Hw. unfold mean_values. rewrite length_fmap.
  apply list_fmap_ext. intros j i Hi. apply lookup_seq in Hi as [-> Hi].
  simpl. rewrite calc_mean_window by done. unfold Spec.movingAverage.
  by rewrite (proj2 (Nat.leb_le 1 w)) by done.
Qed.

(** From window 2 on, the column of deviations is the specification's
    rolling standard deviation. *)
Lemma std_values_stdDev close w :
  2 ≤ w →
  std_values w (Some <$> close)
  = Spec.stdDev close w <$> seq 0 (length close).
Proof.
  intros Hw. unfold std_values. rewrite length_fmap.
  apply list_fmap_ext. intros j i Hi. apply lookup_seq in Hi as [-> Hi].
  simpl. rewrite calc_var_window by done. unfold Spec.stdDev.
  by rewrite (proj2 (Nat.leb_le 2 w)) by done.
Qed.

Lemma std_values_lookup close w i :
  i < length close →
  std_values w (Some <$> close) !! i =
  Some (if (2 <=? w) && (w <=? i + 1)
        then Some (Spec.sample_std (Spec.trailing close w i))
        else None).
Proof.
  intros Hi. unfold std_values.
  rewrite list_lookup_fmap, length_fmap, lookup_seq_lt by done. simpl.
  by rewrite calc_var_window.
Qed.

(** *** The rows that survive lines 33-34 *)

Lemma notna_to_numeric c i :
  default false (notna (to_numeric parse_float c) !! i)
  = Spec.coerces parse_float c i.
Proof.
  unfold Spec.coerces. destruct c as [xs|xs]; simpl.
  - rewrite list_lookup_fmap. by destruct (xs !! i) as [x|].
  - rewrite !list_lookup_fmap. by destruct (xs !! i) as [o|].
Qed.

Lemma forallb_ext_elem {A} (f g : A → bool) l :
  (∀ x, x ∈ l → f x = g x) → forallb f l = forallb g l.
Proof.
  induction l as [|x l IH]; intros H; simpl; [done|].
  rewrite (H x) by left. rewrite IH; [done|]. intros y Hy. apply H. by right.
Qed.

Lemma row_notna_coerced df i :
  issubset cols (columns df) = true →
  row_notna (coerced parse_float df) cols i
  = Spec.complete_row parse_float df i.
Proof.
  intros Hsub. unfold row_notna, Spec.complete_row.
  apply forallb_ext_elem. intros k Hk.
  rewrite lookup_coerced, decide_True by done.
  destruct (proj1 (lookup_is_Some k (items df))
              (issubset_elem _ _ k Hsub Hk)) as [c Hc].
  unfold column_of. rewrite Hc. simpl. apply notna_to_numeric.
Qed.

Lemma cleaned_complete_rows df :
  issubset cols (columns df) = true →
  cleaned parse_float df
  = select_rows (Spec.complete_rows parse_float df) (coerced parse_float df).
Proof.
  intros Hsub. unfold cleaned, Spec.complete_rows. f_equal.
  apply list_fmap_ext. intros _ i _. by apply row_notna_coerced.
Qed.

(** Each column of the cleaned frame is the input column, made numeric if
    it is a required one, without the incomplete rows. *)
Lemma lookup_cleaned df k c :
  issubset cols (columns df) = true →
  lookup_item k (items df) = Some c →
  lookup_item k (items (cleaned parse_float df)) =
  Some (select_column (Spec.complete_rows parse_float df)
          (if decide (k ∈ cols) then to_numeric parse_float c else c)).
Proof.
  intros Hsub Hc. rewrite cleaned_complete_rows by done.
  rewrite lookup_select_rows, lookup_coerced.
  unfold column_of. rewrite Hc. simpl. by case_decide.
Qed.

Lemma index_cleaned df :
  issubset cols (columns df) = true →
  index (cleaned parse_float df)
  = select (Spec.complete_rows parse_float df) (index df).
Proof.
  intros Hsub. rewrite cleaned_complete_rows by done.
  unfold select_rows. cbn [index]. by rewrite index_coerced.
Qed.

(** The rows of the cleaned frame are the complete rows of the input, in
    their order: row [j] of the cleaned frame is the row of the input whose
    position is the [j]-th complete one, in the index and in every column
    (coerced, for a required column). *)
Lemma cleaned_kept_rows df :
  wf df → issubset cols (columns df) = true →
  let kept := Spec.kept_rows parse_float df in
  len (cleaned parse_float df) = length kept
  ∧ (∀ j i, kept !! j = Some i →
       index (cleaned parse_float df) !! j = index df !! i)
  ∧ (∀ k c, lookup_item k (items df) = Some c →
       ∃ c', lookup_item k (items (cleaned parse_float df)) = Some c'
         ∧ size c' = length kept
         ∧ ∀ j i, kept !! j = Some i →
             cell c' j
             = cell (if decide (k ∈ cols) then to_numeric parse_float c
                     else c) i).
Proof.
  intros Hwf Hsub kept. unfold kept, Spec.kept_rows. split_and!.
  - unfold len at 1. rewrite index_cleaned by done.
    unfold Spec.complete_rows. by apply length_select_filter.
  - intros j i Hj. rewrite index_cleaned by done.
    unfold Spec.complete_rows.
    rewrite (select_lookup _ (index df) 0 (len df) j i eq_refl Hj).
    by rewrite Nat.sub_0_r.
  - intros k c Hc. eexists. split; [by apply lookup_cleaned|].
    assert (size (if decide (k ∈ cols) then to_numeric parse_float c else c)
            = len df) as Hsz.
    { case_decide; rewrite ?size_to_numeric; by eapply wf_size. }
    unfold Spec.complete_rows. split.
    + by apply size_select_filter.
    + intros j i Hj. by apply cell_select_column.
Qed.

(** *** Running lines 33-42 on a frame they have already treated *)

Lemma setitem_list_same (g : string → Column) df ks :
  (∀ k, k ∈ ks → lookup_item k (items df) = Some (g k)) →
  setitem_list df ks (map (fun k => (k, g k)) ks) = df.
Proof.
  induction ks as [|k ks IH]; intros H; simpl; [done|].
  rewrite setitem_same by (apply H; left).
  apply IH. intros k' Hk'. apply H. by right.
Qed.

Lemma coerced_fixed df :
  (∀ k, k ∈ cols → ∃ xs, lookup_item k (items df) = Some (Float64 xs)) →
  coerced parse_float df = df.
Proof.
  intros H. unfold coerced. apply setitem_list_same.
  intros k Hk. destruct (H k Hk) as [xs Hxs].
  unfold column_of. by rewrite Hxs.
Qed.

Lemma cleaned_fixed df :
  wf df →
  (∀ k, k ∈ cols →
     ∃ l : list R, lookup_item k (items df) = Some (Float64 (Some <$> l))) →
  cleaned parse_float df = df.
Proof.
  intros Hwf H. unfold cleaned.
  rewrite coerced_fixed by (intros k Hk; destruct (H k Hk); eauto).
  assert (row_notna df cols <$> seq 0 (len df) = replicate (len df) true)
    as ->; [|by apply select_rows_all].
  apply list_eq. intros i. rewrite list_lookup_fmap.
  destruct (decide (i < len df)) as [Hi|Hi].
  - assert (row_notna df cols i = true) as Hrow.
    { unfold row_notna. apply forallb_forall. intros k Hk%list_elem_of_In.
      destruct (H k Hk) as [l Hl]. rewrite Hl.
      pose proof (wf_size _ _ _ Hwf Hl) as Hsz. simpl in Hsz.
      rewrite length_fmap in Hsz. simpl.
      rewrite !list_lookup_fmap.
      destruct (lookup_lt_is_Some_2 l i) as [x Hx]; [lia|]. by rewrite Hx. }
    rewrite lookup_seq_lt, lookup_replicate_2 by done.
    cbn [fmap option_fmap option_map plus]. by rewrite Hrow.
  - rewrite lookup_seq_ge by lia. symmetry. apply lookup_replicate_None. lia.
Qed.

Lemma close_values_banded w m df :
  close_values (banded w m df) = close_values df.
Proof.
  unfold close_values, column_of. rewrite lookup_banded_other; [done|].
  unfold Spec.indicators. rewrite !elem_of_cons, elem_of_nil.
  intros ?. destruct_or!; done.
Qed.

Lemma banded_twice w m df : banded w m (banded w m df) = banded w m df.
Proof.
  unfold banded at 1. rewrite close_values_banded. cbv zeta.
  rewrite (setitem_same _ "MA") by by rewrite lookup_banded.
  rewrite (setitem_same _ "STD") by by rewrite lookup_banded.
  rewrite (setitem_same _ "Upper") by by rewrite lookup_banded.
  by rewrite (setitem_same _ "Lower") by by rewrite lookup_banded.
Qed.

Lemma lookup_cleaned_columns df k :
  lookup_item k (items (cleaned parse_float df)) =
  select_column (row_notna (coerced parse_float df) cols <$> seq 0 (len df))
    <$> lookup_item k (items (coerced parse_float df)).
Proof. unfold cleaned. apply lookup_select_rows. Qed.

Lemma issubset_cleaned df :
  issubset cols (columns df) = true →
  issubset cols (columns (cleaned parse_float df)) = true.
Proof.
  intros Hsub. apply issubset_spec. intros k Hk.
  apply lookup_is_Some. rewrite lookup_cleaned_columns, lookup_coerced.
  rewrite decide_True by done. by eexists.
Qed.

Lemma issubset_banded w m df :
  issubset cols (columns df) = true →
  issubset cols (columns (banded w m df)) = true.
Proof.
  intros Hsub. apply issubset_spec. intros k Hk.
  apply lookup_is_Some.
  rewrite lookup_banded_other by by apply required_not_indicator.
  apply lookup_is_Some. by eapply issubset_elem.
Qed.

Lemma cleaned_twice df :
  wf df → issubset cols (columns df) = true →
  cleaned parse_float (cleaned parse_float df) = cleaned parse_float df.
Proof.
  intros Hwf Hsub. apply cleaned_fixed; [by apply wf_cleaned|].
  intros k Hk.
  destruct (lookup_cleaned_required df k Hwf Hsub Hk) as (l & Hl & _).
  by exists l.
Qed.

Lemma wf_augmented w m df :
  wf df → issubset cols (columns df) = true →
  wf (augmented parse_float w m df).
Proof.
  intros Hwf Hsub.
  destruct (lookup_cleaned_required df "Close") as (l & Hl & _);
    [done|done|set_solver|].
  eapply wf_banded; [by apply wf_cleaned|done].
Qed.

Lemma augmented_twice w m df :
  wf df → issubset cols (columns df) = true →
  augmented parse_float w m (augmented parse_float w m df)
  = augmented parse_float w m df.
Proof.
  intros Hwf Hsub. unfold augmented at 1.
  rewrite cleaned_fixed; [apply banded_twice|by apply wf_augmented|].
  intros k Hk. unfold augmented.
  rewrite lookup_banded_other by by apply required_not_indicator.
  destruct (lookup_cleaned_required df k Hwf Hsub Hk) as (l & Hl & _).
  by exists l.
Qed.

(** The same for the augmented frame: the four added columns apart, it is
    the cleaned frame. *)
Lemma augmented_kept_rows df w m :
  wf df → issubset cols (columns df) = true →
  let kept := Spec.kept_rows parse_float df in
  let F := augmented parse_float w m df in
  len F = length kept
  ∧ (∀ j i, kept !! j = Some i → index F !! j = index df !! i)
  ∧ (∀ k c, lookup_item k (items df) = Some c → k ∉ Spec.indicators →
       ∃ c', lookup_item k (items F) = Some c'
         ∧ size c' = length kept
         ∧ ∀ j i, kept !! j = Some i →
             cell c' j
             = cell (if decide (k ∈ cols) then to_numeric parse_float c
                     else c) i).
Proof.
  intros Hwf Hsub kept F.
  destruct (cleaned_kept_rows df Hwf Hsub) as (Hlen & Hidx & Hcol).
  split_and!; [done|done|].
  intros k c Hc Hk. unfold F, augmented. rewrite lookup_banded_other by done.
  by apply Hcol.
Qed.

End Engine.

(** *** Running the statements on the heap *)

Section Run.
Variable parse_float : string → option R.
Variable Figure : Type.
Variable mpf_plot : DataFrame → list Column → result Figure.
Variable yf_download : string → Timestamp → Timestamp → Download.

Abbreviation state := (state Figure).
Abbreviation M := (M Figure).

Lemma bind_run {A B} (m : M A) (f : A → M B) (σ σ' : state) a :
  m σ = (Ok a, σ') → (m ≫= f) σ = f a σ'.
Proof. intros H. unfold mbind, M_bind. by rewrite H. Qed.

Lemma bind_raise {A B} (m : M A) (f : A → M B) (σ σ' : state) e :
  m σ = (Raise e, σ') → (m ≫= f) σ = (Raise e, σ').
Proof. intros H. unfold mbind, M_bind. by rewrite H. Qed.

Lemma deref_ok (σ : state) data df :
  heap σ !! data = Some df → deref Figure data σ = (Ok df, σ).
Proof. intros H. unfold deref. by rewrite H. Qed.

Lemma heap_with_frame (σ : state) data df :
  heap (with_frame Figure σ data df) !! data = Some df.
Proof. apply lookup_insert_eq. Qed.

Lemma with_frame_twice (σ : state) data df df' :
  with_frame Figure (with_frame Figure σ data df) data df' =
  with_frame Figure σ data df'.
Proof. unfold with_frame. simpl. by rewrite insert_insert_eq. Qed.

Lemma with_frame_same (σ : state) data df :
  heap σ !! data = Some df → with_frame Figure σ data df = σ.
Proof.
  intros H. destruct σ as [h u]. unfold with_frame. simpl in *.
  by rewrite insert_id.
Qed.

Lemma update_ok (σ : state) data f df df' :
  heap σ !! data = Some df → f df = Ok df' →
  update Figure data f σ = (Ok tt, with_frame Figure σ data df').
Proof.
  intros Hd Hf. unfold update.
  rewrite (bind_run _ _ _ _ _ (deref_ok _ _ _ Hd)).
  unfold lift at 1. unfold mbind, M_bind. by rewrite Hf.
Qed.

Lemma update_raise (σ : state) data f df e :
  heap σ !! data = Some df → f df = Raise e →
  update Figure data f σ = (Raise e, σ).
Proof.
  intros Hd Hf. unfold update.
  rewrite (bind_run _ _ _ _ _ (deref_ok _ _ _ Hd)).
  unfold lift at 1. unfold mbind, M_bind. by rewrite Hf.
Qed.

(** An update of a frame that has just been stored. *)
Lemma update_with_frame (σ : state) data f df df' :
  f df = Ok df' →
  update Figure data f (with_frame Figure σ data df) =
  (Ok tt, with_frame Figure σ data df').
Proof.
  intros Hf. rewrite (update_ok _ data f df df');
    [by rewrite with_frame_twice|apply heap_with_frame|done].
Qed.

(** The column check fails: one error message, nothing else. *)
Lemma plot_unexpected_columns (σ : state) data df w m :
  heap σ !! data = Some df → issubset cols (columns df) = false →
  plot_bollinger_bands parse_float Figure mpf_plot data w m σ =
  (Ok None,
   mkState (heap σ) (ui σ ++ [st_error (unexpected_columns (columns df))])).
Proof.
  intros Hd Hsub. unfold plot_bollinger_bands.
  rewrite (bind_run _ _ _ _ _ (deref_ok _ _ _ Hd)). by rewrite Hsub.
Qed.

(** The column check passes and the window is not negative. *)
Lemma plot_ok (σ : state) data df w m :
  heap σ !! data = Some df → wf df →
  issubset cols (columns df) = true → (0 ≤ w)%Z →
  plot_bollinger_bands parse_float Figure mpf_plot data w m σ =
  (plotted Figure mpf_plot (augmented parse_float w m df),
   with_frame Figure σ data (augmented parse_float w m df)).
Proof.
  intros Hd Hwf Hsub Hw. unfold plot_bollinger_bands.
  rewrite (bind_run _ _ _ _ _ (deref_ok _ _ _ Hd)). rewrite Hsub. simpl.
  destruct (lookup_cleaned_required parse_float df "Close")
    as (l & Hl & _); [done|done|set_solver|].
  set (df2 := cleaned parse_float df) in *.
  erewrite bind_run;
    [|by apply (update_ok _ _ _ df), coerce_columns_ok].
  erewrite bind_run; [|by apply update_with_frame, dropna_ok].
  fold df2.
  erewrite bind_run;
    [|by apply update_with_frame,
         (moving_average_ok _ (Some <$> l))].
  erewrite bind_run;
    [|apply update_with_frame,
        (moving_std_ok _ (Some <$> l));
      [by rewrite lookup_setitem|done]].
  erewrite bind_run;
    [|apply update_with_frame, upper_band_ok;
      by rewrite !lookup_setitem].
  erewrite bind_run;
    [|apply update_with_frame, lower_band_ok;
      by rewrite !lookup_setitem].
  erewrite bind_run; [|apply deref_ok, heap_with_frame].
  unfold augmented. fold df2. unfold banded.
  rewrite (close_values_lookup _ _ Hl). cbv zeta.
  unfold plotted, column_of, getitem, lift, mbind, M_bind, mret, M_ret.
  rewrite !lookup_setitem. simpl.
  by destruct (mpf_plot _ _).
Qed.

(** The frame left behind the caller's reference by a call. *)
Lemma plot_leaves (σ : state) data df w m :
  heap σ !! data = Some df → wf df →
  issubset cols (columns df) = true → (0 ≤ w)%Z →
  heap (plot_bollinger_bands parse_float Figure mpf_plot data w m σ).2
    !! data = Some (augmented parse_float w m df).
Proof.
  intros Hd Hwf Hsub Hw. rewrite (plot_ok _ _ df) by done.
  apply heap_with_frame.
Qed.

Lemma getitem_lookup df k c :
  lookup_item k (items df) = Some c → getitem df k = Ok c.
Proof. intros H. unfold getitem. by rewrite H. Qed.

(** With real numbers for the cells, that is when no sum rounds or
    overflows: for every well-formed price table that has the five required
    columns and every window [w ≥ 1], the call leaves in the caller's
    frame a [Close] column without NaN and an [MA] column of the same
    length such that the cell of [MA] at position [i] is defined if and
    only if [i ≥ w - 1], and where it is defined it is the arithmetic
    mean of the [w] closes at positions [i - w + 1 .. i].  The binary64
    computation is treated in [Binary64Facts]. *)
Lemma moving_average_defined_iff_window_full (σ : state) data df w m :
  heap σ !! data = Some df → wf df →
  issubset cols (columns df) = true → (1 ≤ w)%Z →
  ∃ (df' : DataFrame) (close : list R) (ma : list float64),
    heap (plot_bollinger_bands parse_float Figure mpf_plot data w m σ).2
      !! data = Some df'
    ∧ getitem df' "Close" = Ok (Float64 (Some <$> close))
    ∧ getitem df' "MA" = Ok (Float64 ma)
    ∧ length ma = length close
    ∧ ∀ i : nat, i < length close →
        ∃ x, ma !! i = Some x
          ∧ (is_Some x ↔ (w - 1 ≤ Z.of_nat i)%Z)
          ∧ ((w - 1 ≤ Z.of_nat i)%Z →
             x = Some (Spec.arithmetic_mean
                         (Spec.trailing close (Z.to_nat w) i))).
Proof.
  intros Hd Hwf Hsub Hw.
  destruct (augmented_columns parse_float df w m Hwf Hsub)
    as (close & Hc & Hlen & Hma & _).
  cbv zeta in *.
  exists (augmented parse_float w m df), close,
    (mean_values (Z.to_nat w) (Some <$> close)).
  split_and!.
  - apply plot_leaves; [done..|lia].
  - by apply getitem_lookup.
  - by apply getitem_lookup.
  - by rewrite length_mean_values, length_fmap.
  - intros i Hi. eexists. split; [by apply mean_values_lookup|].
    rewrite (proj2 (Nat.leb_le 1 (Z.to_nat w))) by lia. simpl.
    destruct (Nat.leb_spec (Z.to_nat w) (i + 1)) as [Hle|Hgt].
    + split; [|done]. split; [lia|by eexists].
    + split; [|lia]. split; [by intros [? ?]|lia].
Qed.

(** With real numbers for the cells: whenever the call gets past the
    column check with a window that pandas accepts, the four added columns
    have one cell per row, and at every position the upper band is the
    moving average plus [num_std] times the rolling standard deviation and
    the lower band is the moving average minus that product; a band is
    defined exactly when the moving average and the standard deviation are
    both defined there, and where both bands are defined their difference
    is [2 * num_std * STD].  In binary64 the last two statements fail
    (see [Binary64Checks]). *)
Lemma bands_are_average_plus_minus_deviation (σ : state) data df w m :
  heap σ !! data = Some df → wf df →
  issubset cols (columns df) = true → (0 ≤ w)%Z →
  ∃ (df' : DataFrame) (ma sd upper lower : list float64),
    heap (plot_bollinger_bands parse_float Figure mpf_plot data w m σ).2
      !! data = Some df'
    ∧ getitem df' "MA" = Ok (Float64 ma)
    ∧ getitem df' "STD" = Ok (Float64 sd)
    ∧ getitem df' "Upper" = Ok (Float64 upper)
    ∧ getitem df' "Lower" = Ok (Float64 lower)
    ∧ ∀ i : nat, i < len df' →
        ∃ a s u l,
          ma !! i = Some a ∧ sd !! i = Some s
          ∧ upper !! i = Some u ∧ lower !! i = Some l
          ∧ (is_Some u ↔ is_Some a ∧ is_Some s)
          ∧ (is_Some l ↔ is_Some a ∧ is_Some s)
          ∧ (∀ av sv, a = Some av → s = Some sv →
               u = Some (av + m * sv)%R ∧ l = Some (av - m * sv)%R)
          ∧ (∀ uv lv, u = Some uv → l = Some lv →
               ∃ sv, s = Some sv ∧ (uv - lv = 2 * m * sv)%R).
Proof.
  intros Hd Hwf Hsub Hw.
  destruct (augmented_columns parse_float df w m Hwf Hsub)
    as (close & Hc & Hlen & Hma & Hsd & Hup & Hlo).
  cbv zeta in *.
  set (ma := mean_values (Z.to_nat w) (Some <$> close)) in *.
  set (sd := std_values (Z.to_nat w) (Some <$> close)) in *.
  exists (augmented parse_float w m df), ma, sd,
    (zip_with fadd ma (fmul m <$> sd)), (zip_with fsub ma (fmul m <$> sd)).
  split_and!; try by apply getitem_lookup.
  - by apply plot_leaves.
  - intros i Hi. rewrite Hlen in Hi.
    destruct (lookup_lt_is_Some_2 ma i) as [a Ha].
    { unfold ma. by rewrite length_mean_values, length_fmap. }
    destruct (lookup_lt_is_Some_2 sd i) as [s Hs].
    { unfold sd. by rewrite length_std_values, length_fmap. }
    exists a, s, (fadd a (fmul m s)), (fsub a (fmul m s)).
    rewrite !lookup_zip_with, !list_lookup_fmap, Ha, Hs. simpl.
    split_and!; try done.
    + destruct a, s; simpl; split; try done; try by intros [[? ?] [? ?]].
      all: by intros [? ?].
    + destruct a, s; simpl; split; try done; try by intros [[? ?] [? ?]].
      all: by intros [? ?].
    + by intros av sv -> ->.
    + intros uv lv Hu Hl. destruct a as [av|], s as [sv|]; simpl in *;
        try done.
      exists sv. split; [done|]. injection Hu as <-. injection Hl as <-. lra.
Qed.

(** With real numbers for the cells: for every well-formed price table
    that has the five required columns and every window [w ≥ 2], the cell
    of [STD] at position [i] is defined if and only if [i ≥ w - 1]; where it
    is defined it is the sample standard deviation (divisor [w - 1]) of the
    [w] closes at positions [i - w + 1 .. i], and the upper band there is
    the mean of those closes plus [num_std] times that deviation (with 10
    rows, window 5 and multiplier 1 this is the statement about [Upper] at
    position 9, with divisor 4). *)
Lemma rolling_std_defined_iff_window_full (σ : state) data df w m :
  heap σ !! data = Some df → wf df →
  issubset cols (columns df) = true → (2 ≤ w)%Z →
  ∃ (df' : DataFrame) (close : list R) (sd upper : list float64),
    heap (plot_bollinger_bands parse_float Figure mpf_plot data w m σ).2
      !! data = Some df'
    ∧ getitem df' "Close" = Ok (Float64 (Some <$> close))
    ∧ getitem df' "STD" = Ok (Float64 sd)
    ∧ getitem df' "Upper" = Ok (Float64 upper)
    ∧ length sd = length close
    ∧ ∀ i : nat, i < length close →
        ∃ x, sd !! i = Some x
          ∧ (is_Some x ↔ (w - 1 ≤ Z.of_nat i)%Z)
          ∧ ((w - 1 ≤ Z.of_nat i)%Z →
             let window := Spec.trailing close (Z.to_nat w) i in
             x = Some (Spec.sample_std window)
             ∧ upper !! i =
               Some (Some (Spec.arithmetic_mean window
                           + m * Spec.sample_std window)%R)).
Proof.
  intros Hd Hwf Hsub Hw.
  destruct (augmented_columns parse_float df w m Hwf Hsub)
    as (close & Hc & Hlen & Hma & Hsd & Hup & _).
  cbv zeta in *.
  exists (augmented parse_float w m df), close,
    (std_values (Z.to_nat w) (Some <$> close)),
    (zip_with fadd (mean_values (Z.to_nat w) (Some <$> close))
       (fmul m <$> std_values (Z.to_nat w) (Some <$> close))).
  split_and!; try by apply getitem_lookup.
  - apply plot_leaves; [done..|lia].
  - by rewrite length_std_values, length_fmap.
  - intros i Hi. eexists. split; [by apply std_values_lookup|].
    rewrite lookup_zip_with, list_lookup_fmap.
    rewrite mean_values_lookup, std_values_lookup by done.
    rewrite (proj2 (Nat.leb_le 1 (Z.to_nat w))) by lia.
    rewrite (proj2 (Nat.leb_le 2 (Z.to_nat w))) by lia.
    destruct (Nat.leb_spec (Z.to_nat w) (i + 1)) as [Hle|Hgt]; simpl.
    + split; [|done]. split; [lia|by eexists].
    + split; [|lia]. split; [by intros [? ?]|lia].
Qed.

(** With window 1 the sample variance has no degree of freedom left: the
    standard deviation is absent in every row. *)
Lemma std_values_window_one close :
  std_values 1 (Some <$> close) = replicate (length close) None.
Proof.
  apply list_eq. intros i.
  destruct (decide (i < length close)) as [Hi|Hi].
  - rewrite std_values_lookup by done. simpl.
    by rewrite lookup_replicate_2.
  - rewrite lookup_ge_None_2
      by (rewrite length_std_values, length_fmap; lia).
    symmetry. apply lookup_replicate_None. lia.
Qed.

Lemma length_select_le {A} mask (xs : list A) :
  length (select mask xs) ≤ length xs.
Proof.
  revert xs. induction mask as [|b mask IH]; intros [|x xs]; simpl;
    try lia.
  specialize (IH xs). destruct b; simpl; lia.
Qed.

Lemma len_cleaned_le df : len (cleaned parse_float df) ≤ len df.
Proof.
  unfold cleaned, len, select_rows. cbn [index].
  etrans; [apply length_select_le|]. by rewrite index_coerced.
Qed.

(** C8: when the table has fewer rows than the window, every row of the
    augmented frame has the moving average, the standard deviation and
    both bands absent. *)
Theorem short_series_has_no_indicator (σ : state) data df w m :
  heap σ !! data = Some df → wf df →
  issubset cols (columns df) = true → (Z.of_nat (len df) < w)%Z →
  ∃ df' : DataFrame,
    heap (plot_bollinger_bands parse_float Figure mpf_plot data w m σ).2
      !! data = Some df'
    ∧ ∀ k, k ∈ Spec.indicators →
        getitem df' k = Ok (Float64 (replicate (len df') None)).
Proof.
  intros Hd Hwf Hsub Hw.
  destruct (augmented_columns parse_float df w m Hwf Hsub)
    as (close & Hc & Hlen & Hma & Hsd & Hup & Hlo).
  cbv zeta in *.
  pose proof (len_cleaned_le df) as Hle.
  assert (Hn : len (augmented parse_float w m df) = len (cleaned parse_float df))
    by done.
  assert (Hmean : mean_values (Z.to_nat w) (Some <$> close)
                  = replicate (length close) None).
  { apply list_eq. intros i.
    destruct (decide (i < length close)) as [Hi|Hi].
    - rewrite mean_values_lookup by done.
      rewrite (proj2 (Nat.leb_gt (Z.to_nat w) (i + 1))) by lia.
      rewrite andb_false_r. by rewrite lookup_replicate_2.
    - rewrite lookup_ge_None_2
        by (rewrite length_mean_values, length_fmap; lia).
      symmetry. apply lookup_replicate_None. lia. }
  assert (Hstd : std_values (Z.to_nat w) (Some <$> close)
                 = replicate (length close) None).
  { apply list_eq. intros i.
    destruct (decide (i < length close)) as [Hi|Hi].
    - rewrite std_values_lookup by done.
      rewrite (proj2 (Nat.leb_gt (Z.to_nat w) (i + 1))) by lia.
      rewrite andb_false_r. by rewrite lookup_replicate_2.
    - rewrite lookup_ge_None_2
        by (rewrite length_std_values, length_fmap; lia).
      symmetry. apply lookup_replicate_None. lia. }
  rewrite Hmean, Hstd in *. rewrite fmap_replicate in *. simpl in *.
  rewrite zip_with_replicate in *. simpl in *.
  exists (augmented parse_float w m df). split.
  - apply plot_leaves; [done..|lia].
  - intros k Hk. rewrite Hlen. unfold Spec.indicators in Hk.
    rewrite !elem_of_cons in Hk.
    destruct Hk as [->|[->|[->|[->|Hk]]]]; try by apply getitem_lookup.
    by apply elem_of_nil in Hk.
Qed.

(** The column check passes and the window is negative: the frame is
    coerced and cleaned, then [rolling] refuses the window. *)
Lemma plot_negative_window (σ : state) data df w m :
  heap σ !! data = Some df → wf df →
  issubset cols (columns df) = true → (w < 0)%Z →
  plot_bollinger_bands parse_float Figure mpf_plot data w m σ =
  (Raise ValueError, with_frame Figure σ data (cleaned parse_float df)).
Proof.
  intros Hd Hwf Hsub Hw. unfold plot_bollinger_bands.
  rewrite (bind_run _ _ _ _ _ (deref_ok _ _ _ Hd)). rewrite Hsub. simpl.
  destruct (lookup_cleaned_required parse_float df "Close")
    as (l & Hl & _); [done|done|set_solver|].
  erewrite bind_run;
    [|by apply (update_ok _ _ _ df), coerce_columns_ok].
  erewrite bind_run; [|by apply update_with_frame, dropna_ok].
  apply bind_raise.
  eapply update_raise; [apply heap_with_frame|].
  unfold moving_average, getitem. rewrite Hl. simpl.
  by rewrite rolling_negative.
Qed.

(** C5: if one of the five required columns is missing, the call returns
    no figure, shows one error that carries the columns actually present,
    and leaves the heap as it was: nothing is coerced, no indicator is
    computed and nothing is plotted. *)
Theorem missing_column_is_reported (σ : state) data df w m k :
  heap σ !! data = Some df → k ∈ cols → k ∉ columns df →
  plot_bollinger_bands parse_float Figure mpf_plot data w m σ =
  (Ok None,
   mkState (heap σ) (ui σ ++ [st_error (unexpected_columns (columns df))])).
Proof.
  intros Hd Hk Hnk. apply plot_unexpected_columns; [done|].
  destruct (issubset cols (columns df)) eqn:Hsub; [|done].
  destruct Hnk. by eapply issubset_elem.
Qed.

(** *** What a call can touch *)

Lemma touches_only_ret {A} data (a : A) :
  touches_only Figure data (mret a : M A).
Proof. by intros σ. Qed.

Lemma touches_only_lift {A} data (r : result A) :
  touches_only Figure data (lift Figure r).
Proof. by intros σ. Qed.

Lemma touches_only_deref data data' :
  touches_only Figure data (deref Figure data').
Proof. intros σ. unfold deref. by destruct (heap σ !! data'). Qed.

Lemma touches_only_store data df :
  touches_only Figure data (store Figure data df).
Proof.
  intros σ. split; [done|]. intros l Hl. simpl.
  by rewrite lookup_insert_ne.
Qed.

Lemma touches_only_bind {A B} data (c : M A) (f : A → M B) :
  touches_only Figure data c → (∀ a, touches_only Figure data (f a)) →
  touches_only Figure data (c ≫= f).
Proof.
  intros Hc Hf σ. unfold mbind, M_bind.
  destruct (Hc σ) as [Hu Hh]. destruct (c σ) as [[a|e] σ'] eqn:E; simpl in *.
  - destruct (Hf a σ') as [Hu' Hh']. split; [congruence|].
    intros l Hl. rewrite Hh' by done. by apply Hh.
  - done.
Qed.

Lemma touches_only_update data f :
  touches_only Figure data (update Figure data f).
Proof.
  unfold update. apply touches_only_bind; [apply touches_only_deref|].
  intros df. apply touches_only_bind; [apply touches_only_lift|].
  intros df'. apply touches_only_store.
Qed.

(** Whatever the window, the rows and the columns other than the four
    indicators are those of the cleaned frame. *)
Lemma plot_leaves_cleaned_rows (σ : state) data df w m :
  heap σ !! data = Some df → wf df →
  issubset cols (columns df) = true →
  ∃ df' : DataFrame,
    heap (plot_bollinger_bands parse_float Figure mpf_plot data w m σ).2
      !! data = Some df'
    ∧ index df' = index (cleaned parse_float df)
    ∧ ∀ k, k ∉ Spec.indicators →
        lookup_item k (items df')
        = lookup_item k (items (cleaned parse_float df)).
Proof.
  intros Hd Hwf Hsub. destruct (decide (0 ≤ w)%Z) as [Hw|Hw].
  - exists (augmented parse_float w m df). split_and!.
    + by apply plot_leaves.
    + done.
    + intros k Hk. by apply lookup_banded_other.
  - exists (cleaned parse_float df).
    rewrite (plot_negative_window _ _ df) by (done || lia).
    split_and!; [apply heap_with_frame|done|done].
Qed.

Lemma indicators_in_augmented w m df k :
  k ∈ Spec.indicators → k ∈ columns (augmented parse_float w m df).
Proof.
  intros Hk. apply lookup_is_Some. unfold augmented.
  rewrite lookup_banded. cbv zeta.
  unfold Spec.indicators in Hk. rewrite !elem_of_cons, elem_of_nil in Hk.
  destruct_or!; subst; try done; by eexists.
Qed.

(** C6: the call makes the five required columns numeric and removes,
    from the index and from every column alike, exactly the rows in which
    one of the five cells does not coerce to a number.  The frame that is
    left has one row for each complete row of the input, in the input's
    order: its row [j] carries the index label of the [j]-th complete row
    and, in every column of the input other than the four indicator labels,
    the cell of that row (coerced if the column is a required one); every
    required column is a float column without NaN. *)
Theorem incomplete_rows_are_dropped_whole (σ : state) data df w m :
  heap σ !! data = Some df → wf df →
  issubset cols (columns df) = true →
  let kept := Spec.kept_rows parse_float df in
  ∃ df' : DataFrame,
    heap (plot_bollinger_bands parse_float Figure mpf_plot data w m σ).2
      !! data = Some df'
    ∧ len df' = length kept
    ∧ (∀ i, i ∈ kept ↔
         i < len df ∧ Spec.complete_row parse_float df i = true)
    ∧ (∀ j i, kept !! j = Some i → index df' !! j = index df !! i)
    ∧ (∀ k, k ∈ cols →
         ∃ xs : list R, getitem df' k = Ok (Float64 (Some <$> xs))
                        ∧ length xs = len df')
    ∧ (∀ k c, lookup_item k (items df) = Some c → k ∉ Spec.indicators →
         ∃ c', getitem df' k = Ok c'
           ∧ size c' = length kept
           ∧ ∀ j i, kept !! j = Some i →
               cell c' j
               = cell (if decide (k ∈ cols) then to_numeric parse_float c
                       else c) i).
Proof.
  intros Hd Hwf Hsub kept.
  destruct (plot_leaves_cleaned_rows σ data df w m Hd Hwf Hsub)
    as (df' & Hh & Hidx & Hcols).
  destruct (cleaned_kept_rows parse_float df Hwf Hsub)
    as (Hlen & Hrow & Hcell).
  exists df'. split_and!.
  - done.
  - unfold len in *. by rewrite Hidx.
  - intros i. unfold kept, Spec.kept_rows.
    rewrite list_elem_of_In, filter_In, in_seq. intuition lia.
  - intros j i Hj. rewrite Hidx. by apply Hrow.
  - intros k Hk.
    destruct (lookup_cleaned_required parse_float df k Hwf Hsub Hk)
      as (xs & Hxs & Hxlen).
    exists xs. split.
    + apply getitem_lookup. rewrite Hcols; [done|].
      by apply required_not_indicator.
    + unfold len in *. by rewrite Hidx.
  - intros k c Hc Hk. destruct (Hcell k c Hc) as (c' & Hc' & Hsz & Hcells).
    exists c'. split_and!; [|done|done].
    apply getitem_lookup. by rewrite Hcols.
Qed.


(** C4: the computation is repeatable.  Two calls with the same window
    and multiplier on equal tables, in whatever state and behind whatever
    reference, end the same way and leave equal frames; and a second call on
    the very object that the first call has augmented leaves the heap
    exactly as the first call left it (so the four indicator columns hold
    the same values) and ends the same way. *)
Theorem same_input_same_augmented_output (σ σ' : state) data data' df w m :
  heap σ !! data = Some df → heap σ' !! data' = Some df → wf df →
  let first := plot_bollinger_bands parse_float Figure mpf_plot data w m σ in
  let other := plot_bollinger_bands parse_float Figure mpf_plot data' w m σ' in
  let again :=
    plot_bollinger_bands parse_float Figure mpf_plot data w m first.2 in
  (other.1 = first.1 ∧ heap other.2 !! data' = heap first.2 !! data)
  ∧ (again.1 = first.1 ∧ heap again.2 = heap first.2).
Proof.
  intros Hd Hd' Hwf. cbv zeta.
  destruct (issubset cols (columns df)) eqn:Hsub.
  - destruct (decide (0 ≤ w)%Z) as [Hw|Hw].
    + rewrite (plot_ok σ data df w m) by done.
      rewrite (plot_ok σ' data' df w m) by done. cbn [fst snd].
      rewrite !heap_with_frame.
      rewrite (plot_ok _ _ (augmented parse_float w m df));
        [|apply heap_with_frame|by apply wf_augmented
         |by apply issubset_banded, issubset_cleaned|done].
      rewrite augmented_twice by done. simpl.
      by rewrite insert_insert_eq.
    + rewrite (plot_negative_window σ data df w m) by (done || lia).
      rewrite (plot_negative_window σ' data' df w m) by (done || lia).
      cbn [fst snd]. rewrite !heap_with_frame.
      rewrite (plot_negative_window _ _ (cleaned parse_float df));
        [|apply heap_with_frame|by apply wf_cleaned
         |by apply issubset_cleaned|lia].
      rewrite cleaned_twice by done. simpl.
      by rewrite insert_insert_eq.
  - rewrite (plot_unexpected_columns σ data df w m Hd Hsub).
    rewrite (plot_unexpected_columns σ' data' df w m Hd' Hsub).
    cbn [fst snd heap]. rewrite Hd, Hd'.
    by rewrite (plot_unexpected_columns _ _ df).
Qed.

(** *** The query button *)

Lemma emit_run (σ : state) e :
  emit Figure e σ = (Ok tt, mkState (heap σ) (ui σ ++ [e])).
Proof. done. Qed.

Lemma download_run (σ : state) ticker start end_ :
  download_stock_data Figure yf_download ticker start end_ σ =
  (Ok (fresh (dom (heap σ))),
   with_frame Figure σ (fresh (dom (heap σ)))
     (flattened (yf_download ticker start end_))).
Proof. done. Qed.

Lemma fresh_not_allocated (σ : state) : heap σ !! fresh (dom (heap σ)) = None.
Proof. apply not_elem_of_dom, is_fresh. Qed.

(** C7: when the downloaded table is empty, the query ends normally after
    showing exactly one thing, the error that no history could be
    obtained: no row count, no preview, no chart and no summary line is
    shown, and the only change to the heap is the downloaded table. *)
Theorem empty_download_is_reported (σ : state) ticker_input market
    start_date end_date w m :
  let df := flattened (yf_download (with_suffix market ticker_input)
                         start_date end_date) in
  empty df = true →
  query parse_float Figure mpf_plot yf_download
    ticker_input market start_date end_date w m σ =
  (Ok tt,
   mkState (<[fresh (dom (heap σ)) := df]> (heap σ))
     (ui σ ++ [st_error no_history])).
Proof.
  intros df Hempty. unfold query.
  erewrite bind_run; [|apply download_run].
  erewrite bind_run; [|apply deref_ok, heap_with_frame].
  fold df. by rewrite Hempty.
Qed.

Lemma lookup_cell_map (g : Column → pyobj) k l :
  lookup_cell k (map (fun kc => (kc.1, g kc.2)) l) = g <$> lookup_item k l.
Proof.
  induction l as [|[k' c'] l IH]; simpl; [done|].
  by destruct (String.eqb k k').
Qed.

(** A cell of the last row of a float column. *)
Lemma iloc_last_cell df row k xs x :
  iloc_last df = Ok row →
  lookup_item k (items df) = Some (Float64 xs) → length xs = len df →
  last xs = Some x →
  row_getitem row k = Ok (PyFloat x).
Proof.
  intros Hrow Hk Hlen Hx. unfold iloc_last in Hrow.
  destruct (last (index df)) as [t|]; [|done]. injection Hrow as <-.
  unfold row_getitem. cbn [cells].
  rewrite (lookup_cell_map
             (fun c => default (PyFloat None) (cell c (len df - 1)))), Hk.
  simpl.
  rewrite last_lookup in Hx. rewrite <- Hlen.
  replace (length xs - 1) with (pred (length xs)) by lia. by rewrite Hx.
Qed.

Lemma iloc_last_name df t :
  last (index df) = Some t → ∃ row, iloc_last df = Ok row ∧ name row = t.
Proof. intros Ht. unfold iloc_last. rewrite Ht. by eexists. Qed.

Lemma write_2f_run (σ : state) row k x :
  row_getitem row k = Ok (PyFloat x) →
  write_2f Figure row k σ = (Ok tt, mkState (heap σ) (ui σ ++ [st_write_2f k x])).
Proof.
  intros Hk. unfold write_2f, lift, mbind, M_bind. by rewrite Hk.
Qed.

Lemma last_is_Some {A} (l : list A) : 0 < length l → is_Some (last l).
Proof.
  intros Hl. rewrite last_lookup. apply lookup_lt_is_Some_2. lia.
Qed.

(** C10: when the downloaded table is not empty, has the required columns
    and the plot succeeds, the frame behind the reference that the query
    obtained from the download and passed to [plot_bollinger_bands] is,
    after the call, the augmented one: it has the four indicator columns,
    and its rows are the complete rows of the downloaded table, in their
    order (row [j] carries the index label and, in every downloaded column
    other than an indicator label, the cell of the [j]-th complete row).
    The summary is read from that object: the date shown is its last index
    label and the four numbers shown are the last cells of its [Close],
    [Upper], [MA] and [Lower] columns. *)
Theorem summary_reads_the_frame_passed_in (σ : state) ticker_input market
    start_date end_date w m fig :
  let df := flattened (yf_download (with_suffix market ticker_input)
                         start_date end_date) in
  let F := augmented parse_float w m df in
  let kept := Spec.kept_rows parse_float df in
  empty df = false → wf df → issubset cols (columns df) = true →
  (0 ≤ w)%Z → plotted Figure mpf_plot F = Ok (Some fig) → 0 < len F →
  let r := query parse_float Figure mpf_plot yf_download
             ticker_input market start_date end_date w m σ in
  ∃ (data : loc) (t : Timestamp) (close upper ma lower : list float64)
    (xc xu xa xl : float64),
    r.1 = Ok tt
    ∧ heap σ !! data = None
    ∧ heap r.2 !! data = Some F
    ∧ (∀ k, k ∈ Spec.indicators → k ∈ columns F)
    ∧ len F = length kept
    ∧ (∀ i, i ∈ kept ↔
         i < len df ∧ Spec.complete_row parse_float df i = true)
    ∧ (∀ j i, kept !! j = Some i → index F !! j = index df !! i)
    ∧ (∀ k c, lookup_item k (items df) = Some c → k ∉ Spec.indicators →
         ∃ c', getitem F k = Ok c'
           ∧ size c' = length kept
           ∧ ∀ j i, kept !! j = Some i →
               cell c' j
               = cell (if decide (k ∈ cols) then to_numeric parse_float c
                       else c) i)
    ∧ last (index F) = Some t
    ∧ getitem F "Close" = Ok (Float64 close) ∧ last close = Some xc
    ∧ getitem F "Upper" = Ok (Float64 upper) ∧ last upper = Some xu
    ∧ getitem F "MA" = Ok (Float64 ma) ∧ last ma = Some xa
    ∧ getitem F "Lower" = Ok (Float64 lower) ∧ last lower = Some xl
    ∧ ui r.2 = ui σ ++ [st_write_len (len df); st_write_frame (tail 5 df);
                        st_pyplot fig; st_subheader t;
                        st_write_2f "Close" xc; st_write_2f "Upper" xu;
                        st_write_2f "MA" xa; st_write_2f "Lower" xl].
Proof.
  intros df F kept Hempty Hwf Hsub Hw Hplot Hlen r.
  destruct (augmented_kept_rows parse_float df w m Hwf Hsub)
    as (Hkept & Hkidx & Hcell).
  destruct (augmented_columns parse_float df w m Hwf Hsub)
    as (cl & Hc & Hn & Hma & Hsd & Hup & Hlo).
  cbv zeta in *. fold df F in Hc, Hn, Hma, Hsd, Hup, Hlo.
  set (close := Some <$> cl) in *.
  set (ma := mean_values (Z.to_nat w) close) in *.
  set (sd := std_values (Z.to_nat w) close) in *.
  set (upper := zip_with fadd ma (fmul m <$> sd)) in *.
  set (lower := zip_with fsub ma (fmul m <$> sd)) in *.
  assert (length close = len F) as Lc
    by (unfold close; by rewrite length_fmap).
  assert (length ma = len F) as La
    by (unfold ma; by rewrite length_mean_values).
  assert (length sd = len F) as Ls
    by (unfold sd; by rewrite length_std_values).
  assert (length upper = len F) as Lu
    by (unfold upper; rewrite length_zip_with, length_fmap; lia).
  assert (length lower = len F) as Ll
    by (unfold lower; rewrite length_zip_with, length_fmap; lia).
  destruct (last_is_Some (index F)) as [t Ht]; [done|].
  destruct (last_is_Some close) as [xc Hxc]; [lia|].
  destruct (last_is_Some upper) as [xu Hxu]; [lia|].
  destruct (last_is_Some ma) as [xa Hxa]; [lia|].
  destruct (last_is_Some lower) as [xl Hxl]; [lia|].
  destruct (iloc_last_name F t Ht) as (row & Hrow & Hname).
  set (data := fresh (dom (heap σ))).
  set (σ1 := with_frame Figure σ data df).
  set (σ3 := mkState (heap σ1)
               ((ui σ1 ++ [st_write_len (len df)])
                ++ [st_write_frame (tail 5 df)])).
  assert (r = (Ok tt,
               mkState (<[data := F]> (heap σ3))
                 ((((((ui σ3 ++ [st_pyplot fig]) ++ [st_subheader t])
                     ++ [st_write_2f "Close" xc]) ++ [st_write_2f "Upper" xu])
                   ++ [st_write_2f "MA" xa]) ++ [st_write_2f "Lower" xl])))
    as Hr.
  { unfold r, query.
    erewrite bind_run; [|apply download_run].
    erewrite bind_run; [|apply deref_ok, heap_with_frame].
    fold df data σ1. rewrite Hempty.
    erewrite bind_run; [|apply emit_run].
    erewrite bind_run; [|apply emit_run].
    cbn [heap ui]. fold σ3.
    erewrite bind_run;
      [|rewrite (plot_ok σ3 data df w m);
        [fold F; by rewrite Hplot|apply heap_with_frame|done..]].
    cbv beta iota.
    erewrite bind_run; [|apply emit_run].
    erewrite bind_run; [|apply deref_ok, heap_with_frame].
    erewrite bind_run; [|unfold lift; by rewrite Hrow].
    erewrite bind_run; [|apply emit_run]. rewrite Hname.
    erewrite bind_run; [|by apply write_2f_run, (iloc_last_cell F _ _ close)].
    erewrite bind_run; [|by apply write_2f_run, (iloc_last_cell F _ _ upper)].
    erewrite bind_run; [|by apply write_2f_run, (iloc_last_cell F _ _ ma)].
    by erewrite write_2f_run; [|by apply (iloc_last_cell F _ _ lower)]. }
  exists data, t, close, upper, ma, lower, xc, xu, xa, xl.
  rewrite Hr. cbn [fst snd heap ui].
  split_and!; try done; try by apply getitem_lookup.
  - apply fresh_not_allocated.
  - apply lookup_insert_eq.
  - intros k Hk. by apply indicators_in_augmented.
  - intros i. unfold kept, Spec.kept_rows.
    rewrite list_elem_of_In, filter_In, in_seq. intuition lia.
  - intros k c Hk Hni. destruct (Hcell k c Hk Hni) as (c' & Hc' & Hsz & Hcs).
    exists c'. split_and!; [by apply getitem_lookup|done|done].
  - unfold σ3, σ1. cbn [ui with_frame]. by rewrite <- !app_assoc.
Qed.

End Run.
End BBandFacts.

(** ** Facts about the binary64 computation *)

Module Binary64Facts.

Import PrimFloat FloatOps FloatAxioms SpecFloat.
Import Binary64.

Lemma is_nan_Prim2SF (x : float) : is_nan x = true ↔ Prim2SF x = S754_nan.
Proof.
  split.
  - intros H. unfold Prim2SF. by rewrite H.
  - intros H. unfold is_nan. by rewrite FloatAxioms.eqb_spec, H.
Qed.

Lemma is_nan_add_l (x y : float) : is_nan x = true → is_nan (x + y) = true.
Proof.
  rewrite !is_nan_Prim2SF, add_spec. intros ->. done.
Qed.

Lemma is_nan_add_r (x y : float) : is_nan y = true → is_nan (x + y) = true.
Proof.
  rewrite !is_nan_Prim2SF, add_spec. intros ->.
  unfold SF64add, SFadd. by destruct (Prim2SF x) as [| | |[] ? ?].
Qed.

Lemma is_nan_sub_l (x y : float) : is_nan x = true → is_nan (x - y) = true.
Proof.
  rewrite !is_nan_Prim2SF, sub_spec. intros ->. done.
Qed.

Lemma is_nan_sub_r (x y : float) : is_nan y = true → is_nan (x - y) = true.
Proof.
  rewrite !is_nan_Prim2SF, sub_spec. intros ->.
  unfold SF64sub, SFsub. by destruct (Prim2SF x) as [| | |[] ? ?].
Qed.

Lemma is_nan_mul_l (x y : float) : is_nan x = true → is_nan (x * y) = true.
Proof.
  rewrite !is_nan_Prim2SF, mul_spec. intros ->. done.
Qed.

Lemma is_nan_mul_r (x y : float) : is_nan y = true → is_nan (x * y) = true.
Proof.
  rewrite !is_nan_Prim2SF, mul_spec. intros ->.
  unfold SF64mul, SFmul. by destruct (Prim2SF x) as [| | |[] ? ?].
Qed.


Lemma length_slice_le {A} (xs : list A) (a b : nat) :
  length (Pandas.slice xs a b) ≤ b - a.
Proof. unfold Pandas.slice. rewrite length_take. lia. Qed.

Section Count.

Context {State : Type}.
Variable setup : float → State.
Variable add_value remove_value : float → State → State.
Variable calc : State → float.

Lemma length_roll_from (values : list float) (w n i : nat) (prev : State) :
  length (roll_from setup add_value remove_value calc values w n i prev) = n.
Proof.
  revert i prev. induction n as [|n IH]; intros i prev; simpl; [done|].
  by rewrite IH.
Qed.

Lemma length_roll (values : list float) (w : nat) :
  length (roll setup add_value remove_value calc values w) = length values.
Proof. apply length_roll_from. Qed.

(** Row [i + j] is computed from the state of its window. *)
Lemma roll_from_lookup (values : list float) (w n i j : nat) (prev : State) :
  j < n →
  ∃ prev',
    roll_from setup add_value remove_value calc values w n i prev !! j
    = Some (calc (window_state setup add_value remove_value values w
                    (i + j) prev'))
    ∧ (j = 0 → prev' = prev).
Proof.
  revert i j prev. induction n as [|n IH]; intros i j prev Hj; [lia|].
  destruct j as [|j]; simpl.
  - exists prev. by rewrite Nat.add_0_r.
  - destruct (IH (S i) j
      (window_state setup add_value remove_value values w i prev))
      as (prev' & Hl & _); [lia|].
    exists prev'. split; [|done].
    by replace (i + S j) with (S i + j) by lia.
Qed.

Variable count : State → nat.
Hypothesis count_setup : ∀ v, count (setup v) = 0.
Hypothesis count_add : ∀ v st, count (add_value v st) ≤ S (count st).
Hypothesis count_remove : ∀ v st, count (remove_value v st) ≤ count st.

Lemma count_foldl_add (vals : list float) (st : State) :
  count (foldl (fun st val => add_value val st) st vals)
  ≤ count st + length vals.
Proof.
  revert st. induction vals as [|v vals IH]; intros st; simpl; [lia|].
  specialize (IH (add_value v st)). specialize (count_add v st). lia.
Qed.

Lemma count_foldl_remove (vals : list float) (st : State) :
  count (foldl (fun st val => remove_value val st) st vals) ≤ count st.
Proof.
  revert st. induction vals as [|v vals IH]; intros st; simpl; [lia|].
  specialize (IH (remove_value v st)). specialize (count_remove v st). lia.
Qed.

(** A window never holds more observations than it has rows. *)
Lemma count_window_state (values : list float) (w i : nat) (prev : State) :
  1 ≤ w →
  (i ≠ 0 → count prev ≤ i) →
  count (window_state setup add_value remove_value values w i prev) ≤ i + 1.
Proof.
  intros Hw Hprev. unfold window_state, start, stop.
  rewrite (proj2 (Nat.eqb_neq w 0)) by lia.
  destruct ((i =? 0) || (i - 1 + 1 <=? i + 1 - w)) eqn:Hc.
  - etrans; [apply count_foldl_add|]. rewrite count_setup.
    pose proof (length_slice_le values (i + 1 - w) (i + 1)). lia.
  - apply orb_false_iff in Hc as [Hi _]. apply Nat.eqb_neq in Hi.
    etrans; [apply count_foldl_add|].
    pose proof (count_foldl_remove
      (Pandas.slice values (i - 1 + 1 - w) (i + 1 - w)) prev).
    pose proof (length_slice_le values (i - 1 + 1) (i + 1)).
    specialize (Hprev Hi). lia.
Qed.

(** With a window of one row every row starts afresh. *)
Lemma count_window_state_one (values : list float) (i : nat) (prev : State) :
  count (window_state setup add_value remove_value values 1 i prev) ≤ 1.
Proof.
  unfold window_state, start, stop. simpl (1 =? 0).
  cbv beta iota zeta.
  replace ((i =? 0) || (i - 1 + 1 <=? i + 1 - 1)) with true.
  - etrans; [apply count_foldl_add|]. rewrite count_setup.
    pose proof (length_slice_le values (i + 1 - 1) (i + 1)). lia.
  - symmetry. destruct i as [|i]; [done|]. apply orb_true_iff. right.
    apply Nat.leb_le. lia.
Qed.

Lemma count_roll_from (values : list float) (w n i j : nat) (prev : State) :
  1 ≤ w → (i ≠ 0 → count prev ≤ i) → j < n →
  ∃ st,
    roll_from setup add_value remove_value calc values w n i prev !! j
    = Some (calc st)
    ∧ count st ≤ i + j + 1.
Proof.
  intros Hw. revert i j prev. induction n as [|n IH]; intros i j prev Hp Hj;
    [lia|].
  destruct j as [|j]; simpl.
  - eexists. split; [done|]. rewrite Nat.add_0_r.
    by apply count_window_state.
  - destruct (IH (S i) j
      (window_state setup add_value remove_value values w i prev))
      as (st & Hl & Hc); [|lia|].
    + intros _. pose proof (count_window_state values w i prev Hw Hp). lia.
    + exists st. split; [done|]. lia.
Qed.

Lemma count_roll (values : list float) (w j : nat) :
  1 ≤ w → j < length values →
  ∃ st,
    roll setup add_value remove_value calc values w !! j = Some (calc st)
    ∧ count st ≤ j + 1.
Proof.
  intros Hw Hj.
  destruct (count_roll_from values w (length values) 0 j (setup nan) Hw)
    as (st & Hl & Hc); [done|done|].
  by exists st.
Qed.

Lemma count_roll_one (values : list float) (j : nat) :
  j < length values →
  ∃ st,
    roll setup add_value remove_value calc values 1 !! j = Some (calc st)
    ∧ count st ≤ 1.
Proof.
  intros Hj.
  destruct (roll_from_lookup values 1 (length values) 0 j (setup nan) Hj)
    as (prev' & Hl & _).
  eexists. split; [exact Hl|]. apply count_window_state_one.
Qed.

End Count.

Lemma nobs_add_mean (v : float) (st : mean_state) :
  nobs (add_mean v st) ≤ S (nobs st).
Proof. unfold add_mean. destruct (v =? v)%float; simpl; lia. Qed.

Lemma nobs_remove_mean (v : float) (st : mean_state) :
  nobs (remove_mean v st) ≤ nobs st.
Proof. unfold remove_mean. destruct (v =? v)%float; simpl; lia. Qed.

Lemma nobs_add_var (v : float) (st : var_state) :
  var_nobs (add_var v st) ≤ S (var_nobs st).
Proof. unfold add_var. destruct (v =? v)%float; simpl; lia. Qed.

Lemma nobs_remove_var (v : float) (st : var_state) :
  var_nobs (remove_var v st) ≤ var_nobs st.
Proof.
  unfold remove_var. destruct (v =? v)%float; [|lia].
  destruct (var_nobs st - 1 =? 0); simpl; lia.
Qed.

Lemma calc_mean_short (minp : nat) (st : mean_state) :
  nobs st < minp → calc_mean minp st = nan.
Proof.
  intros H. unfold calc_mean.
  by rewrite (proj2 (Nat.leb_gt minp (nobs st))) by lia.
Qed.

Lemma calc_var_short (minp ddof : nat) (st : var_state) :
  var_nobs st < minp ∨ var_nobs st ≤ ddof → calc_var minp ddof st = nan.
Proof.
  intros H. unfold calc_var.
  destruct (minp <=? var_nobs st) eqn:H1; [|done].
  destruct (ddof <? var_nobs st) eqn:H2; [|done].
  apply Nat.leb_le in H1. apply Nat.ltb_lt in H2. lia.
Qed.

Lemma length_prep_values (close : list float) :
  length (prep_values close) = length close.
Proof. unfold prep_values. by rewrite length_fmap. Qed.

(** Finite closes reach the loops as they are. *)
Lemma prep_values_finite (close : list float) :
  Forall (fun v => is_finite v = true) close → prep_values close = close.
Proof.
  unfold prep_values. induction 1 as [|v l Hv _ IH]; csimpl; [done|].
  rewrite IH. unfold is_finite in Hv.
  by destruct (is_nan v), (is_infinity v).
Qed.

Lemma finite_notna (v : float) : is_finite v = true → is_nan v = false.
Proof. unfold is_finite. by destruct (is_nan v). Qed.

Lemma length_moving_average (close : list float) (w : nat) :
  length (moving_average close w) = length close.
Proof.
  unfold moving_average, roll_mean.
  by rewrite length_roll, length_prep_values.
Qed.

Lemma length_moving_std (close : list float) (w : nat) :
  length (moving_std close w) = length close.
Proof.
  unfold moving_std, roll_var.
  by rewrite length_fmap, length_roll, length_prep_values.
Qed.

Lemma moving_average_short (close : list float) (w i : nat) :
  i < length close → i + 1 < w →
  moving_average close w !! i = Some nan.
Proof.
  intros Hi Hw. rewrite <- length_prep_values in Hi.
  destruct (count_roll setup_mean add_mean remove_mean (calc_mean w) nobs
              (fun _ => eq_refl) nobs_add_mean nobs_remove_mean
              (prep_values close) w i)
    as (st & Hl & Hc); [lia|done|].
  unfold moving_average, roll_mean. rewrite Hl.
  by rewrite calc_mean_short by lia.
Qed.

Lemma moving_std_short (close : list float) (w i : nat) :
  i < length close → i + 1 < w ∨ w = 1 →
  moving_std close w !! i = Some nan.
Proof.
  intros Hi Hw. unfold moving_std, roll_var. rewrite list_lookup_fmap.
  rewrite <- length_prep_values in Hi.
  destruct Hw as [Hw | ->].
  - destruct (count_roll setup_var add_var remove_var
                (calc_var (max w 1) 1) var_nobs
                (fun _ => eq_refl) nobs_add_var nobs_remove_var
                (prep_values close) w i)
      as (st & Hl & Hc); [lia|done|].
    rewrite Hl. simpl. by rewrite calc_var_short by lia.
  - destruct (count_roll_one setup_var add_var remove_var
                (calc_var (max 1 1) 1) var_nobs
                (fun _ => eq_refl) nobs_add_var (prep_values close) i)
      as (st & Hl & Hc); [done|].
    rewrite Hl. simpl. by rewrite calc_var_short by lia.
Qed.

(** *** Runs of equal closes

    On a column without NaN the count of a window is the number of its
    rows, and the length of the current run of equal values is kept
    alongside. *)

Lemma slice_one {A} (xs : list A) (a : nat) (x : A) :
  xs !! a = Some x → Pandas.slice xs a (a + 1) = [x].
Proof.
  intros H. unfold Pandas.slice. replace (a + 1 - a) with 1 by lia.
  revert xs H. induction a as [|a IH]; intros [|y xs] H; try done.
  - injection H as ->. by rewrite drop_0.
  - by apply IH.
Qed.

Lemma slice_none {A} (xs : list A) (a b : nat) :
  b ≤ a → Pandas.slice xs a b = [].
Proof. intros H. unfold Pandas.slice. by replace (b - a) with 0 by lia. Qed.

Lemma nth_lookup_nan (xs : list float) (a : nat) (x : float) :
  xs !! a = Some x → nth a xs nan = x.
Proof.
  revert a. induction xs as [|y xs IH]; intros [|a] H; try done.
  - by injection H.
  - by apply IH.
Qed.

Section Runs.

Context {State : Type}.
Variable setup : float → State.
Variable add_value remove_value : float → State → State.
Variable calc : State → float.
Variable count run : State → nat.
Variable prev : State → float.

Hypothesis setup_ok :
  ∀ v, count (setup v) = 0 ∧ run (setup v) = 0 ∧ prev (setup v) = v.
Hypothesis add_ok : ∀ v st, (v =? v)%float = true →
  count (add_value v st) = S (count st)
  ∧ prev (add_value v st) = v
  ∧ run (add_value v st)
    = if (v =? prev st)%float then S (run st) else 1.
Hypothesis remove_ok : ∀ v st, (v =? v)%float = true →
  count (remove_value v st) = count st - 1
  ∧ prev (remove_value v st) = prev st
  ∧ run (remove_value v st) = run st.

Variable values : list float.
Variable w : nat.
Hypothesis values_notna : Forall (fun v => (v =? v)%float = true) values.
Hypothesis window_pos : 1 ≤ w.

Abbreviation row_ok := (row_state count run prev values w).

Lemma row_state_window (j : nat) (st : State) :
  j < length values →
  (j ≠ 0 → row_ok (j - 1) st) →
  row_ok j (window_state setup add_value remove_value values w j st).
Proof.
  intros Hj Hprev.
  destruct (lookup_lt_is_Some_2 values j Hj) as [v Hv].
  assert ((v =? v)%float = true) as Hvv.
  { rewrite Forall_forall in values_notna. apply values_notna.
    by eapply list_elem_of_lookup_2. }
  unfold window_state, start, stop.
  rewrite (proj2 (Nat.eqb_neq w 0)) by lia.
  destruct ((j =? 0) || (j - 1 + 1 <=? j + 1 - w)) eqn:Hc.
  - (* the row starts afresh: its window is the row itself *)
    assert (j + 1 - w = j) as Hs.
    { apply orb_true_iff in Hc as [Hc|Hc].
      - apply Nat.eqb_eq in Hc. lia.
      - apply Nat.leb_le in Hc. lia. }
    rewrite Hs, (slice_one values j v Hv), (nth_lookup_nan values j v Hv).
    simpl.
    destruct (setup_ok v) as (Hc0 & Hr0 & Hp0).
    destruct (add_ok v (setup v) Hvv) as (Hc1 & Hp1 & Hr1).
    rewrite Hp0, Hvv, Hr0 in Hr1.
    unfold row_state. split_and!.
    + rewrite Hc1, Hc0. lia.
    + by rewrite Hp1.
    + intros k Hk _. rewrite Hr1. lia.
  - apply orb_false_iff in Hc as [Hj0 Hw]. apply Nat.eqb_neq in Hj0.
    apply Nat.leb_gt in Hw.
    destruct (Hprev Hj0) as (Hcp & Hpp & Hrp).
    replace (j - 1 + 1) with j by lia.
    rewrite (slice_one values j v Hv). simpl.
    set (st' := foldl (fun st val => remove_value val st) st
                  (Pandas.slice values (j - w) (j + 1 - w))).
    assert (count st' = min (j + 1) w - 1 ∧ prev st' = prev st
            ∧ run st' = run st) as (Hc' & Hp' & Hr').
    { unfold st'. destruct (decide (w ≤ j)) as [Hwj|Hwj].
      - destruct (lookup_lt_is_Some_2 values (j - w)) as [u Hu]; [lia|].
        assert ((u =? u)%float = true) as Huu.
        { rewrite Forall_forall in values_notna. apply values_notna.
          by eapply list_elem_of_lookup_2. }
        replace (j + 1 - w) with (j - w + 1) by lia.
        rewrite (slice_one values (j - w) u Hu). simpl.
        destruct (remove_ok u st Huu) as (Hc1 & Hp1 & Hr1).
        split_and!; [|done|done].
        rewrite Hc1, Hcp. lia.
      - rewrite slice_none by lia. simpl. split_and!; [|done|done].
        rewrite Hcp. lia. }
    destruct (add_ok v st' Hvv) as (Hc1 & Hp1 & Hr1).
    unfold row_state. split_and!.
    + rewrite Hc1, Hc'. lia.
    + by rewrite Hp1.
    + intros k Hk Hrun. rewrite Hr1, Hp', Hr'.
      destruct (decide (k = 1)) as [->|Hk1].
      { destruct (v =? prev st)%float; lia. }
      destruct (Hrun (j - 1)) as (x & y & Hx & Hy & Hxy); [lia|].
      replace (S (j - 1)) with j in Hy by lia.
      rewrite Hv in Hy. injection Hy as <-.
      rewrite Hpp in Hx. injection Hx as <-.
      rewrite Hxy.
      assert (k - 1 ≤ run st); [|lia].
      apply Hrp; [lia|].
      intros t Ht. apply Hrun. lia.
Qed.

Lemma row_state_roll_from (n i j : nat) (st : State) :
  i + n ≤ length values →
  (i ≠ 0 → row_ok (i - 1) st) →
  j < n →
  ∃ st',
    roll_from setup add_value remove_value calc values w n i st !! j
    = Some (calc st')
    ∧ row_ok (i + j) st'.
Proof.
  revert i j st. induction n as [|n IH]; intros i j st Hn Hst Hj; [lia|].
  pose proof (row_state_window i st ltac:(lia) Hst) as Hrow.
  destruct j as [|j]; simpl.
  - eexists. split; [done|]. by rewrite Nat.add_0_r.
  - destruct (IH (S i) j
      (window_state setup add_value remove_value values w i st))
      as (st' & Hl & Hrow'); [lia| |lia|].
    + intros _. by replace (S i - 1) with i by lia.
    + exists st'. split; [done|].
      by replace (i + S j) with (S i + j) by lia.
Qed.

Lemma row_state_roll (j : nat) :
  j < length values →
  ∃ st,
    roll setup add_value remove_value calc values w !! j = Some (calc st)
    ∧ row_ok j st.
Proof.
  intros Hj.
  destruct (row_state_roll_from (length values) 0 j (setup nan))
    as (st & Hl & Hrow); [done|done|done|].
  by exists st.
Qed.

End Runs.

Lemma notna_eqb (v : float) : is_nan v = false → (v =? v)%float = true.
Proof. unfold is_nan. by destruct (v =? v)%float. Qed.

Lemma setup_mean_ok (v : float) :
  nobs (setup_mean v) = 0
  ∧ num_consecutive_same_value (setup_mean v) = 0
  ∧ prev_value (setup_mean v) = v.
Proof. done. Qed.

Lemma add_mean_ok (v : float) (st : mean_state) :
  (v =? v)%float = true →
  nobs (add_mean v st) = S (nobs st)
  ∧ prev_value (add_mean v st) = v
  ∧ num_consecutive_same_value (add_mean v st)
    = if (v =? prev_value st)%float
      then S (num_consecutive_same_value st) else 1.
Proof.
  intros H. unfold add_mean. rewrite H. simpl.
  split_and!; [lia|done|].
  destruct (v =? prev_value st)%float; lia.
Qed.

Lemma remove_mean_ok (v : float) (st : mean_state) :
  (v =? v)%float = true →
  nobs (remove_mean v st) = nobs st - 1
  ∧ prev_value (remove_mean v st) = prev_value st
  ∧ num_consecutive_same_value (remove_mean v st)
    = num_consecutive_same_value st.
Proof. intros H. unfold remove_mean. by rewrite H. Qed.

Lemma setup_var_ok (v : float) :
  var_nobs (setup_var v) = 0
  ∧ var_num_consecutive_same_value (setup_var v) = 0
  ∧ var_prev_value (setup_var v) = v.
Proof. done. Qed.

Lemma add_var_ok (v : float) (st : var_state) :
  (v =? v)%float = true →
  var_nobs (add_var v st) = S (var_nobs st)
  ∧ var_prev_value (add_var v st) = v
  ∧ var_num_consecutive_same_value (add_var v st)
    = if (v =? var_prev_value st)%float
      then S (var_num_consecutive_same_value st) else 1.
Proof.
  intros H. unfold add_var. rewrite H. simpl.
  split_and!; [lia|done|].
  destruct (v =? var_prev_value st)%float; lia.
Qed.

Lemma remove_var_ok (v : float) (st : var_state) :
  (v =? v)%float = true →
  var_nobs (remove_var v st) = var_nobs st - 1
  ∧ var_prev_value (remove_var v st) = var_prev_value st
  ∧ var_num_consecutive_same_value (remove_var v st)
    = var_num_consecutive_same_value st.
Proof.
  intros H. unfold remove_var. rewrite H.
  by destruct (var_nobs st - 1 =? 0).
Qed.

Lemma notna_Forall (close : list float) :
  Forall (fun v => is_finite v = true) close →
  Forall (fun v => (v =? v)%float = true) close.
Proof.
  intros H. eapply Forall_impl; [exact H|].
  intros v Hv. by apply notna_eqb, finite_notna.
Qed.

(** A window in which every close is [c]. *)
Lemma run_of_equal_constant (close : list float) (w i : nat) (c : float) :
  is_nan c = false →
  (∀ t, i + 1 - w ≤ t ≤ i → close !! t = Some c) →
  run_of_equal close (i + 1 - w) i.
Proof.
  intros Hc Hflat t Ht. exists c, c.
  split_and!; [apply Hflat; lia|apply Hflat; lia|by apply notna_eqb].
Qed.

(** Over a full window of equal closes the moving average is that close
    itself, whatever the sum of the window rounds to. *)
Lemma moving_average_flat (close : list float) (w i : nat) (c : float) :
  Forall (fun v => is_finite v = true) close →
  1 ≤ w → w ≤ i + 1 → i < length close → is_nan c = false →
  (∀ t, i + 1 - w ≤ t ≤ i → close !! t = Some c) →
  moving_average close w !! i = Some c.
Proof.
  intros Hna Hw Hi Hlen Hc Hflat.
  unfold moving_average. rewrite (prep_values_finite close Hna).
  destruct (row_state_roll setup_mean add_mean remove_mean (calc_mean w)
              nobs num_consecutive_same_value prev_value
              setup_mean_ok add_mean_ok remove_mean_ok
              close w (notna_Forall close Hna) Hw i Hlen)
    as (st & Hl & Hn & Hp & Hr).
  unfold roll_mean. rewrite Hl. f_equal.
  rewrite (Hflat i) in Hp by lia. injection Hp as Hp.
  specialize (Hr w ltac:(lia) (run_of_equal_constant close w i c Hc Hflat)).
  unfold calc_mean. rewrite Hn.
  rewrite (proj2 (Nat.leb_le w (min (i + 1) w))) by lia.
  rewrite (proj2 (Nat.ltb_lt 0 (min (i + 1) w))) by lia.
  rewrite (proj2 (Nat.leb_le (min (i + 1) w)
                    (num_consecutive_same_value st))) by lia.
  done.
Qed.

(** There the rolling standard deviation is exactly zero. *)
Lemma moving_std_flat (close : list float) (w i : nat) (c : float) :
  Forall (fun v => is_finite v = true) close →
  2 ≤ w → w ≤ i + 1 → i < length close → is_nan c = false →
  (∀ t, i + 1 - w ≤ t ≤ i → close !! t = Some c) →
  moving_std close w !! i = Some 0%float.
Proof.
  intros Hna Hw Hi Hlen Hc Hflat.
  unfold moving_std. rewrite (prep_values_finite close Hna).
  destruct (row_state_roll setup_var add_var remove_var
              (calc_var (max w 1) 1)
              var_nobs var_num_consecutive_same_value var_prev_value
              setup_var_ok add_var_ok remove_var_ok
              close w (notna_Forall close Hna) ltac:(lia) i Hlen)
    as (st & Hl & Hn & Hp & Hr).
  unfold roll_var. rewrite list_lookup_fmap, Hl. simpl. f_equal.
  specialize (Hr w ltac:(lia) (run_of_equal_constant close w i c Hc Hflat)).
  unfold calc_var. rewrite Hn.
  rewrite (proj2 (Nat.leb_le (max w 1) (min (i + 1) w))) by lia.
  rewrite (proj2 (Nat.ltb_lt 1 (min (i + 1) w))) by lia.
  rewrite (proj2 (Nat.leb_le (min (i + 1) w)
                    (var_num_consecutive_same_value st))) by lia.
  by rewrite orb_true_r.
Qed.

(** *** The bands *)

Lemma upper_band_lookup (close : list float) (w i : nat) (m a s : float) :
  moving_average close w !! i = Some a → moving_std close w !! i = Some s →
  upper_band close w m !! i = Some (a + s * m)%float.
Proof.
  intros Ha Hs. unfold upper_band. by rewrite lookup_zip_with, Ha, Hs.
Qed.

Lemma lower_band_lookup (close : list float) (w i : nat) (m a s : float) :
  moving_average close w !! i = Some a → moving_std close w !! i = Some s →
  lower_band close w m !! i = Some (a - s * m)%float.
Proof.
  intros Ha Hs. unfold lower_band. by rewrite lookup_zip_with, Ha, Hs.
Qed.

Lemma moving_lookup (close : list float) (w i : nat) :
  i < length close →
  ∃ a s, moving_average close w !! i = Some a
         ∧ moving_std close w !! i = Some s.
Proof.
  intros Hi.
  destruct (lookup_lt_is_Some_2 (moving_average close w) i) as [a Ha];
    [by rewrite length_moving_average|].
  destruct (lookup_lt_is_Some_2 (moving_std close w) i) as [s Hs];
    [by rewrite length_moving_std|].
  by exists a, s.
Qed.



(** C3, amended: for every column of closes, window and multiplier, at
    every row the moving average, the deviation and both bands have an
    entry; the upper band is the binary64 sum of the moving average and of
    the deviation times the multiplier, and the lower band is their
    binary64 difference.  A band is NaN wherever the moving average or the
    deviation is NaN. *)
Theorem bands_are_binary64_sum_and_difference
    (close : list float) (w i : nat) (m : float) :
  i < length close →
  ∃ a s u l,
    moving_average close w !! i = Some a
    ∧ moving_std close w !! i = Some s
    ∧ upper_band close w m !! i = Some u
    ∧ lower_band close w m !! i = Some l
    ∧ u = (a + s * m)%float
    ∧ l = (a - s * m)%float
    ∧ (is_nan a = true ∨ is_nan s = true →
       is_nan u = true ∧ is_nan l = true).
Proof.
  intros Hi. destruct (moving_lookup close w i Hi) as (a & s & Ha & Hs).
  exists a, s, (a + s * m)%float, (a - s * m)%float.
  split_and!; [done|done| | |done|done|].
  - by apply upper_band_lookup.
  - by apply lower_band_lookup.
  - intros [Hn|Hn]; split.
    + by apply is_nan_add_l.
    + by apply is_nan_sub_l.
    + by apply is_nan_add_r, is_nan_mul_l.
    + by apply is_nan_sub_r, is_nan_mul_l.
Qed.

End Binary64Facts.

(** ** The theorems at the sample inputs *)

Module Checks.
Import Pandas BBand BBandFacts.

Abbreviation plot := (plot_bollinger_bands Sample.parse_float Sample.Figure
                        Sample.mpf_plot Sample.data).
Abbreviation query := (BBand.query Sample.parse_float Sample.Figure
                         Sample.mpf_plot Sample.yf_download).

Lemma heap_holding df : heap (Sample.holding df) !! Sample.data = Some df.
Proof. apply lookup_singleton_eq. Qed.

Lemma wf_three_days : wf Sample.three_days.
Proof. apply (bool_decide_unpack _). vm_compute. exact I. Qed.

Lemma wf_ten_days : wf Sample.ten_days.
Proof. apply (bool_decide_unpack _). vm_compute. exact I. Qed.

Lemma wf_dirty : wf Sample.dirty.
Proof. apply (bool_decide_unpack _). vm_compute. exact I. Qed.

(** *** The statements of lines 33-42 evaluated *)

Ltac evaluate :=
  lazy -[Rplus Rmult Rminus Rdiv Rinv Ropp IZR INR sqrt Rsqr].

Example three_days_moving_average :
  (df ← augment Sample.parse_float 2 2 Sample.three_days; getitem df "MA")
  = Ok (Float64 [None; Some 11%R; Some 13%R]).
Proof. evaluate. repeat f_equal; simpl; lra. Qed.

Example three_days_window_one :
  (df ← augment Sample.parse_float 1 2 Sample.three_days; getitem df "STD")
  = Ok (Float64 [None; None; None]).
Proof. reflexivity. Qed.

Example three_days_negative_window :
  augment Sample.parse_float (-1) 2 Sample.three_days = Raise ValueError.
Proof. reflexivity. Qed.

(** The text ["12.5"] is parsed, the row with ["n/a"] goes. *)
Example dirty_cleaned :
  (df ← augment Sample.parse_float 2 2 Sample.dirty;
   close ← getitem df "Close";
   Ok (index df, close))
  = Ok ([1; 3]%Z, Float64 [Some 12.5%R; Some 14%R]).
Proof. reflexivity. Qed.

(** Ten rows, window 5, multiplier 1: the upper band at position 9 is the
    mean of the closes 6..10 plus their sample deviation, whose sum of
    squares 10 is divided by 4. *)
Example ten_days_upper_band :
  (df ← augment Sample.parse_float 5 1 Sample.ten_days;
   upper ← getitem df "Upper";
   Ok (cell upper 9))
  = Ok (Some (PyFloat (Some (8 + 1 * sqrt (10 / 4))%R))).
Proof.
  evaluate. do 5 f_equal; [simpl; lra|]. do 2 f_equal.
  unfold Rsqr. simpl. lra.
Qed.

Lemma moving_average_three_days :
  ∃ (df' : DataFrame) (close : list R) (ma : list float64),
    heap (plot 2%Z 2%R (Sample.holding Sample.three_days)).2 !! Sample.data
      = Some df'
    ∧ getitem df' "Close" = Ok (Float64 (Some <$> close))
    ∧ getitem df' "MA" = Ok (Float64 ma)
    ∧ length ma = length close
    ∧ ∀ i : nat, i < length close →
        ∃ x, ma !! i = Some x
          ∧ (is_Some x ↔ (2 - 1 ≤ Z.of_nat i)%Z)
          ∧ ((2 - 1 ≤ Z.of_nat i)%Z →
             x = Some (Spec.arithmetic_mean
                         (Spec.trailing close (Z.to_nat 2) i))).
Proof.
  apply (moving_average_defined_iff_window_full Sample.parse_float
           Sample.Figure Sample.mpf_plot (Sample.holding Sample.three_days)
           Sample.data Sample.three_days 2 2).
  - apply heap_holding.
  - apply wf_three_days.
  - reflexivity.
  - lia.
Defined.

(** Ten rows, window 5, multiplier 1. *)
Lemma rolling_std_ten_days :
  ∃ (df' : DataFrame) (close : list R) (sd upper : list float64),
    heap (plot 5%Z 1%R (Sample.holding Sample.ten_days)).2 !! Sample.data
      = Some df'
    ∧ getitem df' "Close" = Ok (Float64 (Some <$> close))
    ∧ getitem df' "STD" = Ok (Float64 sd)
    ∧ getitem df' "Upper" = Ok (Float64 upper)
    ∧ length sd = length close
    ∧ ∀ i : nat, i < length close →
        ∃ x, sd !! i = Some x
          ∧ (is_Some x ↔ (5 - 1 ≤ Z.of_nat i)%Z)
          ∧ ((5 - 1 ≤ Z.of_nat i)%Z →
             let window := Spec.trailing close (Z.to_nat 5) i in
             x = Some (Spec.sample_std window)
             ∧ upper !! i =
               Some (Some (Spec.arithmetic_mean window
                           + 1 * Spec.sample_std window)%R)).
Proof.
  apply (rolling_std_defined_iff_window_full Sample.parse_float
           Sample.Figure Sample.mpf_plot (Sample.holding Sample.ten_days)
           Sample.data Sample.ten_days 5 1).
  - apply heap_holding.
  - apply wf_ten_days.
  - reflexivity.
  - lia.
Defined.

(** With window 1 the first row of a three-day table has a full window,
    position 0 satisfies [0 ≥ 1 - 1], yet the standard deviation is absent
    there. *)
Lemma std_absent_for_window_one :
  ¬ ∃ (df' : DataFrame) (sd : list float64),
      heap (plot 1%Z 2%R (Sample.holding Sample.three_days)).2 !! Sample.data
        = Some df'
      ∧ getitem df' "STD" = Ok (Float64 sd)
      ∧ ∃ x, sd !! 0 = Some x ∧ (is_Some x ↔ (1 - 1 ≤ Z.of_nat 0)%Z).
Proof.
  intros (df' & sd & Hh & Hsd & x & Hx & Hiff).
  rewrite (plot_leaves _ _ _ _ _ Sample.three_days) in Hh;
    [|apply heap_holding|apply wf_three_days|reflexivity|lia].
  injection Hh as <-.
  destruct (augmented_columns Sample.parse_float Sample.three_days 1 2
              wf_three_days eq_refl) as (close & _ & _ & _ & Hstd & _).
  cbv zeta in Hstd. unfold getitem in Hsd. rewrite Hstd in Hsd.
  change (Z.to_nat 1) with 1 in Hsd. rewrite std_values_window_one in Hsd.
  injection Hsd as <-.
  apply lookup_replicate in Hx as [-> _].
  destruct Hiff as [_ Hiff]. destruct Hiff as [? ?]; [lia|done].
Qed.

Lemma bands_three_days :
  ∃ (df' : DataFrame) (ma sd upper lower : list float64),
    heap (plot 2%Z 2%R (Sample.holding Sample.three_days)).2 !! Sample.data
      = Some df'
    ∧ getitem df' "MA" = Ok (Float64 ma)
    ∧ getitem df' "STD" = Ok (Float64 sd)
    ∧ getitem df' "Upper" = Ok (Float64 upper)
    ∧ getitem df' "Lower" = Ok (Float64 lower)
    ∧ ∀ i : nat, i < len df' →
        ∃ a s u l,
          ma !! i = Some a ∧ sd !! i = Some s
          ∧ upper !! i = Some u ∧ lower !! i = Some l
          ∧ (is_Some u ↔ is_Some a ∧ is_Some s)
          ∧ (is_Some l ↔ is_Some a ∧ is_Some s)
          ∧ (∀ av sv, a = Some av → s = Some sv →
               u = Some (av + 2 * sv)%R ∧ l = Some (av - 2 * sv)%R)
          ∧ (∀ uv lv, u = Some uv → l = Some lv →
               ∃ sv, s = Some sv ∧ (uv - lv = 2 * 2 * sv)%R).
Proof.
  apply (bands_are_average_plus_minus_deviation Sample.parse_float
           Sample.Figure Sample.mpf_plot (Sample.holding Sample.three_days)
           Sample.data Sample.three_days 2 2).
  - apply heap_holding.
  - apply wf_three_days.
  - reflexivity.
  - lia.
Defined.

Lemma same_three_days_same_output :
  let first := plot 2%Z 2%R (Sample.holding Sample.three_days) in
  let other :=
    plot_bollinger_bands Sample.parse_float Sample.Figure Sample.mpf_plot
      7 2%Z 2%R
      {| heap := {[ 7 := Sample.three_days ]};
         ui := [st_error no_history] |} in
  let again := plot 2%Z 2%R first.2 in
  (other.1 = first.1 ∧ heap other.2 !! 7 = heap first.2 !! Sample.data)
  ∧ (again.1 = first.1 ∧ heap again.2 = heap first.2).
Proof.
  apply (same_input_same_augmented_output Sample.parse_float Sample.Figure
           Sample.mpf_plot (Sample.holding Sample.three_days)
           {| heap := {[ 7 := Sample.three_days ]};
              ui := [st_error no_history] |}
           Sample.data 7 Sample.three_days 2 2).
  - apply heap_holding.
  - apply lookup_singleton_eq.
  - apply wf_three_days.
Defined.

Lemma missing_volume_is_reported :
  plot 20%Z 2%R (Sample.holding Sample.no_volume) =
  (Ok None,
   mkState (heap (Sample.holding Sample.no_volume))
     (ui (Sample.holding Sample.no_volume)
      ++ [st_error (unexpected_columns ["Open"; "High"; "Low"; "Close"])])).
Proof.
  apply (missing_column_is_reported Sample.parse_float Sample.Figure
           Sample.mpf_plot (Sample.holding Sample.no_volume) Sample.data
           Sample.no_volume 20 2 "Volume").
  - apply heap_holding.
  - apply (bool_decide_unpack _). vm_compute. exact I.
  - apply (bool_decide_unpack _). vm_compute. exact I.
Defined.

Lemma dirty_row_is_dropped :
  let kept := Spec.kept_rows Sample.parse_float Sample.dirty in
  ∃ df' : DataFrame,
    heap (plot 2%Z 2%R (Sample.holding Sample.dirty)).2 !! Sample.data
      = Some df'
    ∧ len df' = length kept
    ∧ (∀ i, i ∈ kept ↔
         i < len Sample.dirty
         ∧ Spec.complete_row Sample.parse_float Sample.dirty i = true)
    ∧ (∀ j i, kept !! j = Some i →
         index df' !! j = index Sample.dirty !! i)
    ∧ (∀ k, k ∈ cols →
         ∃ xs : list R, getitem df' k = Ok (Float64 (Some <$> xs))
                        ∧ length xs = len df')
    ∧ (∀ k c, lookup_item k (items Sample.dirty) = Some c →
         k ∉ Spec.indicators →
         ∃ c', getitem df' k = Ok c'
           ∧ size c' = length kept
           ∧ ∀ j i, kept !! j = Some i →
               cell c' j
               = cell (if decide (k ∈ cols)
                       then to_numeric Sample.parse_float c else c) i).
Proof.
  apply (incomplete_rows_are_dropped_whole Sample.parse_float Sample.Figure
           Sample.mpf_plot (Sample.holding Sample.dirty) Sample.data
           Sample.dirty 2 2).
  - apply heap_holding.
  - apply wf_dirty.
  - reflexivity.
Defined.

(** The second of the three days of [Sample.dirty] is the incomplete one:
    the days at positions 0 and 2 are left. *)
Example dirty_kept_rows :
  Spec.kept_rows Sample.parse_float Sample.dirty = [0; 2].
Proof. vm_compute. reflexivity. Qed.



Lemma unknown_ticker_is_reported :
  query "NOPE" US 1%Z 9%Z 20%Z 2%R Sample.fresh_session =
  (Ok tt,
   mkState (<[fresh (dom (heap Sample.fresh_session)) := flattened Sample.nothing]>
              (heap Sample.fresh_session))
     (ui Sample.fresh_session ++ [st_error no_history])).
Proof.
  apply (empty_download_is_reported Sample.parse_float Sample.Figure
           Sample.mpf_plot Sample.yf_download Sample.fresh_session
           "NOPE" US 1%Z 9%Z 20 2).
  reflexivity.
Defined.

Lemma short_three_days :
  ∃ df' : DataFrame,
    heap (plot 5%Z 2%R (Sample.holding Sample.three_days)).2 !! Sample.data
      = Some df'
    ∧ ∀ k, k ∈ Spec.indicators →
        getitem df' k = Ok (Float64 (replicate (len df') None)).
Proof.
  apply (short_series_has_no_indicator Sample.parse_float Sample.Figure
           Sample.mpf_plot (Sample.holding Sample.three_days) Sample.data
           Sample.three_days 5 2).
  - apply heap_holding.
  - apply wf_three_days.
  - reflexivity.
  - vm_compute. reflexivity.
Defined.

(** A download with a day to drop. *)
Lemma summary_after_dropped_row :
  let df := flattened (Sample.yf_dirty (with_suffix US "DIRT") 1%Z 9%Z) in
  let F := augmented Sample.parse_float 2 2 df in
  let kept := Spec.kept_rows Sample.parse_float df in
  let fig := [column_of F "MA"; column_of F "Upper"; column_of F "Lower"] in
  let r := BBand.query Sample.parse_float Sample.Figure Sample.mpf_plot
             Sample.yf_dirty "DIRT" US 1%Z 9%Z 2%Z 2%R Sample.fresh_session in
  ∃ (data : loc) (t : Timestamp) (close upper ma lower : list float64)
    (xc xu xa xl : float64),
    r.1 = Ok tt
    ∧ heap Sample.fresh_session !! data = None
    ∧ heap r.2 !! data = Some F
    ∧ (∀ k, k ∈ Spec.indicators → k ∈ columns F)
    ∧ len F = length kept
    ∧ (∀ i, i ∈ kept ↔
         i < len df ∧ Spec.complete_row Sample.parse_float df i = true)
    ∧ (∀ j i, kept !! j = Some i → index F !! j = index df !! i)
    ∧ (∀ k c, lookup_item k (items df) = Some c → k ∉ Spec.indicators →
         ∃ c', getitem F k = Ok c'
           ∧ size c' = length kept
           ∧ ∀ j i, kept !! j = Some i →
               cell c' j
               = cell (if decide (k ∈ cols)
                       then to_numeric Sample.parse_float c else c) i)
    ∧ last (index F) = Some t
    ∧ getitem F "Close" = Ok (Float64 close) ∧ last close = Some xc
    ∧ getitem F "Upper" = Ok (Float64 upper) ∧ last upper = Some xu
    ∧ getitem F "MA" = Ok (Float64 ma) ∧ last ma = Some xa
    ∧ getitem F "Lower" = Ok (Float64 lower) ∧ last lower = Some xl
    ∧ ui r.2 = ui Sample.fresh_session
               ++ [st_write_len (len df); st_write_frame (tail 5 df);
                   st_pyplot fig; st_subheader t;
                   st_write_2f "Close" xc; st_write_2f "Upper" xu;
                   st_write_2f "MA" xa; st_write_2f "Lower" xl].
Proof.
  intros df F kept fig.
  apply (summary_reads_the_frame_passed_in Sample.parse_float Sample.Figure
           Sample.mpf_plot Sample.yf_dirty Sample.fresh_session
           "DIRT" US 1%Z 9%Z 2 2 fig).
  - reflexivity.
  - apply (bool_decide_unpack _). vm_compute. exact I.
  - reflexivity.
  - lia.
  - reflexivity.
  - apply Nat.ltb_lt. lazy. reflexivity.
Defined.

(** Of the three downloaded days the table keeps the first and the third. *)
Example dirty_download_rows :
  let df := flattened (Sample.yf_dirty "DIRT" 1%Z 9%Z) in
  index df = [1; 2; 3]%Z
  ∧ index (augmented Sample.parse_float 2 2 df) = [1; 3]%Z.
Proof. split; vm_compute; reflexivity. Qed.

End Checks.

(** ** The binary64 computation on sample closes *)

Module Binary64Checks.
Import PrimFloat.
Import Binary64 Binary64Facts.
#[local] Set Warnings "-inexact-float".

(** *** Lines 37-42 evaluated *)

Example three_days_binary64 :
  moving_average Closes.three_days 2 = [nan; 11; 13]%float
  ∧ moving_std Closes.three_days 2
    = [nan; 1.4142135623730951; 1.4142135623730951]%float
  ∧ upper_band Closes.three_days 2 2
    = [nan; 13.82842712474619; 15.82842712474619]%float
  ∧ lower_band Closes.three_days 2 2
    = [nan; 8.1715728752538102; 10.17157287525381]%float.
Proof. split_and!; vm_compute; reflexivity. Qed.

(** Ten rows, window 5, multiplier 1: the last upper band is the mean 8 of
    the last five closes plus their deviation, the root of [10 / 4]. *)
Example ten_days_binary64 :
  moving_average Closes.ten_days 5 !! 9 = Some 8%float
  ∧ moving_std Closes.ten_days 5 !! 9 = Some (sqrt (10 / 4))%float
  ∧ upper_band Closes.ten_days 5 1 !! 9 = Some 9.5811388300841891%float.
Proof. split_and!; vm_compute; reflexivity. Qed.

Example flat_days_binary64 :
  moving_average Closes.flat_days 3 = [nan; nan; 100; 100]%float
  ∧ moving_std Closes.flat_days 3 = [nan; nan; 0; 0]%float.
Proof. split_and!; vm_compute; reflexivity. Qed.

(** *** The statements at sample closes *)



Lemma bands_of_three_days :
  ∃ a s u l,
    moving_average Closes.three_days 2 !! 1 = Some a
    ∧ moving_std Closes.three_days 2 !! 1 = Some s
    ∧ upper_band Closes.three_days 2 2 !! 1 = Some u
    ∧ lower_band Closes.three_days 2 2 !! 1 = Some l
    ∧ u = (a + s * 2)%float
    ∧ l = (a - s * 2)%float
    ∧ (is_nan a = true ∨ is_nan s = true →
       is_nan u = true ∧ is_nan l = true).
Proof.
  apply (bands_are_binary64_sum_and_difference Closes.three_days 2 1 2).
  simpl. lia.
Defined.

(** *** Where the wording of the specification fails *)



(** Closes 10, 12, 14, window 2, multiplier 2, position 1: both bands are
    numbers and their difference is not twice the multiplier times the
    deviation.  With the three finite closes above the moving average and
    the deviation at position 1 are not NaN and the lower band is. *)
Lemma band_difference_is_rounded :
  (∃ u l s,
     upper_band Closes.three_days 2 2 !! 1 = Some u
     ∧ lower_band Closes.three_days 2 2 !! 1 = Some l
     ∧ moving_std Closes.three_days 2 !! 1 = Some s
     ∧ is_finite u = true ∧ is_finite l = true
     ∧ (u - l =? 2 * 2 * s)%float = false)
  ∧ (∃ a s l,
       moving_average Closes.huge 2 !! 1 = Some a
       ∧ moving_std Closes.huge 2 !! 1 = Some s
       ∧ lower_band Closes.huge 2 2 !! 1 = Some l
       ∧ is_nan a = false ∧ is_nan s = false ∧ is_nan l = true).
Proof.
  split.
  - eexists _, _, _. split_and!; vm_compute; reflexivity.
  - eexists _, _, _. split_and!; vm_compute; reflexivity.
Qed.

End Binary64Checks.

(** ** Further facts about the script *)

Module Extras.
Import Pandas BBand PandasFacts BBandFacts.

(** *** The market suffix (lines 94-98) *)

Lemma substring_skip s t m :
  String.substring (String.length s) m (s +:+ t) = String.substring 0 m t.
Proof. induction s as [|c s IH]; simpl; [done|apply IH]. Qed.

Lemma substring_whole t : String.substring 0 (String.length t) t = t.
Proof. induction t as [|c t IH]; simpl; [done|by rewrite IH]. Qed.

Lemma length_app_string s t :
  String.length (s +:+ t) = String.length s + String.length t.
Proof. induction s as [|c s IH]; simpl; [done|by rewrite IH]. Qed.

Lemma substring_split s k :
  k ≤ String.length s →
  s = (String.substring 0 k s
       +:+ String.substring k (String.length s - k) s)%string.
Proof.
  revert k. induction s as [|c s IH]; intros k Hk.
  - destruct k; [done|simpl in Hk; lia].
  - destruct k as [|k].
    + change (String c s = String c (String.substring 0 (String.length s) s)).
      by rewrite substring_whole.
    + simpl in *.
      change (String c s =
              String c (String.substring 0 k s
                        +:+ String.substring k (String.length s - k) s)).
      f_equal. apply IH. lia.
Qed.

(** [endswith] is Python's: the text is some prefix followed by the
    suffix. *)
Lemma endswith_spec s suffix :
  endswith s suffix = true ↔ ∃ p, s = (p +:+ suffix)%string.
Proof.
  unfold endswith. split.
  - intros [Hlen Heq]%andb_prop. apply Nat.leb_le in Hlen.
    apply String.eqb_eq in Heq.
    exists (String.substring 0 (String.length s - String.length suffix) s).
    etrans;
      [apply (substring_split s (String.length s - String.length suffix));
       lia|].
    f_equal.
    replace (String.length s - (String.length s - String.length suffix))
      with (String.length suffix) by lia.
    done.
  - intros [p ->]. rewrite length_app_string.
    rewrite (proj2 (Nat.leb_le _ _)) by lia. simpl.
    replace (String.length p + String.length suffix - String.length suffix)
      with (String.length p) by lia.
    rewrite substring_skip, substring_whole. apply String.eqb_refl.
Qed.

(** X1: for the Taiwan market the ticker that reaches the download always
    ends with [.TW]; a ticker that has the suffix already, and any ticker
    of the US market, is passed on unchanged; adding the suffix twice is
    adding it once. *)
Theorem with_suffix_ends_with_TW market ticker_input :
  endswith (with_suffix TW ticker_input) ".TW" = true
  ∧ (endswith ticker_input ".TW" = true →
     with_suffix market ticker_input = ticker_input)
  ∧ with_suffix US ticker_input = ticker_input
  ∧ with_suffix market (with_suffix market ticker_input)
    = with_suffix market ticker_input.
Proof.
  assert (Hends : endswith (with_suffix TW ticker_input) ".TW" = true).
  { unfold with_suffix.
    destruct (endswith ticker_input ".TW") eqn:E; simpl; [done|].
    apply endswith_spec. by eexists. }
  assert (Hkeep : ∀ t, endswith t ".TW" = true → with_suffix market t = t).
  { intros t Ht. destruct market; [done|]. unfold with_suffix.
    by rewrite Ht. }
  split_and!; [done|apply Hkeep|done|].
  destruct market; [done|]. by apply Hkeep.
Qed.

Section Engine.
Variable parse_float : string → option R.
Variable Figure : Type.
Variable mpf_plot : DataFrame → list Column → result Figure.
Variable yf_download : string → Timestamp → Timestamp → Download.

Abbreviation state := (state Figure).
Abbreviation M := (M Figure).
Abbreviation plot :=
  (plot_bollinger_bands parse_float Figure mpf_plot).

Lemma columns_cleaned df :
  issubset cols (columns df) = true →
  columns (cleaned parse_float df) = columns df.
Proof.
  intros Hsub. unfold cleaned, select_rows, columns at 1. cbn [items].
  rewrite keys_map_values. by apply columns_coerced.
Qed.

(** X3: with the required columns present and a negative window the call
    raises [ValueError] and shows nothing, but only after it has coerced
    and cleaned the caller's frame: the incomplete rows are gone, and no
    column has been added. *)
Theorem negative_window_raises_after_cleaning (σ : state) data df w m :
  heap σ !! data = Some df → wf df →
  issubset cols (columns df) = true → (w < 0)%Z →
  let r := plot data w m σ in
  r.1 = Raise ValueError
  ∧ ui r.2 = ui σ
  ∧ ∃ df' : DataFrame,
      heap r.2 !! data = Some df'
      ∧ columns df' = columns df
      ∧ index df' = select (Spec.complete_rows parse_float df) (index df)
      ∧ ∀ k, k ∈ cols →
          ∃ xs : list R, getitem df' k = Ok (Float64 (Some <$> xs)).
Proof.
  intros Hd Hwf Hsub Hw r. unfold r.
  rewrite (plot_negative_window parse_float Figure mpf_plot σ data df w m)
    by done.
  split_and!; [done|done|].
  exists (cleaned parse_float df). split_and!.
  - apply heap_with_frame.
  - by apply columns_cleaned.
  - by apply index_cleaned.
  - intros k Hk.
    destruct (lookup_cleaned_required parse_float df k Hwf Hsub Hk)
      as (xs & Hxs & _).
    exists xs. by apply getitem_lookup.
Qed.

(** X4: whatever the window and whether or not the column check passes,
    the call leaves a well-formed frame behind the reference it was given,
    with at most as many rows as before. *)
Theorem call_keeps_the_frame_well_formed (σ : state) data df w m :
  heap σ !! data = Some df → wf df →
  ∃ df' : DataFrame,
    heap (plot data w m σ).2 !! data = Some df' ∧ wf df' ∧ len df' ≤ len df.
Proof.
  intros Hd Hwf. destruct (issubset cols (columns df)) eqn:Hsub.
  - destruct (decide (0 ≤ w)%Z) as [Hw|Hw].
    + exists (augmented parse_float w m df). split_and!.
      * by apply plot_leaves.
      * by apply wf_augmented.
      * apply (len_cleaned_le parse_float).
    + exists (cleaned parse_float df).
      rewrite (plot_negative_window parse_float Figure mpf_plot σ data df w m)
        by (done || lia).
      split_and!; [apply heap_with_frame|by apply wf_cleaned
                  |apply (len_cleaned_le parse_float)].
  - exists df.
    rewrite (plot_unexpected_columns parse_float Figure mpf_plot σ data df w m)
      by done.
    by split_and!.
Qed.

Lemma columns_setitem_new df k c :
  k ∉ columns df → columns (setitem df k c) = columns df ++ [k].
Proof.
  intros Hk. unfold columns, setitem. cbn [items]. rewrite keys_assign.
  by rewrite decide_False.
Qed.

(** X5: a table that has none of the labels [MA], [STD], [Upper] and
    [Lower] gets them as its last four columns, in that order; the columns
    it had keep their order. *)
Theorem indicators_are_appended_in_order (σ : state) data df w m :
  heap σ !! data = Some df → wf df →
  issubset cols (columns df) = true → (0 ≤ w)%Z →
  (∀ k, k ∈ Spec.indicators → k ∉ columns df) →
  ∃ df' : DataFrame,
    heap (plot data w m σ).2 !! data = Some df'
    ∧ columns df' = columns df ++ ["MA"; "STD"; "Upper"; "Lower"].
Proof.
  intros Hd Hwf Hsub Hw Hnew.
  exists (augmented parse_float w m df). split; [by apply plot_leaves|].
  unfold augmented, banded. cbv zeta.
  assert (∀ k, k ∈ Spec.indicators → k ∉ columns (cleaned parse_float df))
    as Hnew' by (intros k Hk; rewrite columns_cleaned by done; by apply Hnew).
  unfold Spec.indicators in Hnew'.
  rewrite (columns_setitem_new _ "Lower"), (columns_setitem_new _ "Upper"),
    (columns_setitem_new _ "STD"), (columns_setitem_new _ "MA").
  - rewrite columns_cleaned by done. by rewrite <- !app_assoc.
  - apply Hnew'. set_solver.
  - rewrite (columns_setitem_new _ "MA") by (apply Hnew'; set_solver).
    rewrite elem_of_app, list_elem_of_singleton.
    intros [H|H]; [|done]. revert H. apply Hnew'. set_solver.
  - rewrite (columns_setitem_new _ "STD"), (columns_setitem_new _ "MA").
    + rewrite !elem_of_app, !list_elem_of_singleton.
      intros [[H|H]|H]; [|done|done]. revert H. apply Hnew'. set_solver.
    + apply Hnew'. set_solver.
    + rewrite (columns_setitem_new _ "MA") by (apply Hnew'; set_solver).
      rewrite elem_of_app, list_elem_of_singleton.
      intros [H|H]; [|done]. revert H. apply Hnew'. set_solver.
  - rewrite (columns_setitem_new _ "Upper"), (columns_setitem_new _ "STD"),
      (columns_setitem_new _ "MA").
    + rewrite !elem_of_app, !list_elem_of_singleton.
      intros [[[H|H]|H]|H]; [|done|done|done].
      revert H. apply Hnew'. set_solver.
    + apply Hnew'. set_solver.
    + rewrite (columns_setitem_new _ "MA") by (apply Hnew'; set_solver).
      rewrite elem_of_app, list_elem_of_singleton.
      intros [H|H]; [|done]. revert H. apply Hnew'. set_solver.
    + rewrite (columns_setitem_new _ "STD"), (columns_setitem_new _ "MA").
      * rewrite !elem_of_app, !list_elem_of_singleton.
        intros [[H|H]|H]; [|done|done]. revert H. apply Hnew'. set_solver.
      * apply Hnew'. set_solver.
      * rewrite (columns_setitem_new _ "MA") by (apply Hnew'; set_solver).
        rewrite elem_of_app, list_elem_of_singleton.
        intros [H|H]; [|done]. revert H. apply Hnew'. set_solver.
Qed.

(** X6: when the five required columns are numeric already and have no
    missing value, the call drops no row and changes no column other than
    the four indicators, whatever the window. *)
Theorem numeric_table_keeps_rows_and_columns (σ : state) data df w m :
  heap σ !! data = Some df → wf df →
  (∀ k, k ∈ cols →
     ∃ l : list R, lookup_item k (items df) = Some (Float64 (Some <$> l))) →
  ∃ df' : DataFrame,
    heap (plot data w m σ).2 !! data = Some df'
    ∧ index df' = index df
    ∧ ∀ k, k ∉ Spec.indicators →
        lookup_item k (items df') = lookup_item k (items df).
Proof.
  intros Hd Hwf Hnum.
  assert (Hsub : issubset cols (columns df) = true).
  { apply issubset_spec. intros k Hk. apply lookup_is_Some.
    destruct (Hnum k Hk) as [l Hl]. by eexists. }
  destruct (plot_leaves_cleaned_rows parse_float Figure mpf_plot σ data df w m
              Hd Hwf Hsub) as (df' & Hh & Hidx & Hcols).
  exists df'. rewrite (cleaned_fixed parse_float df Hwf Hnum) in *.
  by split_and!.
Qed.

(** *** The bands around the average (lines 37-42) *)

Lemma std_values_nonneg w xs (i : nat) (s : R) :
  std_values w xs !! i = Some (Some s) → (0 <= s)%R.
Proof.
  unfold std_values. rewrite list_lookup_fmap.
  destruct (seq 0 (length xs) !! i) as [j|]; [|done]. simpl.
  destruct (calc_var _ _ _) as [v|]; [|done]. simpl.
  intros [= <-]. apply sqrt_pos.
Qed.

(** X7: with a multiplier that is not negative, wherever the moving
    average and both bands are defined the lower band is at most the
    moving average and the moving average is at most the upper band. *)
Theorem bands_enclose_the_average (σ : state) data df w m :
  heap σ !! data = Some df → wf df →
  issubset cols (columns df) = true → (0 ≤ w)%Z → (0 <= m)%R →
  ∃ (df' : DataFrame) (ma upper lower : list float64),
    heap (plot data w m σ).2 !! data = Some df'
    ∧ getitem df' "MA" = Ok (Float64 ma)
    ∧ getitem df' "Upper" = Ok (Float64 upper)
    ∧ getitem df' "Lower" = Ok (Float64 lower)
    ∧ ∀ (i : nat) (a u l : R),
        ma !! i = Some (Some a) → upper !! i = Some (Some u) →
        lower !! i = Some (Some l) → (l <= a <= u)%R.
Proof.
  intros Hd Hwf Hsub Hw Hm.
  destruct (augmented_columns parse_float df w m Hwf Hsub)
    as (close & _ & _ & Hma & _ & Hup & Hlo).
  cbv zeta in *.
  set (ma := mean_values (Z.to_nat w) (Some <$> close)) in *.
  set (sd := std_values (Z.to_nat w) (Some <$> close)) in *.
  exists (augmented parse_float w m df), ma,
    (zip_with fadd ma (fmul m <$> sd)), (zip_with fsub ma (fmul m <$> sd)).
  split_and!; try by apply getitem_lookup.
  - by apply plot_leaves.
  - intros i a u l Ha Hu Hl.
    rewrite lookup_zip_with, list_lookup_fmap, Ha in Hu, Hl. simpl in *.
    destruct (sd !! i) as [[s|]|] eqn:Hs; simpl in *; try done.
    injection Hu as <-. injection Hl as <-.
    pose proof (std_values_nonneg _ _ _ _ Hs) as Hpos.
    assert (0 <= m * s)%R by by apply Rmult_le_pos.
    lra.
Qed.

Lemma Rsum_constant (l : list R) c :
  Forall (eq c) l → Rsum l = (INR (length l) * c)%R.
Proof.
  induction 1 as [|x l <- _ IH].
  - simpl. lra.
  - change (Rsum (c :: l)) with (c + Rsum l)%R. rewrite IH.
    change (length (c :: l)) with (S (length l)). rewrite S_INR. lra.
Qed.

Lemma arithmetic_mean_constant (l : list R) c :
  0 < length l → Forall (eq c) l → Spec.arithmetic_mean l = c.
Proof.
  intros Hl Hc. unfold Spec.arithmetic_mean. rewrite (Rsum_constant l c Hc).
  field. apply not_0_INR. lia.
Qed.

Lemma sample_std_constant (l : list R) c :
  0 < length l → Forall (eq c) l → Spec.sample_std l = 0%R.
Proof.
  intros Hl Hc. unfold Spec.sample_std.
  rewrite (arithmetic_mean_constant l c Hl Hc).
  assert (Rsum ((fun x => Rsqr (x - c)) <$> l) = 0%R) as ->.
  { clear Hl. induction Hc as [|x l <- _ IH]; [done|].
    csimpl. change (Rsum (?a :: ?b)) with (a + Rsum b)%R. rewrite IH.
    unfold Rsqr. lra. }
  unfold Rdiv. rewrite Rmult_0_l. apply sqrt_0.
Qed.

(** X8: over a full window of equal closes the moving average is that
    close, the standard deviation is 0 and both bands coincide with the
    moving average (window at least 2). *)
Theorem flat_window_has_flat_bands (σ : state) data df w m :
  heap σ !! data = Some df → wf df →
  issubset cols (columns df) = true → (2 ≤ w)%Z →
  ∃ (df' : DataFrame) (close : list R) (ma sd upper lower : list float64),
    heap (plot data w m σ).2 !! data = Some df'
    ∧ getitem df' "Close" = Ok (Float64 (Some <$> close))
    ∧ getitem df' "MA" = Ok (Float64 ma)
    ∧ getitem df' "STD" = Ok (Float64 sd)
    ∧ getitem df' "Upper" = Ok (Float64 upper)
    ∧ getitem df' "Lower" = Ok (Float64 lower)
    ∧ ∀ (i : nat) (c : R),
        i < length close → Z.to_nat w ≤ i + 1 →
        (∀ j, i + 1 - Z.to_nat w ≤ j → j ≤ i → close !! j = Some c) →
        ma !! i = Some (Some c) ∧ sd !! i = Some (Some 0%R)
        ∧ upper !! i = Some (Some c) ∧ lower !! i = Some (Some c).
Proof.
  intros Hd Hwf Hsub Hw.
  destruct (augmented_columns parse_float df w m Hwf Hsub)
    as (close & Hc & _ & Hma & Hsd & Hup & Hlo).
  cbv zeta in *.
  exists (augmented parse_float w m df), close,
    (mean_values (Z.to_nat w) (Some <$> close)),
    (std_values (Z.to_nat w) (Some <$> close)),
    (zip_with fadd (mean_values (Z.to_nat w) (Some <$> close))
       (fmul m <$> std_values (Z.to_nat w) (Some <$> close))),
    (zip_with fsub (mean_values (Z.to_nat w) (Some <$> close))
       (fmul m <$> std_values (Z.to_nat w) (Some <$> close))).
  split_and!; try by apply getitem_lookup.
  - apply plot_leaves; [done..|lia].
  - intros i c Hi Hfull Hflat.
    assert (Hall : Forall (eq c) (Spec.trailing close (Z.to_nat w) i)).
    { unfold Spec.trailing. apply Forall_fmap, Forall_forall.
      intros j Hj%elem_of_seq. simpl. symmetry.
      apply nth_lookup_Some with (d := 0%R), Hflat; lia. }
    assert (Hlen : 0 < length (Spec.trailing close (Z.to_nat w) i))
      by (rewrite length_trailing; lia).
    rewrite !lookup_zip_with, !list_lookup_fmap.
    rewrite mean_values_lookup, std_values_lookup by done.
    rewrite (proj2 (Nat.leb_le 1 (Z.to_nat w))) by lia.
    rewrite (proj2 (Nat.leb_le 2 (Z.to_nat w))) by lia.
    rewrite (proj2 (Nat.leb_le (Z.to_nat w) (i + 1))) by done.
    rewrite (arithmetic_mean_constant _ c Hlen Hall).
    rewrite (sample_std_constant _ c Hlen Hall). simpl.
    split_and!; try done; do 2 f_equal; lra.
Qed.

(** *** The query button (lines 112-135) *)

Abbreviation query := (BBand.query parse_float Figure mpf_plot yf_download).

(** The state in which the plot function is called: the downloaded table
    is a new object, the row count and the preview have been shown. *)
Lemma query_reaches_plot (σ : state) ticker_input market start_date end_date
    w m (k : option Figure → M unit) :
  let df := flattened (yf_download (with_suffix market ticker_input)
                         start_date end_date) in
  let data := fresh (dom (heap σ)) in
  empty df = false →
  (data ← download_stock_data Figure yf_download
            (with_suffix market ticker_input) start_date end_date;
   df ← deref Figure data;
   if empty df then emit Figure (st_error no_history)
   else emit Figure (st_write_len (len df));;
        emit Figure (st_write_frame (tail 5 df));;
        fig ← plot data w m; k fig) σ
  = (fig ← plot data w m; k fig)
      (mkState (<[data := df]> (heap σ))
         (ui σ ++ [st_write_len (len df); st_write_frame (tail 5 df)])).
Proof.
  intros df data Hempty.
  erewrite bind_run; [|apply download_run].
  erewrite bind_run; [|apply deref_ok, heap_with_frame].
  fold df data. rewrite Hempty.
  erewrite bind_run; [|apply emit_run].
  erewrite bind_run; [|apply emit_run].
  cbn [heap ui with_frame]. by rewrite <- app_assoc.
Qed.

(** X9: when the downloaded table is not empty but lacks a required column,
    the query ends normally after showing, in this order, the row count,
    the preview, the error that carries the actual columns and the error
    that no chart can be drawn; no chart and no summary is shown and the
    downloaded table is left as it was. *)
Theorem query_reports_unexpected_columns (σ : state) ticker_input market
    start_date end_date w m :
  let df := flattened (yf_download (with_suffix market ticker_input)
                         start_date end_date) in
  empty df = false → issubset cols (columns df) = false →
  query ticker_input market start_date end_date w m σ =
  (Ok tt,
   mkState (<[fresh (dom (heap σ)) := df]> (heap σ))
     (ui σ ++ [st_write_len (len df); st_write_frame (tail 5 df);
               st_error (unexpected_columns (columns df));
               st_error cannot_plot])).
Proof.
  intros df Hempty Hsub. unfold BBand.query.
  etrans;
    [by apply (query_reaches_plot σ ticker_input market start_date end_date
                 w m)|].
  cbv zeta. fold df.
  erewrite bind_run;
    [|apply (plot_unexpected_columns parse_float Figure mpf_plot _ _ df);
      [apply lookup_insert_eq|done]].
  cbv beta iota. rewrite emit_run. cbn [heap ui]. by rewrite <- !app_assoc.
Qed.

(** X10: when [mpf.plot] raises, the query raises the same exception; the
    row count and the preview have been shown, no chart and no summary
    follows, and the downloaded table has been augmented already. *)
Theorem query_propagates_plot_error (σ : state) ticker_input market
    start_date end_date w m e :
  let df := flattened (yf_download (with_suffix market ticker_input)
                         start_date end_date) in
  let F := augmented parse_float w m df in
  empty df = false → wf df → issubset cols (columns df) = true →
  (0 ≤ w)%Z → plotted Figure mpf_plot F = Raise e →
  query ticker_input market start_date end_date w m σ =
  (Raise e,
   mkState (<[fresh (dom (heap σ)) := F]> (heap σ))
     (ui σ ++ [st_write_len (len df); st_write_frame (tail 5 df)])).
Proof.
  intros df F Hempty Hwf Hsub Hw Hplot. unfold BBand.query.
  etrans;
    [by apply (query_reaches_plot σ ticker_input market start_date end_date
                 w m)|].
  cbv zeta. fold df.
  erewrite bind_raise;
    [|rewrite (plot_ok parse_float Figure mpf_plot _ _ df w m);
      [fold F; by rewrite Hplot|apply lookup_insert_eq|done..]].
  unfold with_frame. cbn [heap ui]. by rewrite insert_insert_eq.
Qed.

(** *** What a query can touch *)

Lemma touches_keeps_others {A} data (c : M A) :
  touches_only Figure data c → keeps_others Figure data c.
Proof. intros H σ l Hl. by apply (H σ). Qed.

Lemma keeps_others_emit data e : keeps_others Figure data (emit Figure e).
Proof. by intros σ l Hl. Qed.

Lemma keeps_others_bind {A B} data (c : M A) (f : A → M B) :
  keeps_others Figure data c → (∀ a, keeps_others Figure data (f a)) →
  keeps_others Figure data (c ≫= f).
Proof.
  intros Hc Hf σ l Hl. unfold mbind, M_bind.
  specialize (Hc σ l Hl). destruct (c σ) as [[a|e] σ'] eqn:E; simpl in *.
  - by rewrite (Hf a σ' l Hl).
  - done.
Qed.

Ltac keeps_others_step :=
  first
    [ apply keeps_others_emit
    | apply touches_keeps_others, touches_only_update
    | apply touches_keeps_others, touches_only_deref
    | apply touches_keeps_others, touches_only_lift
    | apply touches_keeps_others, touches_only_ret ].

Lemma plot_keeps_others data w m : keeps_others Figure data (plot data w m).
Proof.
  unfold plot_bollinger_bands.
  apply keeps_others_bind; [keeps_others_step|]. intros df.
  destruct (negb (issubset cols (columns df))).
  - apply keeps_others_bind; [keeps_others_step|]. intros _.
    keeps_others_step.
  - repeat (apply keeps_others_bind; [keeps_others_step|intros ?]).
    keeps_others_step.
Qed.

Lemma write_2f_keeps_others data row k :
  keeps_others Figure data (write_2f Figure row k).
Proof.
  unfold write_2f.
  repeat (apply keeps_others_bind; [keeps_others_step|intros ?]).
  keeps_others_step.
Qed.

(** X12: a query changes no table that was in the heap before it started,
    whatever the inputs and however it ends: it works on the object it has
    downloaded and on nothing else. *)
Theorem query_leaves_earlier_tables_alone (σ : state) ticker_input market
    start_date end_date w m l :
  is_Some (heap σ !! l) →
  heap (query ticker_input market start_date end_date w m σ).2 !! l
  = heap σ !! l.
Proof.
  intros Hl. unfold BBand.query.
  set (data := fresh (dom (heap σ))).
  assert (l ≠ data) as Hne.
  { intros Heq. rewrite Heq in Hl. unfold data in Hl.
    rewrite fresh_not_allocated in Hl. by destruct Hl. }
  unfold mbind at 1, M_bind at 1. rewrite download_run. fold data.
  match goal with
  | |- heap (?c ?s).2 !! l = _ =>
      assert (keeps_others Figure data c) as Hk
  end.
  { apply keeps_others_bind; [keeps_others_step|]. intros df.
    destruct (empty df); [keeps_others_step|].
    apply keeps_others_bind; [keeps_others_step|]. intros _.
    apply keeps_others_bind; [keeps_others_step|]. intros _.
    apply keeps_others_bind; [apply plot_keeps_others|]. intros [fig|].
    - apply keeps_others_bind; [keeps_others_step|]. intros _.
      apply keeps_others_bind; [keeps_others_step|]. intros df'.
      apply keeps_others_bind; [keeps_others_step|]. intros row.
      apply keeps_others_bind; [keeps_others_step|]. intros _.
      repeat (apply keeps_others_bind; [apply write_2f_keeps_others|intros _]).
      apply write_2f_keeps_others.
    - keeps_others_step. }
  rewrite (Hk _ l Hne). unfold with_frame. cbn [heap].
  by rewrite lookup_insert_ne.
Qed.

End Engine.
End Extras.

(** ** The further facts at the sample inputs *)

Module ExtraChecks.
Import Pandas BBand BBandFacts Extras.

Abbreviation plot := (plot_bollinger_bands Sample.parse_float Sample.Figure
                        Sample.mpf_plot Sample.data).
Abbreviation query := (BBand.query Sample.parse_float Sample.Figure
                         Sample.mpf_plot Sample.yf_download).

Lemma wf_flat_days : wf Sample.flat_days.
Proof. apply (bool_decide_unpack _). vm_compute. exact I. Qed.

Lemma three_days_has_no_indicator k :
  k ∈ Spec.indicators → k ∉ columns Sample.three_days.
Proof.
  unfold Spec.indicators, columns. cbn.
  rewrite !elem_of_cons, !elem_of_nil. intros H1 H2.
  destruct_or!; subst; done.
Qed.

Lemma three_days_is_numeric k :
  k ∈ cols →
  ∃ l : list R,
    lookup_item k (items Sample.three_days) = Some (Float64 (Some <$> l)).
Proof.
  unfold cols. rewrite !elem_of_cons, elem_of_nil. intros H.
  destruct_or!; subst; try done; by eexists.
Qed.

Lemma negative_window_three_days :
  let r := plot (-1)%Z 2%R (Sample.holding Sample.three_days) in
  r.1 = Raise ValueError
  ∧ ui r.2 = ui (Sample.holding Sample.three_days)
  ∧ ∃ df' : DataFrame,
      heap r.2 !! Sample.data = Some df'
      ∧ columns df' = columns Sample.three_days
      ∧ index df' = select (Spec.complete_rows Sample.parse_float
                              Sample.three_days) (index Sample.three_days)
      ∧ ∀ k, k ∈ cols →
          ∃ xs : list R, getitem df' k = Ok (Float64 (Some <$> xs)).
Proof.
  apply (negative_window_raises_after_cleaning Sample.parse_float
           Sample.Figure Sample.mpf_plot (Sample.holding Sample.three_days)
           Sample.data Sample.three_days (-1) 2).
  - apply Checks.heap_holding.
  - apply Checks.wf_three_days.
  - reflexivity.
  - lia.
Defined.

Lemma dirty_stays_well_formed :
  ∃ df' : DataFrame,
    heap (plot 2%Z 2%R (Sample.holding Sample.dirty)).2 !! Sample.data
      = Some df'
    ∧ wf df' ∧ len df' ≤ len Sample.dirty.
Proof.
  apply (call_keeps_the_frame_well_formed Sample.parse_float Sample.Figure
           Sample.mpf_plot (Sample.holding Sample.dirty) Sample.data
           Sample.dirty 2 2).
  - apply Checks.heap_holding.
  - apply Checks.wf_dirty.
Defined.

Lemma three_days_gets_four_columns :
  ∃ df' : DataFrame,
    heap (plot 2%Z 2%R (Sample.holding Sample.three_days)).2 !! Sample.data
      = Some df'
    ∧ columns df' = columns Sample.three_days
                    ++ ["MA"; "STD"; "Upper"; "Lower"].
Proof.
  apply (indicators_are_appended_in_order Sample.parse_float Sample.Figure
           Sample.mpf_plot (Sample.holding Sample.three_days) Sample.data
           Sample.three_days 2 2).
  - apply Checks.heap_holding.
  - apply Checks.wf_three_days.
  - reflexivity.
  - lia.
  - apply three_days_has_no_indicator.
Defined.

Lemma three_days_keeps_rows :
  ∃ df' : DataFrame,
    heap (plot 2%Z 2%R (Sample.holding Sample.three_days)).2 !! Sample.data
      = Some df'
    ∧ index df' = index Sample.three_days
    ∧ ∀ k, k ∉ Spec.indicators →
        lookup_item k (items df') = lookup_item k (items Sample.three_days).
Proof.
  apply (numeric_table_keeps_rows_and_columns Sample.parse_float
           Sample.Figure Sample.mpf_plot (Sample.holding Sample.three_days)
           Sample.data Sample.three_days 2 2).
  - apply Checks.heap_holding.
  - apply Checks.wf_three_days.
  - apply three_days_is_numeric.
Defined.

Lemma three_days_bands_enclose :
  ∃ (df' : DataFrame) (ma upper lower : list float64),
    heap (plot 2%Z 2%R (Sample.holding Sample.three_days)).2 !! Sample.data
      = Some df'
    ∧ getitem df' "MA" = Ok (Float64 ma)
    ∧ getitem df' "Upper" = Ok (Float64 upper)
    ∧ getitem df' "Lower" = Ok (Float64 lower)
    ∧ ∀ (i : nat) (a u l : R),
        ma !! i = Some (Some a) → upper !! i = Some (Some u) →
        lower !! i = Some (Some l) → (l <= a <= u)%R.
Proof.
  apply (bands_enclose_the_average Sample.parse_float Sample.Figure
           Sample.mpf_plot (Sample.holding Sample.three_days) Sample.data
           Sample.three_days 2 2).
  - apply Checks.heap_holding.
  - apply Checks.wf_three_days.
  - reflexivity.
  - lia.
  - lra.
Defined.

Lemma flat_days_have_flat_bands :
  ∃ (df' : DataFrame) (close : list R) (ma sd upper lower : list float64),
    heap (plot 3%Z 2%R (Sample.holding Sample.flat_days)).2 !! Sample.data
      = Some df'
    ∧ getitem df' "Close" = Ok (Float64 (Some <$> close))
    ∧ getitem df' "MA" = Ok (Float64 ma)
    ∧ getitem df' "STD" = Ok (Float64 sd)
    ∧ getitem df' "Upper" = Ok (Float64 upper)
    ∧ getitem df' "Lower" = Ok (Float64 lower)
    ∧ ∀ (i : nat) (c : R),
        i < length close → Z.to_nat 3 ≤ i + 1 →
        (∀ j, i + 1 - Z.to_nat 3 ≤ j → j ≤ i → close !! j = Some c) →
        ma !! i = Some (Some c) ∧ sd !! i = Some (Some 0%R)
        ∧ upper !! i = Some (Some c) ∧ lower !! i = Some (Some c).
Proof.
  apply (flat_window_has_flat_bands Sample.parse_float Sample.Figure
           Sample.mpf_plot (Sample.holding Sample.flat_days) Sample.data
           Sample.flat_days 3 2).
  - apply Checks.heap_holding.
  - apply wf_flat_days.
  - reflexivity.
  - lia.
Defined.

(** The flat table evaluated: three rows of closes at 100 give 100, 0, 100
    and 100. *)
Example flat_days_evaluated :
  (df ← augment Sample.parse_float 3 2 Sample.flat_days;
   ma ← getitem df "MA"; sd ← getitem df "STD";
   upper ← getitem df "Upper"; lower ← getitem df "Lower";
   Ok (cell ma 3, cell sd 3, cell upper 3, cell lower 3))
  = Ok (Some (PyFloat (Some 100%R)), Some (PyFloat (Some 0%R)),
        Some (PyFloat (Some 100%R)), Some (PyFloat (Some 100%R))).
Proof.
  lazy -[Rplus Rmult Rminus Rdiv Rinv Ropp IZR INR sqrt Rsqr].
  assert (Hmean : ((100 + (100 + (100 + 0))) / INR 3 = 100)%R)
    by (simpl; lra).
  rewrite !Hmean.
  assert (Hsq : ∀ x : R, x = 0%R → sqrt x = 0%R)
    by (intros x ->; apply sqrt_0).
  rewrite !Hsq by (unfold Rsqr; simpl; lra).
  repeat f_equal; lra.
Qed.

Lemma partial_table_is_reported :
  BBand.query Sample.parse_float Sample.Figure Sample.mpf_plot
    Sample.yf_partial "NVDA" US 1%Z 9%Z 20%Z 2%R Sample.fresh_session =
  (Ok tt,
   mkState (<[fresh (dom (heap Sample.fresh_session))
              := flattened (Sample.yf_partial "NVDA" 1%Z 9%Z)]>
              (heap Sample.fresh_session))
     (ui Sample.fresh_session
      ++ [st_write_len 3;
          st_write_frame (tail 5 (flattened (Sample.yf_partial "NVDA" 1%Z 9%Z)));
          st_error (unexpected_columns ["Open"; "High"; "Low"; "Close"]);
          st_error cannot_plot])).
Proof.
  apply (query_reports_unexpected_columns Sample.parse_float Sample.Figure
           Sample.mpf_plot Sample.yf_partial Sample.fresh_session
           "NVDA" US 1%Z 9%Z 20 2).
  - reflexivity.
  - reflexivity.
Defined.

Lemma refused_plot_propagates :
  let df := flattened (Sample.yf_download (with_suffix TW "2330") 1%Z 9%Z) in
  let F := augmented Sample.parse_float 2 2 df in
  BBand.query Sample.parse_float Sample.Figure Sample.mpf_refuses
    Sample.yf_download "2330" TW 1%Z 9%Z 2%Z 2%R Sample.fresh_session =
  (Raise ValueError,
   mkState (<[fresh (dom (heap Sample.fresh_session)) := F]>
              (heap Sample.fresh_session))
     (ui Sample.fresh_session
      ++ [st_write_len (len df); st_write_frame (tail 5 df)])).
Proof.
  apply (query_propagates_plot_error Sample.parse_float Sample.Figure
           Sample.mpf_refuses Sample.yf_download Sample.fresh_session
           "2330" TW 1%Z 9%Z 2 2 ValueError).
  - reflexivity.
  - apply (bool_decide_unpack _). vm_compute. exact I.
  - reflexivity.
  - lia.
  - reflexivity.
Defined.

Lemma held_table_survives_a_query :
  heap (query "2330" TW 1%Z 9%Z 2%Z 2%R
          (Sample.holding Sample.dirty)).2 !! Sample.data
  = heap (Sample.holding Sample.dirty) !! Sample.data.
Proof.
  apply (query_leaves_earlier_tables_alone Sample.parse_float Sample.Figure
           Sample.mpf_plot Sample.yf_download (Sample.holding Sample.dirty)
           "2330" TW 1%Z 9%Z 2 2 Sample.data).
  rewrite Checks.heap_holding. by eexists.
Defined.

End ExtraChecks.
